(** * Ticket Wizard: matching and ranking engine

    A shallow embedding of the three rankers of the repository

      - [RecommendationEngine]        (src/services/recommendationEngine.ts)
      - [VectorRecommendationEngine]  (src/services/vectorRecommendationEngine.ts)
      - [FAISSSearchService]          (src/services/faissSearchService.ts)

    together with the properties of their scores, thresholds, result
    sizes, reasons and encoders.

    Conventions.  A JavaScript [number] that comes from the catalog or
    from the preferences is a rational ([Q]): every finite double is one.
    Feature vectors, which go through [Math.sqrt] and [Math.log], are
    lists of real numbers ([R]): the rankers in exact arithmetic, without
    rounding error, [NaN] and the infinities.  [cosineSimilarity] is
    given a second time on binary64 doubles ([Double]), as the code
    computes it.  Strings are sequences of Latin-1 code units. *)

From stdpp Require Import base option list gmap strings.
From Stdlib Require Import ZArith QArith Qabs Qround Reals Lqa Lra Lia.
From Stdlib Require Import String Ascii List.
From Stdlib Require Floats.
Import ListNotations.

Local Open Scope string_scope.
Local Open Scope list_scope.
Local Open Scope Z_scope.

(** ** JavaScript primitives used by the rankers *)

Module Js.

(** [String.prototype.toLowerCase] on one Latin-1 code unit: [A-Z] and
    the accented capitals [U+00C0-U+00DE] (but not the sign [U+00D7])
    move up by 32. *)
Definition lower_char (c : ascii) : ascii :=
  let n := nat_of_ascii c in
  if ((65 <=? n)%nat && (n <=? 90)%nat)
     || ((192 <=? n)%nat && (n <=? 222)%nat && negb (n =? 215)%nat)
  then ascii_of_nat (n + 32)
  else c.

Fixpoint toLowerCase (s : string) : string :=
  match s with
  | EmptyString => EmptyString
  | String c s' => String (lower_char c) (toLowerCase s')
  end.

(** [s.startsWith(p)] *)
Fixpoint startsWith (s p : string) : bool :=
  match p, s with
  | EmptyString, _ => true
  | String _ _, EmptyString => false
  | String a p', String b s' => if Ascii.eqb a b then startsWith s' p' else false
  end.

(** [s.includes(sub)]: [sub] occurs in [s] at some position. *)
Fixpoint includes (s sub : string) : bool :=
  startsWith s sub
  || match s with
     | EmptyString => false
     | String _ s' => includes s' sub
     end.

(** Truthiness of an optional string: [undefined] and [""] are falsy. *)
Definition truthy_string (o : option string) : option string :=
  match o with
  | Some EmptyString => None
  | other => other
  end.

(** Truthiness of an optional number: [undefined] and [0] are falsy. *)
Definition truthy_number (o : option Q) : option Q :=
  match o with
  | Some q => if Qeq_bool q 0 then None else Some q
  | None => None
  end.

(** [Math.round] on a rational: the nearest integer, halves going up. *)
Definition Math_round (x : Q) : Z := Qfloor (x + (1 # 2)).

(** [Math.round] on a real. *)
Definition Math_roundR (x : R) : Z := Zfloor (x + / 2)%R.

Definition Math_abs (x : Q) : Q := Qabs x.

(** Decimal digits of a natural number, most significant first. *)
Fixpoint digits_aux (fuel : nat) (n : N) (acc : string) : string :=
  match fuel with
  | O => acc
  | S fuel' =>
      let d := ascii_of_N (48 + N.modulo n 10) in
      let acc' := String d acc in
      if (n <? 10)%N then acc' else digits_aux fuel' (N.div n 10) acc'
  end.

(** [String(z)] for an integer [z]. *)
Definition Z_toString (z : Z) : string :=
  match z with
  | Z0 => "0"
  | Zpos p => digits_aux (S (N.to_nat (N.log2 (Npos p)))) (Npos p) ""
  | Zneg p => "-" +:+ digits_aux (S (N.to_nat (N.log2 (Npos p)))) (Npos p) ""
  end.

(** [array.slice(0, k)] for an integer [k]: a negative [k] counts from
    the end. *)
Definition slice0 {A} (k : Z) (l : list A) : list A :=
  if k <? 0 then take (Z.to_nat (Z.of_nat (length l) + k)) l
  else take (Z.to_nat k) l.

(** The character classes [\d] and [\s] on Latin-1 code units. *)
Definition is_digit (c : ascii) : bool :=
  let n := nat_of_ascii c in ((48 <=? n)%nat && (n <=? 57)%nat).

Definition is_space (c : ascii) : bool :=
  let n := nat_of_ascii c in
  ((9 <=? n)%nat && (n <=? 13)%nat) || (n =? 32)%nat || (n =? 160)%nat.

(** The longest prefix of [s] whose characters satisfy [p], and the rest. *)
Fixpoint span (p : ascii -> bool) (s : string) : string * string :=
  match s with
  | EmptyString => (EmptyString, EmptyString)
  | String c s' =>
      if p c then let '(a, b) := span p s' in (String c a, b)
      else (EmptyString, s)
  end.

(** An attempt of the pattern [(\d+)\s*(?:w1|w2|...)] at the start of
    [s]; the result is the text of the capture group.  Both repetitions
    are greedy and backing off either one cannot help: the character
    that follows a shortened run is a digit or a space, which starts
    none of the words. *)
Definition number_then_word_at (words : list string) (s : string) : option string :=
  let '(ds, rest) := span is_digit s in
  match ds with
  | EmptyString => None
  | String _ _ =>
      let '(_, rest') := span is_space rest in
      if existsb (startsWith rest') words then Some ds else None
  end.

(** [s.match(/(\d+)\s*(?:w1|w2|...)/)]: the leftmost position where the
    pattern matches; the result is [match[1]]. *)
Fixpoint match_number_then_word (words : list string) (s : string) : option string :=
  match number_then_word_at words s with
  | Some ds => Some ds
  | None =>
      match s with
      | EmptyString => None
      | String _ s' => match_number_then_word words s'
      end
  end.

(** [parseInt(ds)] for a non-empty string of decimal digits: the whole
    number that the digits denote.  The code holds it in a double,
    which is that number as long as it is below 2^53 (every run of up
    to 15 digits); a longer run is rounded, and from 309 digits on it
    is [Infinity]. *)
Fixpoint parseInt_aux (acc : Z) (ds : string) : Z :=
  match ds with
  | EmptyString => acc
  | String c ds' => parseInt_aux (10 * acc + (Z.of_nat (nat_of_ascii c) - 48)) ds'
  end.
Definition parseInt (ds : string) : Z := parseInt_aux 0 ds.

(** What a call does: it returns a value or it throws. *)
Inductive outcome (A : Type) : Type :=
| Returns (a : A)
| Throws.
Global Arguments Returns {A} a.
Global Arguments Throws {A}.

(** [s.split(' ')] *)
Fixpoint split_space (s : string) : list string :=
  match s with
  | EmptyString => [EmptyString]
  | String c s' =>
      if Ascii.eqb c " " then EmptyString :: split_space s'
      else match split_space s' with
           | word :: words => String c word :: words
           | [] => [String c EmptyString]
           end
  end.

(** [parts.join(sep)] *)
Fixpoint join (sep : string) (parts : list string) : string :=
  match parts with
  | [] => EmptyString
  | [part] => part
  | part :: parts' => part +:+ sep +:+ join sep parts'
  end.

(** [String.prototype.toUpperCase] on one Latin-1 code unit whose upper
    case is a Latin-1 code unit again: [a-z] and the accented small
    letters [U+00E0-U+00FE] (but not the sign [U+00F7]) move down by 32.
    The micro sign, the sharp s and the y with diaeresis have their
    upper case outside Latin-1; the sources call [toUpperCase] on the
    first letter of a city name only. *)
Definition upper_char (c : ascii) : ascii :=
  let n := nat_of_ascii c in
  if ((97 <=? n)%nat && (n <=? 122)%nat)
     || ((224 <=? n)%nat && (n <=? 254)%nat && negb (n =? 247)%nat)
  then ascii_of_nat (n - 32)
  else c.

End Js.

(** The part of the host environment the rankers read: number printing
    and the [Date] object. *)
Class Host := {
  (** [String(x)] for a number, as template literals apply it *)
  Number_toString : Q -> string;
  (** [new Date(s).getTime()] in milliseconds; [None] is [NaN]
      (an invalid date) *)
  Date_getTime : string -> option Z;
  (** [getMonth()] of a valid time value, in the host's time zone *)
  Date_getMonth : Z -> Z;
  (** [getDay()] of a valid time value, in the host's time zone *)
  Date_getDay : Z -> Z
}.

(** ** Data model (src/types/index.ts) *)

Record TicketPackage := {
  id : string;
  price : Q;
  venue : string;
  date : string;
  sportType : string;
  seatingCategory : string;
  hospitalityType : string;
  hospitalityVenue : string;
  hospitalityLevel : string;
  location : string;
  availableTickets : Q;
  description : string
}.

Record Budget := { min : Q; max : Q }.

Record UserPreferences := {
  pref_location : option string;
  pref_peopleCount : option Q;
  pref_sport : option string;
  pref_hospitalityType : option string;
  pref_date : option string;
  pref_budget : option Budget
}.

Record RecommendationScore := {
  package : TicketPackage;
  score : Z;
  reasons : list string
}.

(** [scores.sort((a, b) => b.score - a.score)]: a stable sort, highest
    score first. *)
Fixpoint insert_by_score (x : RecommendationScore) (l : list RecommendationScore)
  : list RecommendationScore :=
  match l with
  | [] => [x]
  | y :: l' =>
      if score y >? score x then y :: insert_by_score x l' else x :: y :: l'
  end.

Definition sort_by_score_desc (l : list RecommendationScore) : list RecommendationScore :=
  foldr insert_by_score [] l.

(** Comparisons of numbers, as booleans. *)
Definition Qltb (x y : Q) : bool := negb (Qle_bool y x).
Definition Qgeb (x y : Q) : bool := Qle_bool y x.

(** ** The attribute matcher (src/services/recommendationEngine.ts) *)

Module RecommendationEngine.
Section Engine.
Context `{Host}.
Local Open Scope Q_scope.

(** The [weights] table of [calculateScore]. *)
Definition weights_location : Q := 30.
Definition weights_sport : Q := 25.
Definition weights_hospitality : Q := 20.
Definition weights_date : Q := 15.
Definition weights_people : Q := 10.

(** [preferences.x && field.toLowerCase().includes(preferences.x.toLowerCase())] *)
Definition pref_matches (pref : option string) (field : string) : bool :=
  match Js.truthy_string pref with
  | Some p => Js.includes (Js.toLowerCase field) (Js.toLowerCase p)
  | None => false
  end.

(** [Math.abs((pkgDate.getTime() - prefDate.getTime()) / (1000*60*60*24))];
    [None] is [NaN], when one of the two dates is invalid. *)
Definition daysDiff (pkg : TicketPackage) (prefDate : string) : option Q :=
  match Date_getTime prefDate, Date_getTime (date pkg) with
  | Some prefTime, Some pkgTime =>
      Some (Js.Math_abs (inject_Z (pkgTime - prefTime) / inject_Z (1000 * 60 * 60 * 24)%Z))
  | _, _ => None
  end.

(** [preferences.peopleCount && pkg.availableTickets >= preferences.peopleCount] *)
Definition people_fit (pkg : TicketPackage) (preferences : UserPreferences) : bool :=
  match Js.truthy_number (pref_peopleCount preferences) with
  | Some n => Qgeb (availableTickets pkg) n
  | None => false
  end.

Definition calculateScore (pkg : TicketPackage) (preferences : UserPreferences) : Z :=
  let score : Q := 0 in
  (* Location matching *)
  let score :=
    if pref_matches (pref_location preferences) (location pkg)
    then score + weights_location else score in
  (* Sport matching *)
  let score :=
    if pref_matches (pref_sport preferences) (sportType pkg)
    then score + weights_sport else score in
  (* Hospitality type matching *)
  let score :=
    if pref_matches (pref_hospitalityType preferences) (hospitalityType pkg)
    then score + weights_hospitality else score in
  (* Date matching (fuzzy - within 30 days) *)
  let score :=
    match Js.truthy_string (pref_date preferences) with
    | Some prefDate =>
        match daysDiff pkg prefDate with
        | Some d =>
            if Qle_bool d 30 then score + weights_date * (1 - d / 30) else score
        | None => score
        end
    | None => score
    end in
  (* People count matching (available tickets) *)
  let score :=
    if people_fit pkg preferences then score + weights_people else score in
  (* Budget consideration *)
  let score :=
    match pref_budget preferences with
    | Some budget =>
        if Qgeb (price pkg) (min budget) && Qle_bool (price pkg) (max budget)
        then score + 20
        else if Qltb (price pkg) (min budget)
             then score + 10 (* Bonus for under budget *)
             else score
    | None => score
    end in
  Js.Math_round score.

(** The five reason templates of [getReasons]. *)
Definition reason_location (pkg : TicketPackage) : string :=
  "Matches your location preference: " +:+ location pkg.
Definition reason_sport (pkg : TicketPackage) : string :=
  "Perfect for " +:+ sportType pkg +:+ " fans".
Definition reason_hospitality (pkg : TicketPackage) : string :=
  "Includes " +:+ hospitalityType pkg +:+ " experience".
Definition reason_people (pkg : TicketPackage) : string :=
  "Has " +:+ Number_toString (availableTickets pkg) +:+ " tickets available for your group".
Definition reason_budget (pkg : TicketPackage) : string :=
  "Within your budget at $" +:+ Number_toString (price pkg).

(** [preferences.budget && pkg.price <= preferences.budget.max] *)
Definition within_max (pkg : TicketPackage) (preferences : UserPreferences) : bool :=
  match pref_budget preferences with
  | Some budget => Qle_bool (price pkg) (max budget)
  | None => false
  end.

Definition getReasons (pkg : TicketPackage) (preferences : UserPreferences) : list string :=
  let reasons : list string := [] in
  let reasons :=
    if pref_matches (pref_location preferences) (location pkg)
    then reasons ++ [reason_location pkg] else reasons in
  let reasons :=
    if pref_matches (pref_sport preferences) (sportType pkg)
    then reasons ++ [reason_sport pkg] else reasons in
  let reasons :=
    if pref_matches (pref_hospitalityType preferences) (hospitalityType pkg)
    then reasons ++ [reason_hospitality pkg] else reasons in
  let reasons :=
    if people_fit pkg preferences
    then reasons ++ [reason_people pkg] else reasons in
  let reasons :=
    if within_max pkg preferences
    then reasons ++ [reason_budget pkg] else reasons in
  reasons.

Definition findRecommendations (packages : list TicketPackage)
    (preferences : UserPreferences) : list RecommendationScore :=
  let scores :=
    map (fun pkg => {| package := pkg;
                       score := calculateScore pkg preferences;
                       reasons := getReasons pkg preferences |}) packages in
  Js.slice0 5
    (sort_by_score_desc
       (List.filter (fun item => (score item >? 0)%Z) scores)).

(** The text of a package that [searchByKeywords] looks into. *)
Definition searchableText (pkg : TicketPackage) : string :=
  Js.toLowerCase
    (Js.join " " [ venue pkg; sportType pkg; location pkg; hospitalityType pkg;
                   seatingCategory pkg; description pkg ]).

Definition searchByKeywords (packages : list TicketPackage) (keywords : string)
  : list TicketPackage :=
  let searchTerms := Js.split_space (Js.toLowerCase keywords) in
  List.filter
    (fun pkg => existsb (fun term => Js.includes (searchableText pkg) term) searchTerms)
    packages.

End Engine.
End RecommendationEngine.

(** ** A host for worked examples

    Calendar dates in the ISO form [YYYY-MM-DD], which ECMAScript reads
    as midnight UTC; the time zone is UTC; numbers print as integers. *)

Module UtcHost.

Definition digit (c : ascii) : option Z :=
  let n := Z.of_nat (nat_of_ascii c) in
  if (48 <=? n) && (n <=? 57) then Some (n - 48) else None.

Definition is_leap (y : Z) : bool :=
  ((y mod 4 =? 0) && negb (y mod 100 =? 0)) || (y mod 400 =? 0).

Definition days_in_month (y m : Z) : Z :=
  if m =? 2 then (if is_leap y then 29 else 28)
  else if (m =? 4) || (m =? 6) || (m =? 9) || (m =? 11) then 30 else 31.

(** Days from 1970-01-01 to the civil date [y-m-d]. *)
Definition days_from_civil (y m d : Z) : Z :=
  let y' := if m <=? 2 then y - 1 else y in
  let era := y' / 400 in
  let yoe := y' - era * 400 in
  let mp := (m + 9) mod 12 in
  let doy := (153 * mp + 2) / 5 + d - 1 in
  let doe := yoe * 365 + yoe / 4 - yoe / 100 + doy in
  era * 146097 + doe - 719468.

(** Month ([0..11]) of the civil date that lies [days] days after
    1970-01-01. *)
Definition month_from_days (days : Z) : Z :=
  let z := days + 719468 in
  let era := z / 146097 in
  let doe := z - era * 146097 in
  let yoe := (doe - doe / 1460 + doe / 36524 - doe / 146096) / 365 in
  let doy := doe - (365 * yoe + yoe / 4 - yoe / 100) in
  let mp := (5 * doy + 2) / 153 in
  (if mp <? 10 then mp + 3 else mp - 9) - 1.

Definition ms_per_day : Z := 86400000.

Definition parse_iso_date (s : string) : option Z :=
  match s with
  | String y1 (String y2 (String y3 (String y4 (String "-"
      (String m1 (String m2 (String "-" (String d1 (String d2 EmptyString))))))))) =>
      match digit y1, digit y2, digit y3, digit y4,
            digit m1, digit m2, digit d1, digit d2 with
      | Some a, Some b, Some c, Some d, Some e, Some f, Some g, Some h =>
          let y := a * 1000 + b * 100 + c * 10 + d in
          let m := e * 10 + f in
          let dd := g * 10 + h in
          if (1 <=? m) && (m <=? 12) && (1 <=? dd) && (dd <=? days_in_month y m)
          then Some (days_from_civil y m dd * ms_per_day)
          else None
      | _, _, _, _, _, _, _, _ => None
      end
  | _ => None
  end.

Definition print_number (q : Q) : string :=
  Js.Z_toString (Qfloor q).

#[export] Instance host : Host := {|
  Number_toString := print_number;
  Date_getTime := parse_iso_date;
  Date_getMonth := fun t => month_from_days (t / ms_per_day);
  Date_getDay := fun t => (t / ms_per_day + 4) mod 7
|}.

(** The same host one hour east of Greenwich. *)
Definition host_east : Host := {|
  Number_toString := print_number;
  Date_getTime := parse_iso_date;
  Date_getMonth := fun t => month_from_days ((t + 3600000) / ms_per_day);
  Date_getDay := fun t => ((t + 3600000) / ms_per_day + 4) mod 7
|}.

End UtcHost.

(** ** Cosine similarity

    [cosineSimilarity] is written out twice in the sources, in
    [VectorRecommendationEngine] and in [FAISSSearchService], with the
    same text.  It is given here twice as well: on real numbers, which
    is the function in exact arithmetic, and on doubles ([Double]),
    which is the function as it runs. *)

Section Cosine.
Local Open Scope R_scope.

(** [a[i]] for an index inside the array. *)
Definition at_index (a : list R) (i : nat) : R := nth i a 0.

(** The loop [for (let i = 0; i < a.length; i++)] with its three
    accumulators [dotProduct], [normA], [normB]. *)
Definition cosine_loop (a b : list R) : R * R * R :=
  fold_left
    (fun '(dotProduct, normA, normB) i =>
       (dotProduct + at_index a i * at_index b i,
        normA + at_index a i * at_index a i,
        normB + at_index b i * at_index b i))
    (seq 0 (length a)) (0, 0, 0).

Definition cosineSimilarity (a b : list R) : R :=
  if negb (length a =? length b)%nat then 0
  else
    let '(dotProduct, normA, normB) := cosine_loop a b in
    if Req_dec_T normA 0 then 0
    else if Req_dec_T normB 0 then 0
    else dotProduct / (sqrt normA * sqrt normB).

End Cosine.

(** The same text on binary64 doubles: [+], [*], [/] and [Math.sqrt]
    round to nearest, [===] is the comparison of IEEE 754, under which
    [-0] equals [0] and [NaN] equals nothing. *)
Module Double.
Import Floats.
Local Open Scope float_scope.

Definition at_index (a : list float) (i : nat) : float := nth i a 0.

Definition cosine_loop (a b : list float) : float * float * float :=
  fold_left
    (fun '(dotProduct, normA, normB) i =>
       (dotProduct + at_index a i * at_index b i,
        normA + at_index a i * at_index a i,
        normB + at_index b i * at_index b i))
    (seq 0 (length a)) (0, 0, 0).

Definition cosineSimilarity (a b : list float) : float :=
  if negb (length a =? length b)%nat then 0
  else
    let '(dotProduct, normA, normB) := cosine_loop a b in
    if (normA =? 0) || (normB =? 0) then 0
    else dotProduct / (sqrt normA * sqrt normB).

End Double.

(** [cond ? 1 : 0] *)
Definition indicator (b : bool) : R := if b then 1%R else 0%R.

(** The table [{ Bronze: 0.25, Silver: 0.5, Gold: 0.75, Platinum: 1.0 }]
    followed by [|| 0.5]; every entry is truthy, so the default is taken
    exactly for the other strings that name no property every object
    inherits.  For a level such as [constructor] or [toString] the
    lookup finds the inherited function, the entry of the vector is not
    a number and every similarity computed from it is [NaN]: this
    definition does not cover those levels, and a statement that
    depends on the value of the entry names the levels it is about. *)
Definition hospitality_level_score (level : string) : R :=
  if String.eqb level "Bronze" then 0.25%R
  else if String.eqb level "Silver" then 0.5%R
  else if String.eqb level "Gold" then 0.75%R
  else if String.eqb level "Platinum" then 1.0%R
  else 0.5%R.

(** ** The linear vector ranker (src/services/vectorRecommendationEngine.ts) *)

Module VectorRecommendationEngine.
Section Engine.
Context `{Host}.
Local Open Scope R_scope.

(** The object: its catalog and its cache of embeddings, keyed by
    package id. *)
Record t := {
  packages : list TicketPackage;
  packageEmbeddings : gmap string (list R)
}.

Definition encodeLocation (location : string) : list R :=
  let cities := ["New York"; "Los Angeles"; "Boston"; "Chicago"; "Dallas";
                 "San Francisco"; "Denver"; "Green Bay"] in
  map (fun city =>
         indicator (Js.includes (Js.toLowerCase location) (Js.toLowerCase city)))
      cities.

Definition encodeSport (sport : string) : list R :=
  let sports := ["Basketball"; "Baseball"; "Football"; "Hockey"] in
  map (fun s => indicator (String.eqb (Js.toLowerCase sport) (Js.toLowerCase s)))
      sports.

Definition encodeHospitalityLevel (level : string) : R :=
  hospitality_level_score level.

Definition encodeVenuePrestige (venue : string) : R :=
  let prestigious := ["Madison Square Garden"; "Staples Center"; "Fenway Park";
                      "Lambeau Field"] in
  if existsb (fun v => Js.includes venue v) prestigious then 1.0 else 0.5.

Definition createPackageEmbedding (pkg : TicketPackage) : list R :=
  encodeLocation (location pkg)
  ++ encodeSport (sportType pkg)
  ++ [ Rmin (Q2R (price pkg) / 1000) 1;
       encodeHospitalityLevel (hospitalityLevel pkg);
       encodeVenuePrestige (venue pkg);
       0.5;
       Rmin (Q2R (availableTickets pkg) / 50) 1 ].

(** [initializeEmbeddings], which the constructor starts and does not
    wait for: the cache after the loop has handled the packages in
    [done']. *)
Definition embeddings_after (done' : list TicketPackage) : gmap string (list R) :=
  fold_left (fun m pkg => <[id pkg := createPackageEmbedding pkg]> m) done' ∅.

(** The object as the earliest scan finds it.  The constructor returns
    with an empty cache and the loop of [initializeEmbeddings] waiting at
    its first [await]; a call of [findRecommendationsByQuery] made at
    once waits in turn, for its query vector, and the loop, which was
    first in line, has stored the vector of the first package when the
    scan of that call starts. *)
Definition at_first_scan (packages : list TicketPackage) : t :=
  {| packages := packages; packageEmbeddings := embeddings_after (take 1 packages) |}.

(** The same object once [initializeEmbeddings] has run to its end. *)
Definition initialized (packages : list TicketPackage) : t :=
  {| packages := packages; packageEmbeddings := embeddings_after packages |}.

Definition extractLocationFromQuery (query : string) : list R :=
  let cities := ["new york"; "los angeles"; "boston"; "chicago"; "dallas";
                 "san francisco"; "denver"; "green bay"] in
  map (fun city => indicator (Js.includes query city)) cities.

(** [sports.indexOf(sport)], [-1] as [None]. *)
Fixpoint indexOf (l : list string) (x : string) : option nat :=
  match l with
  | [] => None
  | y :: l' => if String.eqb y x then Some O else option_map S (indexOf l' x)
  end.

Definition extractSportFromQuery (query : string) : list R :=
  let sports := ["basketball"; "baseball"; "football"; "hockey"] in
  let teams := [("knicks", "basketball"); ("lakers", "basketball");
                ("celtics", "basketball"); ("bulls", "basketball");
                ("yankees", "baseball"); ("red sox", "baseball");
                ("cowboys", "football"); ("patriots", "football")] in
  let sportVector := map (fun sport => indicator (Js.includes query sport)) sports in
  (* Check for team names *)
  fold_left
    (fun sportVector '(team, sport) =>
       if Js.includes query team then
         match indexOf sports sport with
         | Some sportIndex => <[sportIndex := 1]> sportVector
         | None => sportVector
         end
       else sportVector)
    teams sportVector.

Definition extractPricePreferenceFromQuery (query : string) : R :=
  if Js.includes query "cheap" || Js.includes query "budget" || Js.includes query "under"
  then 0.2
  else if Js.includes query "premium" || Js.includes query "expensive"
          || Js.includes query "luxury"
  then 0.9
  else if Js.includes query "vip" then 1.0
  else 0.5.

Definition extractHospitalityFromQuery (query : string) : R :=
  if Js.includes query "vip" || Js.includes query "premium" || Js.includes query "luxury"
  then 1.0
  else if Js.includes query "club" || Js.includes query "lounge" then 0.75
  else if Js.includes query "basic" || Js.includes query "standard" then 0.25
  else 0.5.

Definition extractGroupSizeInfluence (query : string) : R :=
  match Js.match_number_then_word ["people"; "person"; "group"; "friends"] query with
  | Some groupMatch1 =>
      let size := Js.parseInt groupMatch1 in
      Rmin (IZR size / 10) 1
  | None => 0.5
  end.

Definition createQueryEmbedding (query : string) : list R :=
  let lowerQuery := Js.toLowerCase query in
  extractLocationFromQuery lowerQuery
  ++ extractSportFromQuery lowerQuery
  ++ [ extractPricePreferenceFromQuery lowerQuery;
       extractHospitalityFromQuery lowerQuery;
       0.5;
       0.5;
       extractGroupSizeInfluence lowerQuery ].

Definition generateReasons (query : string) (pkg : TicketPackage) (similarity : R)
  : list string :=
  let reasons : list string := [] in
  let lowerQuery := Js.toLowerCase query in
  (* Location match *)
  let reasons :=
    if Js.includes lowerQuery (Js.toLowerCase (location pkg))
    then reasons ++ ["Located in " +:+ location pkg +:+ " as requested"]
    else reasons in
  (* Sport match *)
  let reasons :=
    if Js.includes lowerQuery (Js.toLowerCase (sportType pkg))
    then reasons ++ ["Perfect for " +:+ sportType pkg +:+ " fans"]
    else reasons in
  (* Price consideration *)
  let reasons :=
    if Js.includes lowerQuery "budget" || Js.includes lowerQuery "cheap"
    then (if Qltb (price pkg) 200
          then reasons ++ ["Budget-friendly at $" +:+ Number_toString (price pkg)]
          else reasons)
    else reasons in
  let reasons :=
    if Js.includes lowerQuery "premium" || Js.includes lowerQuery "vip"
    then (if String.eqb (hospitalityLevel pkg) "Platinum"
             || String.eqb (hospitalityLevel pkg) "Gold"
          then reasons ++ ["Premium " +:+ hospitalityLevel pkg +:+ " experience"]
          else reasons)
    else reasons in
  (* Hospitality match *)
  let reasons :=
    if Js.includes lowerQuery "vip" && Js.includes (hospitalityType pkg) "VIP"
    then reasons ++ ["Includes VIP access and amenities"]
    else reasons in
  (* High similarity boost *)
  let reasons :=
    if Rlt_dec 0.8 similarity
    then reasons ++ ["Excellent match for your preferences"]
    else reasons in
  match reasons with
  | [] => ["Good option with " +:+ Js.Z_toString (Js.Math_roundR (similarity * 100))
           +:+ "% match"]
  | _ :: _ => reasons
  end.

(** The loop of [findRecommendationsByQuery] over the catalog: one
    entry for every package that has an embedding in the cache. *)
Definition score_packages (self : t) (query : string) (queryEmbedding : list R)
  : list RecommendationScore :=
  flat_map
    (fun pkg =>
       match packageEmbeddings self !! id pkg with
       | Some packageEmbedding =>
           let similarity := cosineSimilarity queryEmbedding packageEmbedding in
           let reasons := generateReasons query pkg similarity in
           [ {| package := pkg;
                score := Js.Math_roundR (similarity * 100);
                reasons := reasons |} ]
       | None => []
       end)
    (packages self).

Definition findRecommendationsByQuery (self : t) (query : string)
  : list RecommendationScore :=
  let queryEmbedding := createQueryEmbedding query in
  let scores := score_packages self query queryEmbedding in
  Js.slice0 5
    (sort_by_score_desc
       (List.filter (fun item => (score item >? 30)%Z) scores)).

(** [findRecommendations]: the placeholder kept for compatibility. *)
Definition findRecommendations (self : t) (preferences : UserPreferences)
  : list RecommendationScore :=
  Js.slice0 5
    (map (fun pkg => {| package := pkg; score := 50;
                        reasons := ["Vector search fallback"] |})
         (packages self)).

End Engine.
End VectorRecommendationEngine.

(** ** The index-backed ranker (src/services/faissSearchService.ts) *)

Module FAISSSearchService.

(** What [index.search] resolves to. *)
Record SearchResult := {
  labels : list Z;
  distances : list R
}.

(** The optional dependency [faiss-node], as far as the service calls
    it: the inner-product index, [add] and [search].  Each call may
    throw. *)
Class Faiss := {
  Index : Type;
  IndexFlatIP : Z -> Js.outcome Index;
  add : Index -> list R -> Js.outcome Index;
  search : Index -> list R -> Z -> Js.outcome SearchResult
}.

(** A value that reaches a parameter declared [number[]]: an array, or
    the promise of one that nobody awaited. *)
Inductive array_arg :=
| Array (v : list R)
| Pending (v : list R).

Section Service.
Context `{Host} `{Faiss}.
Local Open Scope R_scope.

(** The real that stands for [NaN] in a feature vector built from an
    invalid date.  Nothing is assumed about it. *)
Variable NaN : R.

Record t := {
  faissIndex : option Index;
  packages : list TicketPackage;
  packageEmbeddings : gmap string (list R);
  isInitialized : bool
}.

Definition embeddingDimension : nat := 384.

(** [for (const [key, value] of Object.entries(table)) if (text.includes(key)) return value;]
    followed by [return fallback]. *)
Definition first_included (table : list (string * list R)) (text : string)
    (fallback : list R) : list R :=
  match List.find (fun '(key, _) => Js.includes text key) table with
  | Some (_, value) => value
  | None => fallback
  end.

(** [while (features.length < this.embeddingDimension) features.push(0)]
    and [features.slice(0, this.embeddingDimension)]. *)
Definition pad_to_dimension (features : list R) : list R :=
  take embeddingDimension
       (features ++ replicate (embeddingDimension - length features) 0).

(** *** Enhanced encoding methods *)

Definition encodeLocationWithProximity (location : string) : list R :=
  let cities :=
    [ ("new york",      [1; 0; 0; 0; 0; 0; 0; 0; 0.8; 0.3]);
      ("los angeles",   [0; 1; 0; 0; 0; 0; 0; 0; 0.2; 0.9]);
      ("boston",        [0; 0; 1; 0; 0; 0; 0; 0; 0.9; 0.1]);
      ("chicago",       [0; 0; 0; 1; 0; 0; 0; 0; 0.4; 0.4]);
      ("dallas",        [0; 0; 0; 0; 1; 0; 0; 0; 0.1; 0.6]);
      ("san francisco", [0; 0; 0; 0; 0; 1; 0; 0; 0.1; 0.8]);
      ("denver",        [0; 0; 0; 0; 0; 0; 1; 0; 0.2; 0.2]);
      ("green bay",     [0; 0; 0; 0; 0; 0; 0; 1; 0.3; 0.1]) ] in
  let lowerLocation := Js.toLowerCase location in
  first_included cities lowerLocation [0; 0; 0; 0; 0; 0; 0; 0; 0.5; 0.5].

Definition encodeSportWithTeams (sport : string) : list R :=
  let sportFeatures :=
    [ ("basketball", [1; 0; 0; 0; 0.9; 0.8; 0.7]);
      ("baseball",   [0; 1; 0; 0; 0.6; 0.9; 0.8]);
      ("football",   [0; 0; 1; 0; 0.7; 0.6; 0.9]);
      ("hockey",     [0; 0; 0; 1; 0.8; 0.7; 0.8]) ] in
  let lowerSport := Js.toLowerCase sport in
  first_included sportFeatures lowerSport [0; 0; 0; 0; 0.5; 0.5; 0.5].

Definition encodePriceFeatures (price : Q) : list R :=
  [ Rmin (Q2R price / 1000) 1;
    indicator (Qltb price 100);
    indicator (Qgeb price 100 && Qltb price 500);
    indicator (Qgeb price 500 && Qltb price 1000);
    indicator (Qgeb price 1000);
    ln (Q2R price + 1) / 10 ].

Definition encodeHospitalityFeatures (level type : string) : list R :=
  let levelScore := hospitality_level_score level in
  let typeFeatures :=
    [ indicator (Js.includes (Js.toLowerCase type) "vip");
      indicator (Js.includes (Js.toLowerCase type) "club");
      indicator (Js.includes (Js.toLowerCase type) "premium");
      indicator (Js.includes (Js.toLowerCase type) "standard") ] in
  levelScore :: typeFeatures.

Definition encodeVenueFeatures (venue : string) : list R :=
  let prestigiousVenues :=
    ["madison square garden"; "staples center"; "fenway park";
     "lambeau field"; "yankee stadium"; "td garden"] in
  let lowerVenue := Js.toLowerCase venue in
  let isPrestigious :=
    if existsb (fun v => Js.includes lowerVenue v) prestigiousVenues then 1 else 0.5 in
  [ isPrestigious;
    indicator (Js.includes lowerVenue "center" || Js.includes lowerVenue "arena");
    indicator (Js.includes lowerVenue "stadium");
    indicator (Js.includes lowerVenue "field" || Js.includes lowerVenue "park") ].

(** [now] is the reading of the clock, [new Date().getTime()]. *)
Definition encodeDateFeatures (now : Z) (date : string) : list R :=
  match Date_getTime date with
  | Some eventTime =>
      let daysDiff := Rabs (IZR (eventTime - now) / IZR (1000 * 60 * 60 * 24)) in
      [ Rmin (daysDiff / 365) 1;
        IZR (Date_getMonth eventTime) / 12;
        IZR (Date_getDay eventTime) / 7;
        (if Rlt_dec daysDiff 7 then 1 else 0);
        (if Rlt_dec daysDiff 30 then 1 else 0) ]
  | None =>
      (* every quantity is NaN and both comparisons are false *)
      [ NaN; NaN; NaN; 0; 0 ]
  end.

Definition encodeAvailabilityFeatures (available : Q) : list R :=
  [ Rmin (Q2R available / 100) 1;
    indicator (Qltb 50 available);
    indicator (Qltb available 10);
    indicator (Qeq_bool available 0) ].

Definition encodeTextFeatures (description : string) : list R :=
  let lowerDesc := Js.toLowerCase description in
  let keywords := ["luxury"; "premium"; "exclusive"; "family"; "group";
                   "corporate"; "special"] in
  map (fun keyword => indicator (Js.includes lowerDesc keyword)) keywords.

Definition encodeSeatingFeatures (category : string) : list R :=
  let lowerCategory := Js.toLowerCase category in
  [ indicator (Js.includes lowerCategory "floor" || Js.includes lowerCategory "court");
    indicator (Js.includes lowerCategory "lower");
    indicator (Js.includes lowerCategory "upper");
    indicator (Js.includes lowerCategory "suite" || Js.includes lowerCategory "box");
    indicator (Js.includes lowerCategory "club") ].

Definition createPackageEmbedding (now : Z) (pkg : TicketPackage) : list R :=
  let features :=
    encodeLocationWithProximity (location pkg)
    ++ encodeSportWithTeams (sportType pkg)
    ++ encodePriceFeatures (price pkg)
    ++ encodeHospitalityFeatures (hospitalityLevel pkg) (hospitalityType pkg)
    ++ encodeVenueFeatures (venue pkg)
    ++ encodeDateFeatures now (date pkg)
    ++ encodeAvailabilityFeatures (availableTickets pkg)
    ++ encodeTextFeatures (description pkg)
    ++ encodeSeatingFeatures (seatingCategory pkg) in
  pad_to_dimension features.

(** *** Basic encoding methods for fallback *)

Definition encodeBasicLocation (location : string) : list R :=
  let cities := ["new york"; "los angeles"; "boston"; "chicago"; "dallas";
                 "san francisco"; "denver"; "green bay"] in
  map (fun city => indicator (Js.includes (Js.toLowerCase location) city)) cities.

Definition encodeBasicSport (sport : string) : list R :=
  let sports := ["basketball"; "baseball"; "football"; "hockey"] in
  map (fun s => indicator (String.eqb (Js.toLowerCase sport) s)) sports.

Definition encodeBasicHospitality (level : string) : R :=
  hospitality_level_score level.

(** [random i] is what the [i]-th call of [Math.random()] returns. *)
Definition createFallbackEmbedding (random : nat -> R) (pkg : TicketPackage) : list R :=
  let basic :=
    encodeBasicLocation (location pkg)
    ++ encodeBasicSport (sportType pkg)
    ++ [ Rmin (Q2R (price pkg) / 1000) 1;
         encodeBasicHospitality (hospitalityLevel pkg) ] in
  take embeddingDimension
       (basic ++ map (fun i => random i * 0.1)
                     (seq 0 (embeddingDimension - length basic))).

(** *** Construction *)

(** [generatePackageEmbeddings].  Its [catch] branch stores
    [createFallbackEmbedding pkg] when [createPackageEmbedding] throws,
    which it does not on a record whose fields have their declared
    types. *)
Definition generatePackageEmbeddings (now : Z) (packages : list TicketPackage)
  : gmap string (list R) :=
  fold_left (fun m pkg => <[id pkg := createPackageEmbedding now pkg]> m) packages ∅.

(** [buildIndex] on an index that exists. *)
Definition buildIndex (index : Index) (packages : list TicketPackage)
    (packageEmbeddings : gmap string (list R)) : Js.outcome Index :=
  let embeddings :=
    flat_map (fun pkg => match packageEmbeddings !! id pkg with
                         | Some embedding => [embedding]
                         | None => []
                         end) packages in
  match embeddings with
  | [] => Js.Throws (* 'No valid embeddings found' *)
  | _ :: _ => add index (concat embeddings)
  end.

(** The object when the constructor returns: [initializeIndex] has been
    started and waits for the import.  [findRecommendationsByQuery] reads
    [isInitialized] and [faissIndex] before its first [await], so a call
    made at once finds the object like this. *)
Definition constructed (packages : list TicketPackage) : t :=
  {| faissIndex := None; packages := packages;
     packageEmbeddings := ∅; isInitialized := false |}.

(** The object when the promise of [initializeIndex], which the
    constructor starts, has settled.  [import_ok] tells whether
    [await import('faiss-node')] succeeded. *)
Definition initializeIndex (import_ok : bool) (now : Z) (packages : list TicketPackage) : t :=
  let failed index embeddings :=
    {| faissIndex := index; packages := packages;
       packageEmbeddings := embeddings; isInitialized := false |} in
  if negb import_ok then failed None ∅
  else
    match IndexFlatIP (Z.of_nat embeddingDimension) with
    | Js.Throws => failed None ∅
    | Js.Returns index =>
        let embeddings := generatePackageEmbeddings now packages in
        match buildIndex index packages embeddings with
        | Js.Throws => failed (Some index) embeddings
        | Js.Returns index' =>
            {| faissIndex := Some index'; packages := packages;
               packageEmbeddings := embeddings; isInitialized := true |}
        end
    end.

(** *** Query encoding *)

Definition extractLocationFromQuery (query : string) : list R :=
  let cities :=
    [ ("new york",      [1; 0; 0; 0; 0; 0; 0; 0; 0.8; 0.3]);
      ("nyc",           [1; 0; 0; 0; 0; 0; 0; 0; 0.8; 0.3]);
      ("los angeles",   [0; 1; 0; 0; 0; 0; 0; 0; 0.2; 0.9]);
      ("la",            [0; 1; 0; 0; 0; 0; 0; 0; 0.2; 0.9]);
      ("boston",        [0; 0; 1; 0; 0; 0; 0; 0; 0.9; 0.1]);
      ("chicago",       [0; 0; 0; 1; 0; 0; 0; 0; 0.4; 0.4]);
      ("dallas",        [0; 0; 0; 0; 1; 0; 0; 0; 0.1; 0.6]);
      ("san francisco", [0; 0; 0; 0; 0; 1; 0; 0; 0.1; 0.8]);
      ("sf",            [0; 0; 0; 0; 0; 1; 0; 0; 0.1; 0.8]);
      ("denver",        [0; 0; 0; 0; 0; 0; 1; 0; 0.2; 0.2]);
      ("green bay",     [0; 0; 0; 0; 0; 0; 0; 1; 0.3; 0.1]) ] in
  first_included cities query [0; 0; 0; 0; 0; 0; 0; 0; 0.5; 0.5].

Definition extractSportFromQuery (query : string) : list R :=
  let sports :=
    [ ("basketball", [1; 0; 0; 0; 0.9; 0.8; 0.7]);
      ("baseball",   [0; 1; 0; 0; 0.6; 0.9; 0.8]);
      ("football",   [0; 0; 1; 0; 0.7; 0.6; 0.9]);
      ("hockey",     [0; 0; 0; 1; 0.8; 0.7; 0.8]) ] in
  let teams :=
    [ ("knicks", "basketball"); ("lakers", "basketball"); ("celtics", "basketball");
      ("bulls", "basketball");
      ("yankees", "baseball"); ("red sox", "baseball"); ("dodgers", "baseball");
      ("cowboys", "football"); ("patriots", "football"); ("packers", "football") ] in
  (* Check direct sport mentions *)
  match List.find (fun '(sport, _) => Js.includes query sport) sports with
  | Some (_, features) => features
  | None =>
      (* Check team mentions *)
      match List.find (fun '(team, _) => Js.includes query team) teams with
      | Some (_, sport) =>
          match List.find (fun '(name, _) => String.eqb name sport) sports with
          | Some (_, features) => features
          | None => [0; 0; 0; 0; 0.5; 0.5; 0.5]
          end
      | None => [0; 0; 0; 0; 0.5; 0.5; 0.5]
      end
  end.

Definition extractPricePreferences (query : string) : list R :=
  let '(priceLevel, budget, mid, premium, luxury) :=
    if Js.includes query "cheap" || Js.includes query "budget"
       || Js.includes query "affordable"
    then (0.2, 1, 0, 0, 0)
    else if Js.includes query "premium" || Js.includes query "expensive"
    then (0.8, 0, 0, 1, 0)
    else if Js.includes query "vip" || Js.includes query "luxury"
    then (1.0, 0, 0, 0, 1)
    else if Js.includes query "mid" || Js.includes query "moderate"
    then (0.5, 0, 1, 0, 0)
    else (0.5, 0, 0, 0, 0) in
  [ priceLevel; budget; mid; premium; luxury; ln (priceLevel * 1000 + 1) / 10 ].

Definition extractHospitalityPreferences (query : string) : list R :=
  let '(level, features) :=
    if Js.includes query "vip" then (1.0, [1; 0; 0; 0])
    else if Js.includes query "club" then (0.75, [0; 1; 0; 0])
    else if Js.includes query "premium" then (0.75, [0; 0; 1; 0])
    else if Js.includes query "standard" || Js.includes query "basic"
    then (0.25, [0; 0; 0; 1])
    else (0.5, [0; 0; 0; 0]) in
  level :: features.

Definition extractVenuePreferences (query : string) : list R :=
  [ 0.5;
    indicator (Js.includes query "center" || Js.includes query "arena");
    indicator (Js.includes query "stadium");
    indicator (Js.includes query "field" || Js.includes query "park") ].

Definition extractDatePreferences (now : Z) (query : string) : list R :=
  let timePreference :=
    if Js.includes query "tonight" || Js.includes query "today" then 0.1
    else if Js.includes query "this week" then 0.2
    else if Js.includes query "this month" then 0.3
    else if Js.includes query "next month" then 0.5
    else 0.5 in
  [ timePreference;
    IZR (Date_getMonth now) / 12;
    IZR (Date_getDay now) / 7;
    indicator (Js.includes query "week");
    indicator (Js.includes query "month") ].

Definition extractGroupPreferences (query : string) : list R :=
  let groupMatch :=
    Js.match_number_then_word ["people"; "person"; "group"; "friends"; "family"] query in
  let '(size, availability) :=
    match groupMatch with
    | Some groupMatch1 =>
        let groupSize := Js.parseInt groupMatch1 in
        (Rmin (IZR groupSize / 10) 1,
         if (groupSize >? 4)%Z then 0.8 else 0.5)
    | None => (0.5, 0.5)
    end in
  [ size;
    indicator (Js.includes query "group");
    indicator (Js.includes query "family");
    (if Rlt_dec 0.5 availability then 1 else 0) ].

Definition extractIntentFeatures (query : string) : list R :=
  [ indicator (Js.includes query "luxury");
    indicator (Js.includes query "family");
    indicator (Js.includes query "corporate");
    indicator (Js.includes query "date" || Js.includes query "romantic");
    indicator (Js.includes query "celebration" || Js.includes query "special");
    indicator (Js.includes query "business");
    indicator (Js.includes query "entertainment") ].

Definition extractSeatingPreferences (query : string) : list R :=
  [ indicator (Js.includes query "floor" || Js.includes query "court");
    indicator (Js.includes query "lower");
    indicator (Js.includes query "upper");
    indicator (Js.includes query "suite" || Js.includes query "box");
    indicator (Js.includes query "club") ].

Definition createQueryEmbedding (now : Z) (query : string) : list R :=
  let lowerQuery := Js.toLowerCase query in
  let features :=
    extractLocationFromQuery lowerQuery
    ++ extractSportFromQuery lowerQuery
    ++ extractPricePreferences lowerQuery
    ++ extractHospitalityPreferences lowerQuery
    ++ extractVenuePreferences lowerQuery
    ++ extractDatePreferences now lowerQuery
    ++ extractGroupPreferences lowerQuery
    ++ extractIntentFeatures lowerQuery
    ++ extractSeatingPreferences lowerQuery in
  pad_to_dimension features.

(** *** Ranking *)

Definition generateReasons (query : string) (pkg : TicketPackage) (similarity : R)
  : list string :=
  let reasons : list string := [] in
  let lowerQuery := Js.toLowerCase query in
  (* Location match *)
  let reasons :=
    if Js.includes lowerQuery (Js.toLowerCase (location pkg))
    then reasons ++ ["Located in " +:+ location pkg +:+ " as requested"]
    else reasons in
  (* Sport match *)
  let reasons :=
    if Js.includes lowerQuery (Js.toLowerCase (sportType pkg))
    then reasons ++ ["Perfect for " +:+ sportType pkg +:+ " fans"]
    else reasons in
  (* Price consideration *)
  let reasons :=
    if Js.includes lowerQuery "budget" || Js.includes lowerQuery "cheap"
    then (if Qltb (price pkg) 200
          then reasons ++ ["Budget-friendly at $" +:+ Number_toString (price pkg)]
          else reasons)
    else reasons in
  let reasons :=
    if Js.includes lowerQuery "premium" || Js.includes lowerQuery "vip"
    then (if String.eqb (hospitalityLevel pkg) "Platinum"
             || String.eqb (hospitalityLevel pkg) "Gold"
          then reasons ++ ["Premium " +:+ hospitalityLevel pkg +:+ " experience"]
          else reasons)
    else reasons in
  (* Hospitality match *)
  let reasons :=
    if Js.includes lowerQuery "vip" && Js.includes (hospitalityType pkg) "VIP"
    then reasons ++ ["Includes VIP access and amenities"]
    else reasons in
  (* High similarity boost *)
  let reasons :=
    if Rlt_dec 0.8 similarity
    then reasons ++ ["Excellent match for your preferences"]
    else if Rlt_dec 0.6 similarity
    then reasons ++ ["Good match for your requirements"]
    else reasons in
  match reasons with
  | [] => [Js.Z_toString (Js.Math_roundR (similarity * 100)) +:+ "% match for your search"]
  | _ :: _ => reasons
  end.

(** [cosineSimilarity] as [fallbackSearch] calls it.  A promise has no
    [length]: [a.length !== b.length] compares [undefined] with a
    number, and the first line returns 0. *)
Definition cosineSimilarity_of (a : array_arg) (b : list R) : R :=
  match a with
  | Array v => cosineSimilarity v b
  | Pending _ => 0
  end.

(** The body of [fallbackSearch] after its first line, for the value
    that line binds to [queryEmbedding]. *)
Definition fallbackScan (self : t) (queryEmbedding : array_arg)
    (query : string) (k : Z) : list RecommendationScore :=
  let scores :=
    flat_map
      (fun pkg =>
         match packageEmbeddings self !! id pkg with
         | Some packageEmbedding =>
             let similarity := cosineSimilarity_of queryEmbedding packageEmbedding in
             let reasons := generateReasons query pkg similarity in
             [ {| package := pkg;
                  score := Js.Math_roundR (similarity * 100);
                  reasons := reasons |} ]
         | None => []
         end)
      (packages self) in
  Js.slice0 k
    (sort_by_score_desc
       (List.filter (fun item => (score item >? 30)%Z) scores)).

(** [fallbackSearch] is not [async] and calls the [async]
    [createQueryEmbedding] without [await]: [queryEmbedding] is the
    promise. *)
Definition fallbackSearch (self : t) (now : Z) (query : string) (k : Z)
  : list RecommendationScore :=
  let queryEmbedding := Pending (createQueryEmbedding now query) in
  fallbackScan self queryEmbedding query k.

(** The loop over [results.labels].  An index [i] without a distance
    gives [similarity = undefined] and a [NaN] score, which the final
    filter [score > 30] drops; such entries are left out here. *)
Fixpoint collect_results (self : t) (query : string)
    (labels : list Z) (distances : list R) : list RecommendationScore :=
  match labels, distances with
  | packageIndex :: labels', similarity :: distances' =>
      let rest := collect_results self query labels' distances' in
      if (packageIndex >=? 0)%Z && (packageIndex <? Z.of_nat (length (packages self)))%Z
      then
        match packages self !! Z.to_nat packageIndex with
        | Some pkg =>
            let score := Js.Math_roundR (Rmax 0 (similarity * 100)) in
            let reasons := generateReasons query pkg similarity in
            {| package := pkg; score := score; reasons := reasons |} :: rest
        | None => rest
        end
      else rest
  | _, _ => []
  end.

(** The [try] block of [findRecommendationsByQuery]. *)
Definition searchIndex (self : t) (index : Index) (now : Z) (query : string) (k : Z)
  : Js.outcome (list RecommendationScore) :=
  let queryEmbedding := createQueryEmbedding now query in
  match search index queryEmbedding k with
  | Js.Throws => Js.Throws
  | Js.Returns results =>
      let recommendations :=
        collect_results self query (labels results) (distances results) in
      Js.Returns (List.filter (fun r => (score r >? 30)%Z) recommendations)
  end.

Definition findRecommendationsByQuery (self : t) (now : Z) (query : string) (k : Z)
  : Js.outcome (list RecommendationScore) :=
  match isInitialized self, faissIndex self with
  | true, Some index =>
      match searchIndex self index now query k with
      | Js.Returns recommendations => Js.Returns recommendations
      | Js.Throws => (* catch *) Js.Returns (fallbackSearch self now query k)
      end
  | _, _ =>
      (* Fallback to simple similarity search *)
      Js.Returns (fallbackSearch self now query k)
  end.

(** The default value of the parameter [k]. *)
Definition default_k : Z := 5.

(** *** Performance monitoring *)

(** What [getPerformanceStats] returns. *)
Record PerformanceStats := {
  stats_isInitialized : bool;
  packageCount : nat;
  stats_embeddingDimension : nat;
  indexType : string
}.

Definition getPerformanceStats (self : t) : PerformanceStats :=
  {| stats_isInitialized := isInitialized self;
     packageCount := length (packages self);
     stats_embeddingDimension := embeddingDimension;
     indexType := match faissIndex self with
                  | Some _ => "FAISS IndexFlatIP"
                  | None => "Fallback Cosine Similarity"
                  end |}.

End Service.
End FAISSSearchService.

(** ** Vocabulary of the properties *)

(** The sum of products that the loop of [cosineSimilarity] accumulates:
    [dot a b] is its [dotProduct], [dot a a] its [normA] and [dot b b]
    its [normB]. *)
Fixpoint dot (a b : list R) : R :=
  match a, b with
  | x :: a', y :: b' => (x * y + dot a' b')%R
  | _, _ => 0%R
  end.

Module RecommendationEngineTerms.
Import RecommendationEngine.
Section Terms.
Context `{Host}.
Local Open Scope Q_scope.

(** What each weighted term adds to the running [score] of
    [calculateScore]. *)
Definition location_term (pkg : TicketPackage) (preferences : UserPreferences) : Q :=
  if pref_matches (pref_location preferences) (location pkg) then weights_location else 0.
Definition sport_term (pkg : TicketPackage) (preferences : UserPreferences) : Q :=
  if pref_matches (pref_sport preferences) (sportType pkg) then weights_sport else 0.
Definition hospitality_term (pkg : TicketPackage) (preferences : UserPreferences) : Q :=
  if pref_matches (pref_hospitalityType preferences) (hospitalityType pkg)
  then weights_hospitality else 0.
Definition date_term (pkg : TicketPackage) (preferences : UserPreferences) : Q :=
  match Js.truthy_string (pref_date preferences) with
  | Some prefDate =>
      match daysDiff pkg prefDate with
      | Some d => if Qle_bool d 30 then weights_date * (1 - d / 30) else 0
      | None => 0
      end
  | None => 0
  end.
Definition people_term (pkg : TicketPackage) (preferences : UserPreferences) : Q :=
  if people_fit pkg preferences then weights_people else 0.
Definition budget_term (pkg : TicketPackage) (preferences : UserPreferences) : Q :=
  match pref_budget preferences with
  | Some budget =>
      if Qgeb (price pkg) (min budget) && Qle_bool (price pkg) (max budget) then 20
      else if Qltb (price pkg) (min budget) then 10 else 0
  | None => 0
  end.

Definition total (pkg : TicketPackage) (preferences : UserPreferences) : Q :=
  location_term pkg preferences + sport_term pkg preferences
  + hospitality_term pkg preferences + date_term pkg preferences
  + people_term pkg preferences + budget_term pkg preferences.

(** The same sum without the budget term. *)
Definition without_budget (pkg : TicketPackage) (preferences : UserPreferences) : Q :=
  location_term pkg preferences + sport_term pkg preferences
  + hospitality_term pkg preferences + date_term pkg preferences
  + people_term pkg preferences.

(** [pkg] at another price. *)
Definition with_price (pkg : TicketPackage) (p : Q) : TicketPackage :=
  {| id := id pkg; price := p; venue := venue pkg; date := date pkg;
     sportType := sportType pkg; seatingCategory := seatingCategory pkg;
     hospitalityType := hospitalityType pkg;
     hospitalityVenue := hospitalityVenue pkg;
     hospitalityLevel := hospitalityLevel pkg; location := location pkg;
     availableTickets := availableTickets pkg;
     description := description pkg |}.

(** [after] is [before] with some more fields set. *)
Definition field_added {A} (before after : option A) : Prop :=
  before = None \/ before = after.

Definition extends (before after : UserPreferences) : Prop :=
  field_added (pref_location before) (pref_location after)
  /\ field_added (pref_peopleCount before) (pref_peopleCount after)
  /\ field_added (pref_sport before) (pref_sport after)
  /\ field_added (pref_hospitalityType before) (pref_hospitalityType after)
  /\ field_added (pref_date before) (pref_date after)
  /\ field_added (pref_budget before) (pref_budget after).

(** [if (b) reasons.push(reason)] on its own. *)
Definition when (b : bool) (reason : string) : list string :=
  if b then [reason] else [].

(** The first character of a reason. *)
Definition first_letter (s : string) : option ascii :=
  match s with
  | EmptyString => None
  | String c _ => Some c
  end.

End Terms.
End RecommendationEngineTerms.

(** The index honours the [k] of [search(vector, k)]: it returns at most
    [k] labels. *)
Definition search_respects_k `{FAISSSearchService.Faiss} : Prop :=
  forall index q k results,
    FAISSSearchService.search index q k = Js.Returns results ->
    Z.of_nat (length (FAISSSearchService.labels results)) <= k.

(** ** An index for worked examples

    Exact inner-product search over the stored rows, which is what an
    [IndexFlatIP] computes: [search] returns the [k] rows with the
    largest inner product with the query, best first, labelled by their
    position, and refuses a [k] larger than the number of rows. *)

Module FlatIP.

Record index := { dimension : nat; rows : list (list R) }.

(** A flat array cut into rows of [d] numbers. *)
Fixpoint chunks (fuel d : nat) (flat : list R) : list (list R) :=
  match fuel, flat with
  | S fuel', _ :: _ => take d flat :: chunks fuel' d (drop d flat)
  | _, _ => []
  end.

Fixpoint insert_hit (h : Z * R) (l : list (Z * R)) : list (Z * R) :=
  match l with
  | [] => [h]
  | h' :: l' => if Rlt_dec (snd h') (snd h) then h :: l else h' :: insert_hit h l'
  end.

Definition hits (q : list R) (rows : list (list R)) : list (Z * R) :=
  foldr insert_hit [] (imap (fun i row => (Z.of_nat i, dot q row)) rows).

#[export] Instance faiss : FAISSSearchService.Faiss := {|
  FAISSSearchService.Index := index;
  FAISSSearchService.IndexFlatIP d :=
    Js.Returns {| dimension := Z.to_nat d; rows := [] |};
  FAISSSearchService.add ix flat :=
    Js.Returns {| dimension := dimension ix;
                  rows := rows ix ++ chunks (length flat) (dimension ix) flat |};
  FAISSSearchService.search ix q k :=
    if (0 <=? k) && (k <=? Z.of_nat (length (rows ix)))
    then let top := take (Z.to_nat k) (hits q (rows ix)) in
         Js.Returns {| FAISSSearchService.labels := map fst top;
                       FAISSSearchService.distances := map snd top |}
    else Js.Throws
|}.

End FlatIP.

(** Short names for the three rankers. *)
Module RE := RecommendationEngine.
Module VE := VectorRecommendationEngine.
Module FS := FAISSSearchService.

(** ** Sample data *)

(** The two catalog records of the repository's sample data. *)
Definition package1 : TicketPackage := {|
  id := "1"; price := 450; venue := "Madison Square Garden";
  date := "2024-03-15"; sportType := "Basketball";
  seatingCategory := "Premium"; hospitalityType := "VIP Lounge";
  hospitalityVenue := "Chase VIP Club"; hospitalityLevel := "Platinum";
  location := "New York"; availableTickets := 8;
  description := "Premium courtside seats with exclusive VIP lounge access" |}.

Definition package2 : TicketPackage := {|
  id := "2"; price := 280; venue := "Staples Center";
  date := "2024-03-20"; sportType := "Basketball";
  seatingCategory := "Lower Level"; hospitalityType := "Club Access";
  hospitalityVenue := "Lexus Club"; hospitalityLevel := "Gold";
  location := "Los Angeles"; availableTickets := 12;
  description := "Lower level seats with club access and premium dining" |}.

Definition no_preferences : UserPreferences := {|
  pref_location := None; pref_peopleCount := None; pref_sport := None;
  pref_hospitalityType := None; pref_date := None; pref_budget := None |}.

(** A party of four looking for VIP basketball in New York with a
    budget up to 500; the second variant also names the day of the
    game. *)
Definition keen_preferences : UserPreferences := {|
  pref_location := Some "New York"; pref_peopleCount := Some 4%Q;
  pref_sport := Some "Basketball"; pref_hospitalityType := Some "VIP";
  pref_date := None; pref_budget := Some {| min := 0; max := 500 |} |}.

Definition keen_preferences_on_the_day : UserPreferences := {|
  pref_location := Some "New York"; pref_peopleCount := Some 4%Q;
  pref_sport := Some "Basketball"; pref_hospitalityType := Some "VIP";
  pref_date := Some "2024-03-15"; pref_budget := Some {| min := 0; max := 500 |} |}.

Definition date_only_preferences : UserPreferences := {|
  pref_location := None; pref_peopleCount := None; pref_sport := None;
  pref_hospitalityType := None; pref_date := Some "2024-03-15"; pref_budget := None |}.

Definition budget_preferences : UserPreferences := {|
  pref_location := None; pref_peopleCount := None; pref_sport := None;
  pref_hospitalityType := None; pref_date := None;
  pref_budget := Some {| min := 200; max := 500 |} |}.

Definition location_preferences : UserPreferences := {|
  pref_location := Some "New York"; pref_peopleCount := None; pref_sport := None;
  pref_hospitalityType := None; pref_date := None; pref_budget := None |}.

(** The first test query of the repository's benchmark. *)
Definition vip_query : string := "VIP basketball tickets in New York for 4 people".

(** Midnight UTC of Friday 2024-03-01, of the Saturday after it, and of
    the Friday a week later. *)
Definition friday : Z := 1709251200000.
Definition saturday : Z := 1709337600000.
Definition next_friday : Z := 1709856000000.

(** Midnight UTC of Sunday 2024-03-03. *)
Definition sunday : Z := 1709424000000.

(** A query that has little in common with the first sample package. *)
Definition stadium_query : string :=
  "Cheap standard upper seats at a football stadium in Denver for business entertainment".

(** A service over the one-package catalog whose index was built on the
    Friday. *)
Definition friday_service : FAISSSearchService.t (H0 := FlatIP.faiss) :=
  FAISSSearchService.initializeIndex (H := UtcHost.host) (H0 := FlatIP.faiss)
    0%R true friday [package1].

(** The same catalog when the dependency cannot be imported. *)
Definition degraded_service : FAISSSearchService.t (H0 := FlatIP.faiss) :=
  FAISSSearchService.initializeIndex (H := UtcHost.host) (H0 := FlatIP.faiss)
    0%R false friday [package1].

From Stdlib Require Import Sorted.

(** ** The chat service (src/services/novaMicroService.ts) *)

Module NovaMicroService.
Section Service.
Context `{Host}.

(** What [processUserQuery] resolves to; [None] is [undefined]. *)
Record Reply := {
  response : string;
  updatedPreferences : option UserPreferences;
  suggestedPackages : option (list TicketPackage)
}.

(** The line feed of the escape [\n], and the bullet U+2022 of the help
    text in its three bytes of UTF-8. *)
Definition line_feed : string := String (ascii_of_nat 10) EmptyString.
Definition bullet : string :=
  String (ascii_of_nat 226) (String (ascii_of_nat 128) (String (ascii_of_nat 162) EmptyString)).

Definition greeting : string :=
  "Hello! I'm here to help you find the perfect event ticket package. You can tell me about your preferences like location, sport, number of people, or hospitality type, and I'll suggest the best options for you.".

Definition help : string :=
  "I can help you find event ticket packages! Just tell me:" +:+ line_feed
  +:+ bullet +:+ " Where you want to go (location)" +:+ line_feed
  +:+ bullet +:+ " What sport you're interested in" +:+ line_feed
  +:+ bullet +:+ " How many people are in your group" +:+ line_feed
  +:+ bullet +:+ " What type of hospitality experience you want" +:+ line_feed
  +:+ bullet +:+ " Your preferred date or budget" +:+ line_feed +:+ line_feed
  +:+ "I'll then suggest packages that match your criteria!".

Definition thanks : string :=
  "You're welcome! I'm here whenever you need help finding the perfect ticket package.".

(** [word.charAt(0).toUpperCase() + word.slice(1)] *)
Definition capitalize (word : string) : string :=
  match word with
  | EmptyString => EmptyString
  | String c rest => String (Js.upper_char c) rest
  end.

(** The pattern [/(\d+)\s*(?:people|person|group|friends)/i] is applied
    to the query as typed.  The flag [i] lets the letters of the four
    words match in either case; digits and spaces have no case, and no
    other character lower-cases to a letter of [a-z], so the match is
    that of the pattern without the flag on the lower-cased query. *)
Definition extractBasicPreferences (query : string) : UserPreferences :=
  let lowerQuery := Js.toLowerCase query in
  (* Extract location *)
  let cities := ["new york"; "los angeles"; "boston"; "chicago"; "dallas";
                 "san francisco"; "denver"; "green bay"] in
  let location :=
    match List.find (fun city => Js.includes lowerQuery city) cities with
    | Some city => Some (Js.join " " (map capitalize (Js.split_space city)))
    | None => None
    end in
  (* Extract sport *)
  let sports := ["basketball"; "football"; "baseball"; "hockey"] in
  let sport := List.find (fun sport => Js.includes lowerQuery sport) sports in
  (* Extract people count *)
  let peopleCount :=
    match Js.match_number_then_word ["people"; "person"; "group"; "friends"] lowerQuery with
    | Some peopleMatch1 => Some (inject_Z (Js.parseInt peopleMatch1))
    | None => None
    end in
  (* Extract hospitality preference *)
  let hospitalityType :=
    if Js.includes lowerQuery "vip" || Js.includes lowerQuery "premium" then Some "VIP"
    else if Js.includes lowerQuery "club" then Some "Club"
    else None in
  {| pref_location := location; pref_peopleCount := peopleCount; pref_sport := sport;
     pref_hospitalityType := hospitalityType; pref_date := None; pref_budget := None |}.

(** [Object.keys(preferences).length > 0] *)
Definition has_keys (preferences : UserPreferences) : bool :=
  bool_decide (is_Some (pref_location preferences))
  || bool_decide (is_Some (pref_peopleCount preferences))
  || bool_decide (is_Some (pref_sport preferences))
  || bool_decide (is_Some (pref_hospitalityType preferences))
  || bool_decide (is_Some (pref_date preferences))
  || bool_decide (is_Some (pref_budget preferences)).

Definition generateContextualResponse (query : string)
    (recommendations : list RecommendationScore) (preferences : UserPreferences) : string :=
  let extractedItems : list string := [] in
  let extractedItems :=
    match Js.truthy_string (pref_location preferences) with
    | Some location => extractedItems ++ ["events in " +:+ location]
    | None => extractedItems
    end in
  let extractedItems :=
    match Js.truthy_string (pref_sport preferences) with
    | Some sport => extractedItems ++ [sport +:+ " games"]
    | None => extractedItems
    end in
  let extractedItems :=
    match Js.truthy_number (pref_peopleCount preferences) with
    | Some peopleCount => extractedItems ++ ["for " +:+ Number_toString peopleCount +:+ " people"]
    | None => extractedItems
    end in
  let extractedItems :=
    match Js.truthy_string (pref_hospitalityType preferences) with
    | Some hospitalityType => extractedItems ++ ["with " +:+ hospitalityType +:+ " experience"]
    | None => extractedItems
    end in
  let found := Js.Z_toString (Z.of_nat (length recommendations)) in
  match extractedItems with
  | _ :: _ =>
      "Perfect! I found " +:+ found +:+ " great options for "
      +:+ Js.join ", " extractedItems +:+ ":"
  | [] =>
      "Great! I found " +:+ found
      +:+ " ticket packages that match what you're looking for:"
  end.

(** [processQueryWithVectorSearch].  The ranker it constructs fills its
    cache in the background; [done'] are the packages whose vectors are
    in the cache when the scan of the ranker runs.  The ranker does not
    throw, so the [catch] branch is not reached. *)
Definition processQueryWithVectorSearch (done' : list TicketPackage) (query : string)
    (packages : list TicketPackage) : Reply :=
  let lowerQuery := Js.toLowerCase query in
  (* Handle greeting and help queries directly *)
  if Js.includes lowerQuery "hello" || Js.includes lowerQuery "hi" then
    {| response := greeting; updatedPreferences := None; suggestedPackages := None |}
  else if Js.includes lowerQuery "help" then
    {| response := help; updatedPreferences := None; suggestedPackages := None |}
  else if Js.includes lowerQuery "thank" then
    {| response := thanks; updatedPreferences := None; suggestedPackages := None |}
  else
    let vectorEngine :=
      {| VectorRecommendationEngine.packages := packages;
         VectorRecommendationEngine.packageEmbeddings :=
           VectorRecommendationEngine.embeddings_after done' |} in
    (* Check if user is looking for recommendations *)
    let isLookingForTickets :=
      Js.includes lowerQuery "recommend" || Js.includes lowerQuery "suggest"
      || Js.includes lowerQuery "find" || Js.includes lowerQuery "show"
      || Js.includes lowerQuery "want" || Js.includes lowerQuery "looking"
      || Js.includes lowerQuery "tickets" || Js.includes lowerQuery "events"
      || Js.includes lowerQuery "games" || Js.includes lowerQuery "need" in
    if isLookingForTickets then
      let recommendations :=
        VectorRecommendationEngine.findRecommendationsByQuery vectorEngine query in
      match recommendations with
      | _ :: _ =>
          let suggestedPackages := map package recommendations in
          (* Extract any explicit preferences mentioned *)
          let preferences := extractBasicPreferences query in
          (* Generate contextual response *)
          let response := generateContextualResponse query recommendations preferences in
          {| response := response;
             updatedPreferences := if has_keys preferences then Some preferences else None;
             suggestedPackages := Some suggestedPackages |}
      | [] =>
          (* Fallback to showing popular packages *)
          {| response := "I'd be happy to help you find the perfect ticket package! Here are some popular options to get you started:";
             updatedPreferences := None;
             suggestedPackages := Some (Js.slice0 5 packages) |}
      end
    else
      (* Non-ticket queries - provide helpful response *)
      {| response := "I'm here to help you find event tickets! Try asking me something like 'Show me basketball tickets in New York' or 'Find VIP packages for 4 people'.";
         updatedPreferences := None;
         suggestedPackages := None |}.

(** [processUserQuery] passes the result on; [currentPreferences] is not
    read. *)
Definition processUserQuery (done' : list TicketPackage) (query : string)
    (packages : list TicketPackage) (currentPreferences : option UserPreferences) : Reply :=
  processQueryWithVectorSearch done' query packages.

End Service.
End NovaMicroService.

(** ** The benchmark (src/services/searchPerformanceTester.ts) *)

Module SearchPerformanceTester.

(** How [waitForInitialization] ends, with the milliseconds it has
    waited. *)
Inductive Wait :=
| Ready (waited : Z)
| GaveUp (waited : Z).

Definition maxWait : Z := 5000.
Definition checkInterval : Z := 100.

(** The loop [while (waited < maxWait)].  [poll i] is what
    [getPerformanceStats().isInitialized] reads at the [i]-th pass;
    [None] when [fuel] passes do not reach the end of the loop. *)
Fixpoint wait_loop (fuel : nat) (poll : nat -> bool) (pass : nat) (waited : Z)
  : option Wait :=
  if waited <? maxWait then
    match fuel with
    | O => None
    | S fuel' =>
        if poll pass then Some (Ready waited)
        else wait_loop fuel' poll (S pass) (waited + checkInterval)
    end
  else Some (GaveUp waited).

Definition waitForInitialization (fuel : nat) (poll : nat -> bool) : option Wait :=
  wait_loop fuel poll 0 0.

End SearchPerformanceTester.

(** ** Vocabulary of the further properties *)

(** The entry that [findRecommendations] of the attribute matcher makes
    for a package. *)
Definition attribute_item `{Host} (preferences : UserPreferences) (pkg : TicketPackage)
  : RecommendationScore :=
  {| package := pkg;
     score := RecommendationEngine.calculateScore pkg preferences;
     reasons := RecommendationEngine.getReasons pkg preferences |}.

(** [b] does not outrank [a]. *)
Definition ranks_before (a b : RecommendationScore) : Prop := score b <= score a.

(** The items of a list that carry the score [v]. *)
Definition with_score (v : Z) (l : list RecommendationScore) : list RecommendationScore :=
  List.filter (fun r => score r =? v) l.

(** [pkg] on another day. *)
Definition with_date (pkg : TicketPackage) (d : string) : TicketPackage :=
  {| id := id pkg; price := price pkg; venue := venue pkg; date := d;
     sportType := sportType pkg; seatingCategory := seatingCategory pkg;
     hospitalityType := hospitalityType pkg;
     hospitalityVenue := hospitalityVenue pkg;
     hospitalityLevel := hospitalityLevel pkg; location := location pkg;
     availableTickets := availableTickets pkg;
     description := description pkg |}.

(** The last character of a text. *)
Fixpoint last_letter (s : string) : option ascii :=
  match s with
  | EmptyString => None
  | String c EmptyString => Some c
  | String _ rest => last_letter rest
  end.

(** * Properties *)

(** ** Lists, sorting and slicing *)

Lemma insert_by_score_length x l :
  length (insert_by_score x l) = S (length l).
Proof.
  induction l as [|y l IH]; simpl; [reflexivity|].
  destruct (score y >? score x); simpl; congruence.
Qed.

Lemma sort_by_score_desc_length l :
  length (sort_by_score_desc l) = length l.
Proof.
  induction l as [|x l IH]; simpl; [reflexivity|].
  rewrite insert_by_score_length. f_equal. exact IH.
Qed.

Lemma insert_by_score_In x y l :
  In y (insert_by_score x l) <-> y = x \/ In y l.
Proof.
  induction l as [|z l IH]; simpl.
  - split; [intros [->|[]]; auto | intros [->|[]]; auto].
  - destruct (score z >? score x); simpl; rewrite ?IH; intuition (subst; auto).
Qed.

Lemma sort_by_score_desc_In y l :
  In y (sort_by_score_desc l) <-> In y l.
Proof.
  induction l as [|x l IH]; simpl; [tauto|].
  rewrite insert_by_score_In. unfold sort_by_score_desc in IH. rewrite IH.
  intuition (subst; auto).
Qed.

Lemma In_take {A} (x : A) n l : In x (take n l) -> In x l.
Proof.
  revert l; induction n as [|n IH]; intros [|y l]; simpl; try tauto.
  intros [->|Hin]; auto.
Qed.

Lemma slice0_In {A} (x : A) k l : In x (Js.slice0 k l) -> In x l.
Proof. unfold Js.slice0. destruct (k <? 0); apply In_take. Qed.

Lemma slice0_length {A} k (l : list A) :
  0 <= k -> Z.of_nat (length (Js.slice0 k l)) <= k.
Proof.
  intros Hk. unfold Js.slice0.
  destruct (Z.ltb_spec k 0); [lia|].
  rewrite length_take. lia.
Qed.

(** ** Rounding *)

Lemma Qfloor_unique (x : Q) (z : Z) :
  (inject_Z z <= x)%Q -> (x < inject_Z (z + 1))%Q -> Qfloor x = z.
Proof.
  intros Hlo Hhi.
  pose proof (Qfloor_le x) as H1. pose proof (Qlt_floor x) as H2.
  assert (inject_Z z < inject_Z (Qfloor x + 1))%Q as A by (eapply Qle_lt_trans; eauto).
  assert (inject_Z (Qfloor x) < inject_Z (z + 1))%Q as B by (eapply Qle_lt_trans; eauto).
  rewrite <- Zlt_Qlt in A, B. lia.
Qed.

Lemma Math_round_comp (x y : Q) : (x == y)%Q -> Js.Math_round x = Js.Math_round y.
Proof. intros E. unfold Js.Math_round. apply Qfloor_comp. rewrite E. reflexivity. Qed.

Lemma Math_round_le (x y : Q) : (x <= y)%Q -> Js.Math_round x <= Js.Math_round y.
Proof.
  intros L. unfold Js.Math_round. apply Qfloor_resp_le.
  apply Qplus_le_compat; [exact L | apply Qle_refl].
Qed.

Lemma Math_round_Z (z : Z) : Js.Math_round (inject_Z z) = z.
Proof.
  unfold Js.Math_round. apply Qfloor_unique.
  - rewrite <- (Qplus_0_r (inject_Z z)) at 1.
    apply Qplus_le_compat; [apply Qle_refl | discriminate].
  - rewrite inject_Z_plus. apply Qplus_lt_r. reflexivity.
Qed.

Lemma Math_round_plus_Z (x : Q) (z : Z) :
  Js.Math_round (x + inject_Z z) = Js.Math_round x + z.
Proof.
  unfold Js.Math_round.
  pose proof (Qfloor_le (x + (1 # 2))) as H1.
  pose proof (Qlt_floor (x + (1 # 2))) as H2.
  apply Qfloor_unique.
  - rewrite inject_Z_plus. Lqa.lra.
  - rewrite !inject_Z_plus in *. Lqa.lra.
Qed.

(** ** The attribute matcher *)

Module RecommendationEngineFacts.
Import RecommendationEngine RecommendationEngineTerms.
Section Facts.
Context `{Host}.
Local Open Scope Q_scope.


Lemma calculateScore_total pkg preferences :
  calculateScore pkg preferences = Js.Math_round (total pkg preferences).
Proof.
  unfold calculateScore, total, location_term, sport_term, hospitality_term,
    date_term, people_term, budget_term.
  apply Math_round_comp.
  destruct (pref_matches (pref_location preferences) (location pkg));
  destruct (pref_matches (pref_sport preferences) (sportType pkg));
  destruct (pref_matches (pref_hospitalityType preferences) (hospitalityType pkg));
  destruct (people_fit pkg preferences);
  (destruct (Js.truthy_string (pref_date preferences)) as [prefDate|];
   [destruct (daysDiff pkg prefDate) as [d|]; [destruct (Qle_bool d 30)|]|]);
  (destruct (pref_budget preferences) as [budget|];
   [destruct (Qgeb (price pkg) (min budget) && Qle_bool (price pkg) (max budget));
    [|destruct (Qltb (price pkg) (min budget))]|]);
  ring.
Qed.

Lemma Qgeb_true x y : Qgeb x y = true <-> y <= x.
Proof. unfold Qgeb. apply Qle_bool_iff. Qed.

Lemma Qltb_true x y : Qltb x y = true <-> x < y.
Proof.
  unfold Qltb. rewrite negb_true_iff. split.
  - intros E. apply Qnot_le_lt. intros L. apply Qle_bool_iff in L. congruence.
  - intros L. destruct (Qle_bool y x) eqn:E; [|reflexivity].
    apply Qle_bool_iff in E. exfalso. exact (Qlt_not_le _ _ L E).
Qed.

Lemma Qltb_false x y : Qltb x y = false <-> y <= x.
Proof.
  unfold Qltb. rewrite negb_false_iff. apply Qle_bool_iff.
Qed.

Lemma daysDiff_nonneg pkg prefDate d : daysDiff pkg prefDate = Some d -> 0 <= d.
Proof.
  unfold daysDiff.
  destruct (Date_getTime prefDate) as [prefTime|]; [|discriminate].
  destruct (Date_getTime (date pkg)) as [pkgTime|]; [|discriminate].
  set (q := Js.Math_abs _). intros E.
  assert (d = q) as -> by congruence. apply Qabs_nonneg.
Qed.

Lemma date_weight_bounds d : 0 <= d -> d <= 30 ->
  0 <= weights_date * (1 - d / 30) /\ weights_date * (1 - d / 30) <= 15.
Proof.
  intros H0 H30.
  assert (weights_date * (1 - d / 30) == 15 - d * (1 # 2)) as ->
    by (unfold weights_date; field).
  split; Lqa.lra.
Qed.

Lemma location_term_bounds pkg p : 0 <= location_term pkg p <= 30.
Proof. unfold location_term, weights_location. destruct pref_matches; split; discriminate. Qed.
Lemma sport_term_bounds pkg p : 0 <= sport_term pkg p <= 25.
Proof. unfold sport_term, weights_sport. destruct pref_matches; split; discriminate. Qed.
Lemma hospitality_term_bounds pkg p : 0 <= hospitality_term pkg p <= 20.
Proof. unfold hospitality_term, weights_hospitality. destruct pref_matches; split; discriminate. Qed.
Lemma people_term_bounds pkg p : 0 <= people_term pkg p <= 10.
Proof. unfold people_term, weights_people. destruct people_fit; split; discriminate. Qed.
Lemma budget_term_bounds pkg p : 0 <= budget_term pkg p <= 20.
Proof.
  unfold budget_term. destruct (pref_budget p) as [b|]; [|split; discriminate].
  destruct (_ && _); [split; discriminate|].
  destruct (Qltb _ _); split; discriminate.
Qed.
Lemma date_term_bounds pkg p : 0 <= date_term pkg p <= 15.
Proof.
  unfold date_term.
  destruct (Js.truthy_string (pref_date p)) as [prefDate|]; [|split; discriminate].
  destruct (daysDiff pkg prefDate) as [d|] eqn:E; [|split; discriminate].
  destruct (Qle_bool d 30) eqn:L; [|split; discriminate].
  apply Qle_bool_iff in L. apply daysDiff_nonneg in E.
  apply date_weight_bounds; assumption.
Qed.

Lemma total_bounds pkg p : 0 <= total pkg p <= 120.
Proof.
  pose proof (location_term_bounds pkg p). pose proof (sport_term_bounds pkg p).
  pose proof (hospitality_term_bounds pkg p). pose proof (date_term_bounds pkg p).
  pose proof (people_term_bounds pkg p). pose proof (budget_term_bounds pkg p).
  unfold total. split; Lqa.lra.
Qed.

Lemma calculateScore_bounds pkg p : (0 <= calculateScore pkg p <= 120)%Z.
Proof.
  rewrite calculateScore_total. destruct (total_bounds pkg p) as [Lo Hi].
  split.
  - rewrite <- (Math_round_Z 0). apply Math_round_le. exact Lo.
  - rewrite <- (Math_round_Z 120). apply Math_round_le. exact Hi.
Qed.

Lemma attribute_recommendations_In r packages preferences :
  In r (findRecommendations packages preferences) ->
  exists pkg, In pkg packages
    /\ r = {| package := pkg; score := calculateScore pkg preferences;
              reasons := getReasons pkg preferences |}
    /\ (0 < score r)%Z.
Proof.
  unfold findRecommendations. intros Hin.
  apply slice0_In, sort_by_score_desc_In, filter_In in Hin.
  destruct Hin as [Hin Hpos]. apply in_map_iff in Hin.
  destruct Hin as [pkg [<- Hpkg]]. exists pkg. split; [exact Hpkg|].
  split; [reflexivity|]. simpl in *. lia.
Qed.

(** *** Budget rule *)



Lemma total_with_price pkg p preferences :
  total (with_price pkg p) preferences
  = without_budget pkg preferences + budget_term (with_price pkg p) preferences.
Proof. reflexivity. Qed.

Lemma budget_term_within pkg preferences budget :
  pref_budget preferences = Some budget ->
  min budget <= price pkg -> price pkg <= max budget ->
  budget_term pkg preferences = 20.
Proof.
  intros E Lo Hi. unfold budget_term. rewrite E.
  apply Qgeb_true in Lo. apply Qle_bool_iff in Hi. rewrite Lo, Hi. reflexivity.
Qed.

Lemma budget_term_under pkg preferences budget :
  pref_budget preferences = Some budget ->
  price pkg < min budget ->
  budget_term pkg preferences = 10.
Proof.
  intros E Lt. unfold budget_term. rewrite E.
  assert (Qgeb (price pkg) (min budget) = false) as ->.
  { destruct (Qgeb _ _) eqn:G; [|reflexivity].
    apply Qgeb_true in G. exfalso. exact (Qlt_not_le _ _ Lt G). }
  apply Qltb_true in Lt. rewrite Lt. reflexivity.
Qed.

Lemma budget_term_over pkg preferences budget :
  pref_budget preferences = Some budget ->
  min budget <= max budget ->
  max budget < price pkg ->
  budget_term pkg preferences = 0.
Proof.
  intros E Wf Gt. unfold budget_term. rewrite E.
  assert (Qle_bool (price pkg) (max budget) = false) as ->.
  { destruct (Qle_bool _ _) eqn:G; [|reflexivity].
    apply Qle_bool_iff in G. exfalso. exact (Qlt_not_le _ _ Gt G). }
  rewrite andb_false_r.
  assert (Qltb (price pkg) (min budget) = false) as ->; [|reflexivity].
  apply Qltb_false. apply Qlt_le_weak. eapply Qle_lt_trans; eauto.
Qed.

(** C6. Three packages that differ in price only, against preferences
    whose budget has [min <= max]: the one priced below [min] scores
    strictly less than the one priced inside [[min, max]], both score
    strictly more than the one priced above [max], and the budget term
    is 10, 20 and 0 respectively. *)
Theorem budget_rule pkg preferences budget p_under p_within p_over :
  pref_budget preferences = Some budget ->
  min budget <= max budget ->
  p_under < min budget ->
  min budget <= p_within -> p_within <= max budget ->
  max budget < p_over ->
  (calculateScore (with_price pkg p_under) preferences
     < calculateScore (with_price pkg p_within) preferences)%Z
  /\ (calculateScore (with_price pkg p_over) preferences
       < calculateScore (with_price pkg p_under) preferences)%Z
  /\ (calculateScore (with_price pkg p_over) preferences
       < calculateScore (with_price pkg p_within) preferences)%Z
  /\ budget_term (with_price pkg p_within) preferences = 20
  /\ budget_term (with_price pkg p_under) preferences = 10
  /\ budget_term (with_price pkg p_over) preferences = 0.
Proof.
  intros E Wf Under Lo Hi Over.
  pose proof (budget_term_within (with_price pkg p_within) preferences budget E Lo Hi) as Tw.
  pose proof (budget_term_under (with_price pkg p_under) preferences budget E Under) as Tu.
  pose proof (budget_term_over (with_price pkg p_over) preferences budget E Wf Over) as To.
  rewrite !calculateScore_total, !total_with_price, Tw, Tu, To.
  change 20 with (inject_Z 20). change 10 with (inject_Z 10). change 0 with (inject_Z 0).
  rewrite !Math_round_plus_Z.
  repeat split; lia.
Qed.

(** *** Monotonicity in the preference set *)


Lemma total_monotone pkg before after :
  extends before after -> total pkg before <= total pkg after.
Proof.
  intros (Hl & Hp & Hs & Hh & Hd & Hb).
  assert (location_term pkg before <= location_term pkg after) as A1.
  { destruct Hl as [E|E].
    - unfold location_term at 1. rewrite E. apply location_term_bounds.
    - unfold location_term. rewrite E. apply Qle_refl. }
  assert (sport_term pkg before <= sport_term pkg after) as A2.
  { destruct Hs as [E|E].
    - unfold sport_term at 1. rewrite E. apply sport_term_bounds.
    - unfold sport_term. rewrite E. apply Qle_refl. }
  assert (hospitality_term pkg before <= hospitality_term pkg after) as A3.
  { destruct Hh as [E|E].
    - unfold hospitality_term at 1. rewrite E. apply hospitality_term_bounds.
    - unfold hospitality_term. rewrite E. apply Qle_refl. }
  assert (date_term pkg before <= date_term pkg after) as A4.
  { destruct Hd as [E|E].
    - unfold date_term at 1. rewrite E. apply date_term_bounds.
    - unfold date_term. rewrite E. apply Qle_refl. }
  assert (people_term pkg before <= people_term pkg after) as A5.
  { destruct Hp as [E|E].
    - unfold people_term at 1, people_fit. rewrite E. apply people_term_bounds.
    - unfold people_term, people_fit. rewrite E. apply Qle_refl. }
  assert (budget_term pkg before <= budget_term pkg after) as A6.
  { destruct Hb as [E|E].
    - unfold budget_term at 1. rewrite E. apply budget_term_bounds.
    - unfold budget_term. rewrite E. apply Qle_refl. }
  unfold total. Lqa.lra.
Qed.

(** C10. Every term of the attribute matcher adds a non-negative
    amount, so setting further preference fields (location, sport,
    hospitality type, date, party size, budget) and leaving the others
    as they were never lowers [calculateScore]. *)
Theorem calculateScore_monotone pkg before after :
  extends before after ->
  (calculateScore pkg before <= calculateScore pkg after)%Z.
Proof.
  intros E. rewrite !calculateScore_total.
  apply Math_round_le, total_monotone, E.
Qed.

(** *** Reasons against terms *)


Lemma getReasons_when pkg preferences :
  getReasons pkg preferences
  = when (pref_matches (pref_location preferences) (location pkg)) (reason_location pkg)
    ++ when (pref_matches (pref_sport preferences) (sportType pkg)) (reason_sport pkg)
    ++ when (pref_matches (pref_hospitalityType preferences) (hospitalityType pkg))
            (reason_hospitality pkg)
    ++ when (people_fit pkg preferences) (reason_people pkg)
    ++ when (within_max pkg preferences) (reason_budget pkg).
Proof.
  unfold getReasons, when.
  destruct (pref_matches (pref_location preferences) (location pkg));
  destruct (pref_matches (pref_sport preferences) (sportType pkg));
  destruct (pref_matches (pref_hospitalityType preferences) (hospitalityType pkg));
  destruct (people_fit pkg preferences);
  destruct (within_max pkg preferences); reflexivity.
Qed.

Lemma In_when r b reason : In r (when b reason) <-> b = true /\ r = reason.
Proof. unfold when. destruct b; simpl; intuition congruence. Qed.


Ltac different_templates :=
  let E := fresh in
  intros E; apply (f_equal first_letter) in E; discriminate E.

Lemma reasons_In pkg preferences r :
  In r (getReasons pkg preferences) <->
    (pref_matches (pref_location preferences) (location pkg) = true
       /\ r = reason_location pkg)
    \/ (pref_matches (pref_sport preferences) (sportType pkg) = true
         /\ r = reason_sport pkg)
    \/ (pref_matches (pref_hospitalityType preferences) (hospitalityType pkg) = true
         /\ r = reason_hospitality pkg)
    \/ (people_fit pkg preferences = true /\ r = reason_people pkg)
    \/ (within_max pkg preferences = true /\ r = reason_budget pkg).
Proof.
  rewrite getReasons_when, !in_app_iff, !In_when. tauto.
Qed.

Lemma term_fired (b : bool) (w : Q) : ~ w == 0 -> (~ (if b then w else 0) == 0) <-> b = true.
Proof.
  intros Hw. destruct b; split; intros; try reflexivity; try assumption.
  - exfalso. apply H0. reflexivity.
  - discriminate.
Qed.

Lemma within_max_fires pkg preferences budget :
  pref_budget preferences = Some budget ->
  min budget <= max budget ->
  within_max pkg preferences = true <-> ~ budget_term pkg preferences == 0.
Proof.
  intros E Wf. unfold within_max, budget_term. rewrite E.
  destruct (Qle_bool (price pkg) (max budget)) eqn:Hi.
  - split; [|reflexivity]. intros _. unfold Qltb, Qgeb.
    destruct (Qle_bool (min budget) (price pkg)); simpl; discriminate.
  - rewrite andb_false_r.
    assert (Qltb (price pkg) (min budget) = false) as ->.
    { apply Qltb_false. apply Qlt_le_weak. eapply Qle_lt_trans; [exact Wf|].
      apply Qnot_le_lt. intros L. apply Qle_bool_iff in L. congruence. }
    split; [discriminate|]. intros N. exfalso. apply N. reflexivity.
Qed.

(** C8, as the code has it.  The reasons of location, sport,
    hospitality and party size are in the list exactly when their term
    added to the score.  The budget reason is in the list exactly when
    a budget is set and the price is at most [budget.max], which is
    when the budget term added to the score provided [min <= max].  The
    list holds nothing else: the date term has no reason. *)
Theorem reasons_mirror_terms pkg preferences :
  (In (reason_location pkg) (getReasons pkg preferences)
     <-> ~ location_term pkg preferences == 0)
  /\ (In (reason_sport pkg) (getReasons pkg preferences)
       <-> ~ sport_term pkg preferences == 0)
  /\ (In (reason_hospitality pkg) (getReasons pkg preferences)
       <-> ~ hospitality_term pkg preferences == 0)
  /\ (In (reason_people pkg) (getReasons pkg preferences)
       <-> ~ people_term pkg preferences == 0)
  /\ (In (reason_budget pkg) (getReasons pkg preferences)
       <-> within_max pkg preferences = true)
  /\ (forall budget, pref_budget preferences = Some budget ->
         min budget <= max budget ->
         (In (reason_budget pkg) (getReasons pkg preferences)
            <-> ~ budget_term pkg preferences == 0))
  /\ (forall r, In r (getReasons pkg preferences) ->
         r = reason_location pkg \/ r = reason_sport pkg
         \/ r = reason_hospitality pkg \/ r = reason_people pkg
         \/ r = reason_budget pkg).
Proof.
  assert (reason_location pkg <> reason_sport pkg) by different_templates.
  assert (reason_location pkg <> reason_hospitality pkg) by different_templates.
  assert (reason_location pkg <> reason_people pkg) by different_templates.
  assert (reason_location pkg <> reason_budget pkg) by different_templates.
  assert (reason_sport pkg <> reason_hospitality pkg) by different_templates.
  assert (reason_sport pkg <> reason_people pkg) by different_templates.
  assert (reason_sport pkg <> reason_budget pkg) by different_templates.
  assert (reason_hospitality pkg <> reason_people pkg) by different_templates.
  assert (reason_hospitality pkg <> reason_budget pkg) by different_templates.
  assert (reason_people pkg <> reason_budget pkg) by different_templates.
  assert (In (reason_budget pkg) (getReasons pkg preferences)
          <-> within_max pkg preferences = true) as Hbudget.
  { rewrite reasons_In. intuition congruence. }
  split; [|split; [|split; [|split; [|split; [|split]]]]].
  - unfold location_term. rewrite term_fired by discriminate.
    rewrite reasons_In. intuition congruence.
  - unfold sport_term. rewrite term_fired by discriminate.
    rewrite reasons_In. intuition congruence.
  - unfold hospitality_term. rewrite term_fired by discriminate.
    rewrite reasons_In. intuition congruence.
  - unfold people_term. rewrite term_fired by discriminate.
    rewrite reasons_In. intuition congruence.
  - exact Hbudget.
  - intros budget E Wf. rewrite Hbudget. apply within_max_fires with budget; assumption.
  - intros r Hr. apply reasons_In in Hr. tauto.
Qed.
End Facts.

(** The attribute matcher reads the host for the printing of numbers
  and the parsing of dates, and for nothing else: not the clock, not
  the time zone. *)
Lemma attribute_recommendations_host (host1 host2 : Host) packages preferences :
(forall q, @Number_toString host1 q = @Number_toString host2 q) ->
(forall s, @Date_getTime host1 s = @Date_getTime host2 s) ->
@findRecommendations host1 packages preferences
= @findRecommendations host2 packages preferences.
Proof.
intros En Ed. unfold findRecommendations. do 3 f_equal.
apply map_ext. intros pkg. f_equal.
- unfold calculateScore, daysDiff.
  destruct (Js.truthy_string (pref_date preferences)) as [prefDate|];
    [|reflexivity].
  rewrite !Ed. reflexivity.
- unfold getReasons, reason_people, reason_budget. rewrite !En. reflexivity.
Qed.
End RecommendationEngineFacts.

(** ** Cosine similarity *)

Section CosineFacts.
Local Open Scope R_scope.


Lemma at_index_app_length p x a : at_index (p ++ x :: a) (length p) = x.
Proof. unfold at_index. rewrite app_nth2, Nat.sub_diag by lia. reflexivity. Qed.

Lemma cosine_loop_from p q a b d na nb :
  length p = length q -> length a = length b ->
  fold_left
    (fun '(dotProduct, normA, normB) i =>
       (dotProduct + at_index (p ++ a) i * at_index (q ++ b) i,
        normA + at_index (p ++ a) i * at_index (p ++ a) i,
        normB + at_index (q ++ b) i * at_index (q ++ b) i))
    (seq (length p) (length a)) (d, na, nb)
  = (d + dot a b, na + dot a a, nb + dot b b).
Proof.
  revert p q b d na nb.
  induction a as [|x a IH]; intros p q [|y b] d na nb Hpq Hab; try discriminate.
  - simpl. rewrite !Rplus_0_r. reflexivity.
  - assert (at_index (p ++ x :: a) (length p) = x) as Ea
      by apply at_index_app_length.
    assert (at_index (q ++ y :: b) (length p) = y) as Eb
      by (rewrite Hpq; apply at_index_app_length).
    simpl seq. simpl fold_left. rewrite Ea, Eb.
    replace (p ++ x :: a) with ((p ++ [x]) ++ a) by (rewrite <- app_assoc; reflexivity).
    replace (q ++ y :: b) with ((q ++ [y]) ++ b) by (rewrite <- app_assoc; reflexivity).
    replace (S (length p)) with (length (p ++ [x])) by (rewrite length_app; simpl; lia).
    rewrite IH.
    + simpl. rewrite !Rplus_assoc. reflexivity.
    + rewrite !length_app. simpl. lia.
    + simpl in Hab. lia.
Qed.

Lemma cosine_loop_dot a b :
  length a = length b -> cosine_loop a b = (dot a b, dot a a, dot b b).
Proof.
  intros E. unfold cosine_loop.
  pose proof (cosine_loop_from [] [] a b 0 0 0 eq_refl E) as L.
  simpl in L. rewrite !Rplus_0_l in L. exact L.
Qed.

Lemma dot_self_nonneg a : 0 <= dot a a.
Proof. induction a as [|x a IH]; simpl; [lra | nra]. Qed.

(** Cauchy-Schwarz, one step: adding a coordinate keeps the inequality. *)
Lemma cauchy_schwarz_step x y d A B :
  0 <= A -> 0 <= B -> d * d <= A * B ->
  (x * y + d) * (x * y + d) <= (x * x + A) * (y * y + B).
Proof.
  intros HA HB Hd.
  set (u := x * x * B + y * y * A).
  set (v := 2 * (x * y * d)).
  assert (0 <= u) as Hu by (unfold u; nra).
  assert (v * v <= u * u) as Hvu.
  { assert (v * v = 4 * (x * x) * (y * y) * (d * d)) as -> by (unfold v; ring).
    assert (4 * (x * x) * (y * y) * (d * d) <= 4 * (x * x) * (y * y) * (A * B)) as L1.
    { apply Rmult_le_compat_l; [nra|exact Hd]. }
    assert (u * u - 4 * (x * x) * (y * y) * (A * B)
            = (x * x * B - y * y * A) * (x * x * B - y * y * A)) as E
        by (unfold u; ring).
    pose proof (Rle_0_sqr (x * x * B - y * y * A)) as S. unfold Rsqr in S.
    lra. }
  assert (v <= u) as Hle.
  { destruct (Rle_lt_dec v u) as [L|G]; [exact L|].
    exfalso. assert (u * u < v * v) by nra. lra. }
  unfold u, v in Hle.
  replace ((x * y + d) * (x * y + d))
    with (x * x * (y * y) + 2 * (x * y * d) + d * d) by ring.
  replace ((x * x + A) * (y * y + B))
    with (x * x * (y * y) + (x * x * B + y * y * A) + A * B) by ring.
  lra.
Qed.

Lemma cauchy_schwarz a b :
  length a = length b -> dot a b * dot a b <= dot a a * dot b b.
Proof.
  revert b. induction a as [|x a IH]; intros [|y b] E; try discriminate.
  - simpl. lra.
  - simpl. apply cauchy_schwarz_step.
    + apply dot_self_nonneg.
    + apply dot_self_nonneg.
    + apply IH. simpl in E. lia.
Qed.

Lemma cosineSimilarity_unfold a b :
  cosineSimilarity a b =
    if negb (length a =? length b)%nat then 0
    else if Req_dec_T (dot a a) 0 then 0
    else if Req_dec_T (dot b b) 0 then 0
    else dot a b / (sqrt (dot a a) * sqrt (dot b b)).
Proof.
  unfold cosineSimilarity.
  destruct (Nat.eqb_spec (length a) (length b)) as [E|N]; simpl; [|reflexivity].
  rewrite cosine_loop_dot by exact E. reflexivity.
Qed.

Lemma quotient_bounds d A B :
  0 < A -> 0 < B -> d * d <= A * B ->
  -1 <= d / (sqrt A * sqrt B) <= 1.
Proof.
  intros HA HB Hd.
  pose proof (sqrt_lt_R0 A HA) as SA. pose proof (sqrt_lt_R0 B HB) as SB.
  set (s := sqrt A * sqrt B).
  assert (0 < s) as Hs by (unfold s; nra).
  assert (s * s = A * B) as Hss.
  { unfold s. transitivity ((sqrt A * sqrt A) * (sqrt B * sqrt B)); [ring|].
    rewrite !sqrt_sqrt by lra. reflexivity. }
  assert (- s <= d <= s) as [Lo Hi] by (split; nra).
  split.
  - apply Rmult_le_reg_r with s; [exact Hs|].
    unfold Rdiv. rewrite Rmult_assoc, Rinv_l by lra. lra.
  - apply Rmult_le_reg_r with s; [exact Hs|].
    unfold Rdiv. rewrite Rmult_assoc, Rinv_l by lra. lra.
Qed.

Lemma cosineSimilarity_bounds a b : -1 <= cosineSimilarity a b <= 1.
Proof.
  rewrite cosineSimilarity_unfold.
  destruct (Nat.eqb_spec (length a) (length b)) as [E|N]; simpl; [|lra].
  destruct (Req_dec_T (dot a a) 0) as [|NA]; [lra|].
  destruct (Req_dec_T (dot b b) 0) as [|NB]; [lra|].
  pose proof (dot_self_nonneg a). pose proof (dot_self_nonneg b).
  apply quotient_bounds; [lra | lra | apply cauchy_schwarz; exact E].
Qed.

End CosineFacts.

(** ** Cosine similarity as it runs *)

Module DoubleFacts.
Import Floats.
#[local] Set Warnings "-inexact-float".



End DoubleFacts.

(** ** Rounding a similarity to a score *)

Section RoundR.
Local Open Scope R_scope.

Lemma Math_roundR_le (x y : R) : x <= y -> (Js.Math_roundR x <= Js.Math_roundR y)%Z.
Proof. intros L. unfold Js.Math_roundR. apply Zfloor_le. lra. Qed.

Lemma Math_roundR_Z (z : Z) : Js.Math_roundR (IZR z) = z.
Proof. unfold Js.Math_roundR. apply Zfloor_eq. lra. Qed.

Lemma Math_roundR_between (x : R) (z : Z) :
  IZR z - / 2 <= x < IZR z + / 2 -> Js.Math_roundR x = z.
Proof. intros B. unfold Js.Math_roundR. apply Zfloor_eq. lra. Qed.

Lemma score_of_similarity_bounds (s : R) :
  -1 <= s <= 1 -> (-100 <= Js.Math_roundR (s * 100) <= 100)%Z.
Proof.
  intros [Lo Hi]. split.
  - rewrite <- (Math_roundR_Z (-100)) at 1. apply Math_roundR_le. lra.
  - rewrite <- (Math_roundR_Z 100) at 2. apply Math_roundR_le. lra.
Qed.

Lemma score_of_zero : Js.Math_roundR (0 * 100) = 0%Z.
Proof. apply Math_roundR_between. lra. Qed.

Lemma clamped_score_nonneg (s : R) : (0 <= Js.Math_roundR (Rmax 0 (s * 100)))%Z.
Proof.
  rewrite <- (Math_roundR_Z 0) at 1. apply Math_roundR_le. apply Rmax_l.
Qed.
End RoundR.

Lemma filter_none {A} (f : A -> bool) (l : list A) :
  (forall x, In x l -> f x = false) -> List.filter f l = [].
Proof.
  induction l as [|x l IH]; intros Hall; simpl; [reflexivity|].
  rewrite (Hall x) by (left; reflexivity).
  apply IH. intros y Hy. apply Hall. right. exact Hy.
Qed.

Lemma filter_length_le {A} (f : A -> bool) (l : list A) :
  (length (List.filter f l) <= length l)%nat.
Proof.
  induction l as [|x l IH]; simpl; [lia|]. destruct (f x); simpl; lia.
Qed.

(** ** The linear vector ranker *)

Module VectorFacts.
Import VectorRecommendationEngine.
Section Facts.
Context `{Host}.
Local Open Scope R_scope.

Lemma score_packages_In (self : t) query queryEmbedding r :
  In r (score_packages self query queryEmbedding) ->
  exists pkg packageEmbedding,
    In pkg (packages self)
    /\ packageEmbeddings self !! id pkg = Some packageEmbedding
    /\ r = {| package := pkg;
              score := Js.Math_roundR (cosineSimilarity queryEmbedding packageEmbedding * 100);
              reasons := generateReasons query pkg
                           (cosineSimilarity queryEmbedding packageEmbedding) |}.
Proof.
  unfold score_packages. rewrite in_flat_map. intros [pkg [Hpkg Hr]].
  destruct (packageEmbeddings self !! id pkg) as [packageEmbedding|] eqn:E;
    [|contradiction].
  destruct Hr as [<-|[]]. exists pkg, packageEmbedding. auto.
Qed.

Lemma vector_recommendations_In (self : t) query r :
  In r (findRecommendationsByQuery self query) ->
  (30 < score r)%Z
  /\ exists packageEmbedding,
       In (package r) (packages self)
       /\ packageEmbeddings self !! id (package r) = Some packageEmbedding
       /\ score r = Js.Math_roundR
                      (cosineSimilarity (createQueryEmbedding query) packageEmbedding * 100).
Proof.
  unfold findRecommendationsByQuery. intros Hin.
  apply slice0_In, sort_by_score_desc_In, filter_In in Hin.
  destruct Hin as [Hin Hgt]. split; [lia|].
  apply score_packages_In in Hin.
  destruct Hin as (pkg & packageEmbedding & Hpkg & E & ->).
  exists packageEmbedding. simpl. auto.
Qed.

Lemma vector_recommendations_score (self : t) query :
  Forall (fun r => (30 < score r <= 100)%Z) (findRecommendationsByQuery self query).
Proof.
  apply Forall_forall. intros r Hin.
  apply vector_recommendations_In in Hin.
  destruct Hin as [Hgt (packageEmbedding & _ & _ & E)].
  split; [exact Hgt|]. rewrite E.
  apply score_of_similarity_bounds, cosineSimilarity_bounds.
Qed.

Lemma vector_recommendations_length (self : t) query :
  (length (findRecommendationsByQuery self query) <= 5)%nat.
Proof.
  unfold findRecommendationsByQuery.
  pose proof (slice0_length 5
    (sort_by_score_desc
       (List.filter (fun item => (score item >? 30)%Z)
          (score_packages self query (createQueryEmbedding query))))) as L.
  lia.
Qed.

(** The output is decided by the catalog, the query and the embeddings
    cached for the ids of the catalog. *)
Lemma score_packages_ext (s1 s2 : t) query queryEmbedding :
  packages s1 = packages s2 ->
  (forall pkg, In pkg (packages s1) ->
      packageEmbeddings s1 !! id pkg = packageEmbeddings s2 !! id pkg) ->
  score_packages s1 query queryEmbedding = score_packages s2 query queryEmbedding.
Proof.
  unfold score_packages. intros Ep Ee. rewrite <- Ep.
  revert Ee. generalize (packages s1) as l.
  induction l as [|pkg l IH]; intros Ee; simpl; [reflexivity|].
  rewrite (Ee pkg) by (left; reflexivity).
  f_equal. apply IH. intros p Hp. apply Ee. right. exact Hp.
Qed.

Lemma vector_recommendations_ext (s1 s2 : t) query :
  packages s1 = packages s2 ->
  (forall pkg, In pkg (packages s1) ->
      packageEmbeddings s1 !! id pkg = packageEmbeddings s2 !! id pkg) ->
  findRecommendationsByQuery s1 query = findRecommendationsByQuery s2 query.
Proof.
  intros Ep Ee. unfold findRecommendationsByQuery.
  rewrite (score_packages_ext s1 s2) by assumption. reflexivity.
Qed.
End Facts.
End VectorFacts.

(** ** The index-backed ranker *)

Module FAISSFacts.
Import FAISSSearchService.
Section Facts.
Context `{Host} `{Faiss}.
Local Open Scope R_scope.

Lemma cosineSimilarity_of_bounds a b : -1 <= cosineSimilarity_of a b <= 1.
Proof. destruct a; simpl; [apply cosineSimilarity_bounds | lra]. Qed.

Lemma fallbackScan_In (self : t) queryEmbedding query k r :
  In r (fallbackScan self queryEmbedding query k) ->
  (30 < score r)%Z
  /\ exists packageEmbedding,
       In (package r) (packages self)
       /\ packageEmbeddings self !! id (package r) = Some packageEmbedding
       /\ score r = Js.Math_roundR
                      (cosineSimilarity_of queryEmbedding packageEmbedding * 100).
Proof.
  unfold fallbackScan. intros Hin.
  apply slice0_In, sort_by_score_desc_In, filter_In in Hin.
  destruct Hin as [Hin Hgt]. split; [lia|].
  apply in_flat_map in Hin. destruct Hin as [pkg [Hpkg Hr]].
  destruct (packageEmbeddings self !! id pkg) as [packageEmbedding|] eqn:E;
    [|contradiction].
  destruct Hr as [<-|[]]. exists packageEmbedding. simpl. auto.
Qed.

Lemma fallbackScan_score (self : t) queryEmbedding query k :
  Forall (fun r => (30 < score r <= 100)%Z) (fallbackScan self queryEmbedding query k).
Proof.
  apply Forall_forall. intros r Hin. apply fallbackScan_In in Hin.
  destruct Hin as [Hgt (packageEmbedding & _ & _ & E)].
  split; [exact Hgt|]. rewrite E.
  apply score_of_similarity_bounds, cosineSimilarity_of_bounds.
Qed.

Lemma fallbackScan_length (self : t) queryEmbedding query k :
  (0 <= k)%Z -> (Z.of_nat (length (fallbackScan self queryEmbedding query k)) <= k)%Z.
Proof. intros Hk. unfold fallbackScan. apply slice0_length. exact Hk. Qed.

(** With the promise in the place of the array every similarity is 0,
    every score is 0, and the threshold leaves nothing. *)
Lemma fallbackSearch_empty (self : t) now query k :
  fallbackSearch self now query k = [].
Proof.
  unfold fallbackSearch.
  destruct (fallbackScan self (Pending (createQueryEmbedding now query)) query k)
    as [|r l] eqn:E; [reflexivity|].
  assert (In r (fallbackScan self (Pending (createQueryEmbedding now query)) query k))
    as Hin by (rewrite E; left; reflexivity).
  apply fallbackScan_In in Hin. destruct Hin as [Hgt (e & _ & _ & Hs)].
  simpl in Hs. rewrite score_of_zero in Hs. lia.
Qed.

Lemma collect_results_In (self : t) query labels distances r :
  In r (collect_results self query labels distances) ->
  exists similarity,
    In similarity distances
    /\ In (package r) (packages self)
    /\ score r = Js.Math_roundR (Rmax 0 (similarity * 100)).
Proof.
  revert distances.
  induction labels as [|packageIndex labels IH]; intros [|similarity distances];
    simpl; try contradiction.
  assert (In r (collect_results self query labels distances) ->
          exists s, (similarity = s \/ In s distances)
                    /\ In (package r) (packages self)
                    /\ score r = Js.Math_roundR (Rmax 0 (s * 100))) as Rest.
  { intros Hin. destruct (IH _ Hin) as (s & Hs & Hp & E). exists s. auto. }
  destruct (_ && _); [|exact Rest].
  destruct (packages self !! Z.to_nat packageIndex) as [pkg|] eqn:E; [|exact Rest].
  intros [<-|Hin]; [|exact (Rest Hin)].
  exists similarity. simpl. split; [auto|]. split; [|reflexivity].
  apply list_elem_of_In. eapply list_elem_of_lookup_2. exact E.
Qed.

Lemma collect_results_length (self : t) query labels distances :
  (length (collect_results self query labels distances) <= length labels)%nat.
Proof.
  revert distances.
  induction labels as [|packageIndex labels IH]; intros [|similarity distances];
    simpl; try lia.
  specialize (IH distances).
  destruct (_ && _); [|lia].
  destruct (packages self !! Z.to_nat packageIndex); simpl; lia.
Qed.

Lemma searchIndex_score (self : t) index now query k recommendations :
  searchIndex self index now query k = Js.Returns recommendations ->
  Forall (fun r => (30 < score r)%Z) recommendations.
Proof.
  unfold searchIndex.
  destruct (search index (createQueryEmbedding now query) k) as [results|];
    [|discriminate].
  intros E. injection E as <-. apply Forall_forall. intros r Hin.
  apply filter_In in Hin. destruct Hin as [_ Hgt]. lia.
Qed.

Lemma searchIndex_length (self : t) index now query k recommendations :
  searchIndex self index now query k = Js.Returns recommendations ->
  exists results,
    search index (createQueryEmbedding now query) k = Js.Returns results
    /\ (length recommendations <= length (labels results))%nat.
Proof.
  unfold searchIndex.
  destruct (search index (createQueryEmbedding now query) k) as [results|];
    [|discriminate].
  intros E. injection E as <-. exists results. split; [reflexivity|].
  etransitivity; [apply filter_length_le|apply collect_results_length].
Qed.

(** The three ways through [findRecommendationsByQuery]. *)
Lemma findRecommendationsByQuery_cases (self : t) now query k :
  (exists index recommendations,
      isInitialized self = true /\ faissIndex self = Some index
      /\ searchIndex self index now query k = Js.Returns recommendations
      /\ findRecommendationsByQuery self now query k = Js.Returns recommendations)
  \/ findRecommendationsByQuery self now query k
     = Js.Returns (fallbackSearch self now query k).
Proof.
  unfold findRecommendationsByQuery.
  destruct (isInitialized self); [|right; reflexivity].
  destruct (faissIndex self) as [index|]; [|right; reflexivity].
  destruct (searchIndex self index now query k) as [recommendations|] eqn:E;
    [|right; reflexivity].
  left. exists index, recommendations. auto.
Qed.
End Facts.
End FAISSFacts.

(** *** Worked examples of the attribute matcher *)

Section AttributeExamples.
Import RecommendationEngine RecommendationEngineTerms RecommendationEngineFacts.
Existing Instance UtcHost.host.

Example keen_scores :
  map score (findRecommendations [package1; package2] keen_preferences) = [105; 55].
Proof. reflexivity. Qed.

Example keen_scores_on_the_day :
  map score (findRecommendations [package1; package2] keen_preferences_on_the_day)
  = [120; 68].
Proof. reflexivity. Qed.

Example keen_reasons :
  getReasons package1 keen_preferences
  = [ "Matches your location preference: New York";
      "Perfect for Basketball fans";
      "Includes VIP Lounge experience";
      "Has 8 tickets available for your group";
      "Within your budget at $450" ].
Proof. reflexivity. Qed.

(** The third scenario of the specification: a budget of 0 to 200
    puts the package at 100 ahead of its twin at 900. *)
Example cheaper_twin_first :
  map (fun r => price (package r))
      (findRecommendations [with_price package1 900; with_price package1 100]
         {| pref_location := None; pref_peopleCount := None; pref_sport := None;
            pref_hospitalityType := None; pref_date := None;
            pref_budget := Some {| min := 0; max := 200 |} |})
  = [100%Q].
Proof. reflexivity. Qed.

(** The second scenario: a preference for baseball alone finds nothing
    in a catalog of basketball games. *)
Example baseball_finds_nothing :
  findRecommendations [package1; package2]
    {| pref_location := None; pref_peopleCount := None; pref_sport := Some "Baseball";
       pref_hospitalityType := None; pref_date := None; pref_budget := None |}
  = [].
Proof. reflexivity. Qed.

(** C1, counterexample.  With location, sport, hospitality, party size
    and budget all matching, the attribute matcher returns the first
    sample package with score 105. *)
Lemma attribute_score_above_100 :
  exists r,
    In r (findRecommendations [package1] keen_preferences)
    /\ score r = 105%Z
    /\ ~ (0 <= score r <= 100)%Z.
Proof.
  exists {| package := package1; score := 105;
            reasons := getReasons package1 keen_preferences |}.
  split; [left; reflexivity|]. split; [reflexivity|]. simpl. lia.
Qed.

(** C8, counterexample.  A preference that names only the day of the
    game: the date term adds its full 15 points, the score is 15, and
    the list of reasons is empty. *)
Lemma date_term_without_reason :
  ~ (date_term package1 date_only_preferences == 0)%Q
  /\ calculateScore package1 date_only_preferences = 15%Z
  /\ getReasons package1 date_only_preferences = [].
Proof.
  split; [|split; reflexivity].
  intros E. vm_compute in E. discriminate E.
Qed.

(** The budget reason follows [price <= max] alone: with the bounds
    the wrong way round a price between them earns 10 points and no
    reason. *)
Example inverted_budget_without_reason :
  let preferences :=
    {| pref_location := None; pref_peopleCount := None; pref_sport := None;
       pref_hospitalityType := None; pref_date := None;
       pref_budget := Some {| min := 600; max := 300 |} |} in
  budget_term package1 preferences = 10%Q
  /\ getReasons package1 preferences = [].
Proof. split; reflexivity. Qed.

(** The budget rule at the first sample package, priced 100, 450 and
    900 against a budget of 200 to 500. *)
Lemma budget_rule_witness :
  (calculateScore (with_price package1 100) budget_preferences
     < calculateScore (with_price package1 450) budget_preferences)%Z
  /\ (calculateScore (with_price package1 900) budget_preferences
       < calculateScore (with_price package1 100) budget_preferences)%Z
  /\ (calculateScore (with_price package1 900) budget_preferences
       < calculateScore (with_price package1 450) budget_preferences)%Z
  /\ budget_term (with_price package1 450) budget_preferences = 20%Q
  /\ budget_term (with_price package1 100) budget_preferences = 10%Q
  /\ budget_term (with_price package1 900) budget_preferences = 0%Q.
Proof.
  apply (budget_rule package1 budget_preferences {| min := 200; max := 500 |}
           100%Q 450%Q 900%Q).
  - reflexivity.
  - unfold Qle; simpl; lia.
  - unfold Qlt; simpl; lia.
  - unfold Qle; simpl; lia.
  - unfold Qle; simpl; lia.
  - unfold Qlt; simpl; lia.
Defined.

(** Monotonicity from a preference for New York alone to the keen
    preferences, which add sport, hospitality, party size and
    budget. *)
Lemma calculateScore_monotone_witness :
  (calculateScore package1 location_preferences
     <= calculateScore package1 keen_preferences)%Z.
Proof.
  apply (calculateScore_monotone package1 location_preferences keen_preferences).
  unfold extends, field_added; simpl.
  repeat split; first [left; reflexivity | right; reflexivity].
Defined.

End AttributeExamples.

(** ** Encoder alignment of the location block *)

Section LocationBlock.
Import FAISSSearchService.
Local Open Scope R_scope.

(** Seven of the eight cities of the catalog table get the same block
    from the catalog path and from the query path. *)
Lemma location_blocks_agree :
  Forall (fun city =>
            encodeLocationWithProximity city
            = extractLocationFromQuery (Js.toLowerCase city))
         ["New York"; "Los Angeles"; "Boston"; "Chicago";
          "San Francisco"; "Denver"; "Green Bay";
          "new york"; "los angeles"; "boston"; "chicago";
          "san francisco"; "denver"; "green bay"].
Proof. repeat constructor. Qed.

(** C9.  The eighth does not: ["dallas"] contains ["la"], the alias
    of Los Angeles, which the query table tries before ["dallas"].
    The catalog path gives the Dallas block and the query path gives
    the Los Angeles block. *)
Theorem dallas_blocks_differ :
  encodeLocationWithProximity "Dallas" = [0; 0; 0; 0; 1; 0; 0; 0; 0.1; 0.6]
  /\ extractLocationFromQuery (Js.toLowerCase "Dallas")
     = [0; 1; 0; 0; 0; 0; 0; 0; 0.2; 0.9]
  /\ encodeLocationWithProximity "Dallas"
     <> extractLocationFromQuery (Js.toLowerCase "Dallas").
Proof.
  split; [reflexivity|]. split; [reflexivity|].
  intros E.
  assert (nth 1 (encodeLocationWithProximity "Dallas") 0
          = nth 1 (extractLocationFromQuery (Js.toLowerCase "Dallas")) 0) as E1
    by (rewrite E; reflexivity).
  simpl in E1. lra.
Qed.
End LocationBlock.

(** ** The index-backed ranker, continued *)

Module FAISSRanking.
Import FAISSSearchService FAISSFacts.
Section Facts.
Context `{Host} `{Faiss}.
Local Open Scope R_scope.

(** The query vector reads the clock for its month and its weekday
    and for nothing else. *)
Lemma createQueryEmbedding_clock now1 now2 query :
  Date_getMonth now1 = Date_getMonth now2 ->
  Date_getDay now1 = Date_getDay now2 ->
  createQueryEmbedding now1 query = createQueryEmbedding now2 query.
Proof.
  intros Em Ed. unfold createQueryEmbedding, extractDatePreferences.
  rewrite Em, Ed. reflexivity.
Qed.

Lemma findRecommendationsByQuery_clock (self : t) now1 now2 query k :
  Date_getMonth now1 = Date_getMonth now2 ->
  Date_getDay now1 = Date_getDay now2 ->
  findRecommendationsByQuery self now1 query k
  = findRecommendationsByQuery self now2 query k.
Proof.
  intros Em Ed. unfold findRecommendationsByQuery, searchIndex.
  rewrite !fallbackSearch_empty.
  rewrite (createQueryEmbedding_clock now1 now2 query Em Ed). reflexivity.
Qed.

Lemma findRecommendationsByQuery_fallback (self : t) now query k :
  isInitialized self = false \/ faissIndex self = None ->
  findRecommendationsByQuery self now query k
  = Js.Returns (fallbackSearch self now query k).
Proof.
  unfold findRecommendationsByQuery. intros [E|E]; rewrite E.
  - reflexivity.
  - destruct (isInitialized self); reflexivity.
Qed.

Lemma findRecommendationsByQuery_caught (self : t) index now query k :
  faissIndex self = Some index ->
  search index (createQueryEmbedding now query) k = Js.Throws ->
  findRecommendationsByQuery self now query k
  = Js.Returns (fallbackSearch self now query k).
Proof.
  unfold findRecommendationsByQuery, searchIndex. intros Ei Es. rewrite Ei, Es.
  destruct (isInitialized self); reflexivity.
Qed.

Lemma findRecommendationsByQuery_returns (self : t) now query k :
  exists recommendations,
    findRecommendationsByQuery self now query k = Js.Returns recommendations.
Proof.
  destruct (findRecommendationsByQuery_cases self now query k)
    as [(index & recommendations & _ & _ & _ & E)|E]; eauto.
Qed.

Lemma initializeIndex_failure NaN import_ok now packages :
  import_ok = false
  \/ IndexFlatIP (Z.of_nat embeddingDimension) = Js.Throws
  \/ (exists index,
        IndexFlatIP (Z.of_nat embeddingDimension) = Js.Returns index
        /\ buildIndex index packages (generatePackageEmbeddings NaN now packages)
           = Js.Throws) ->
  isInitialized (initializeIndex NaN import_ok now packages) = false.
Proof.
  unfold initializeIndex. intros [->|[E|(index & Ei & Eb)]].
  - reflexivity.
  - rewrite E. destruct import_ok; reflexivity.
  - rewrite Ei, Eb. destruct import_ok; reflexivity.
Qed.

(** [findRecommendationsByQuery] always returns.  When the index
    is not initialized or missing, and when the search throws, what it
    returns is the result of [fallbackSearch].  A failed
    initialization (no import, no index, or a [buildIndex] that
    throws) leaves the object not initialized. *)
Theorem index_errors_recovered (self : t) now query k :
  (exists recommendations,
      findRecommendationsByQuery self now query k = Js.Returns recommendations)
  /\ (isInitialized self = false \/ faissIndex self = None ->
      findRecommendationsByQuery self now query k
      = Js.Returns (fallbackSearch self now query k))
  /\ (forall index,
        faissIndex self = Some index ->
        search index (createQueryEmbedding now query) k = Js.Throws ->
        findRecommendationsByQuery self now query k
        = Js.Returns (fallbackSearch self now query k))
  /\ (forall NaN import_ok packages,
        import_ok = false
        \/ IndexFlatIP (Z.of_nat embeddingDimension) = Js.Throws
        \/ (exists index,
              IndexFlatIP (Z.of_nat embeddingDimension) = Js.Returns index
              /\ buildIndex index packages
                   (generatePackageEmbeddings NaN now packages) = Js.Throws) ->
        let failed := initializeIndex NaN import_ok now packages in
        isInitialized failed = false
        /\ findRecommendationsByQuery failed now query k
           = Js.Returns (fallbackSearch failed now query k)).
Proof.
  split; [apply findRecommendationsByQuery_returns|].
  split; [apply findRecommendationsByQuery_fallback|].
  split; [intros index; apply findRecommendationsByQuery_caught|].
  intros NaN import_ok packages Hfail.
  pose proof (initializeIndex_failure NaN import_ok now packages Hfail) as E.
  split; [exact E|]. apply findRecommendationsByQuery_fallback. left. exact E.
Qed.

Lemma findRecommendationsByQuery_score (self : t) now query k :
  exists recommendations,
    findRecommendationsByQuery self now query k = Js.Returns recommendations
    /\ Forall (fun r => (30 < score r)%Z) recommendations.
Proof.
  destruct (findRecommendationsByQuery_cases self now query k)
    as [(index & recommendations & _ & _ & Es & E)|E].
  - exists recommendations. split; [exact E|].
    eapply searchIndex_score. exact Es.
  - exists (fallbackSearch self now query k). split; [exact E|].
    rewrite fallbackSearch_empty. constructor.
Qed.

Lemma findRecommendationsByQuery_length (self : t) now query k :
  (0 <= k)%Z -> search_respects_k ->
  exists recommendations,
    findRecommendationsByQuery self now query k = Js.Returns recommendations
    /\ (Z.of_nat (length recommendations) <= k)%Z.
Proof.
  intros Hk Hcontract.
  destruct (findRecommendationsByQuery_cases self now query k)
    as [(index & recommendations & _ & _ & Es & E)|E].
  - exists recommendations. split; [exact E|].
    apply searchIndex_length in Es. destruct Es as (results & Er & L).
    apply Hcontract in Er. lia.
  - exists (fallbackSearch self now query k). split; [exact E|].
    rewrite fallbackSearch_empty. simpl. lia.
Qed.
End Facts.
End FAISSRanking.

(** *** Worked examples with the inner-product index *)

(** Evaluation of the encoders that leaves the arithmetic of the reals
    as it stands. *)
Ltac eval_vectors :=
  cbv -[Rplus Rmult Rminus Rdiv Rinv IZR Rmin Rmax ln sqrt Rabs Q2R Zfloor
        Rlt_dec Rle_dec Req_dec_T Ropp].

Module FlatIPFacts.
Import FAISSSearchService FAISSFacts FAISSRanking.
Section Facts.
Context `{Host}.
Existing Instance FlatIP.faiss.
Local Open Scope R_scope.

Lemma FlatIP_respects_k : search_respects_k.
Proof.
  intros index q k results. simpl.
  destruct (Z.leb_spec 0 k) as [Hk|]; [|discriminate].
  destruct (_ <=? _)%Z; [|discriminate]. simpl.
  intros E. injection E as <-. simpl.
  rewrite length_map, length_take. lia.
Qed.

Lemma pad_to_dimension_length features :
  length (pad_to_dimension features) = embeddingDimension.
Proof.
  unfold pad_to_dimension.
  rewrite length_take, length_app, length_replicate. lia.
Qed.

Lemma chunks_single (e : list R) :
  length e = embeddingDimension -> FlatIP.chunks (length e) embeddingDimension e = [e].
Proof.
  intros L. destruct e as [|x e]; [discriminate|].
  cbn [length FlatIP.chunks].
  rewrite take_ge by (rewrite L; reflexivity).
  rewrite drop_ge by (rewrite L; reflexivity).
  f_equal. destruct (length e); reflexivity.
Qed.

(** The object that [initializeIndex] leaves behind for a catalog of
    one package. *)
Lemma initializeIndex_single NaN now pkg :
  initializeIndex NaN true now [pkg]
  = {| faissIndex := Some {| FlatIP.dimension := embeddingDimension;
                             FlatIP.rows := [createPackageEmbedding NaN now pkg] |};
       packages := [pkg];
       packageEmbeddings := <[id pkg := createPackageEmbedding NaN now pkg]> ∅;
       isInitialized := true |}.
Proof.
  unfold initializeIndex, generatePackageEmbeddings, buildIndex.
  cbn [negb IndexFlatIP FlatIP.faiss fold_left flat_map].
  rewrite lookup_insert_eq. cbn [app concat].
  rewrite !app_nil_r.
  assert (length (createPackageEmbedding NaN now pkg) = embeddingDimension) as L
    by apply pad_to_dimension_length.
  cbn [add FlatIP.faiss FlatIP.dimension FlatIP.rows app].
  rewrite Nat2Z.id, chunks_single by exact L. reflexivity.
Qed.

(** A search for the best row of a one-row index. *)
Lemma findRecommendationsByQuery_single (self : t) d e pkg now query :
  isInitialized self = true ->
  faissIndex self = Some {| FlatIP.dimension := d; FlatIP.rows := [e] |} ->
  packages self = [pkg] ->
  findRecommendationsByQuery self now query 1
  = Js.Returns
      (List.filter (fun r => (score r >? 30)%Z)
         [ {| package := pkg;
              score := Js.Math_roundR (Rmax 0 (dot (createQueryEmbedding now query) e * 100));
              reasons := generateReasons query pkg
                           (dot (createQueryEmbedding now query) e) |} ]).
Proof.
  intros Ei Ex Ep. unfold findRecommendationsByQuery, searchIndex.
  rewrite Ei, Ex. cbn [search FlatIP.faiss FlatIP.rows length].
  unfold FlatIP.hits. cbn [imap foldr FlatIP.insert_hit].
  change (0 <=? 1)%Z with true. change (1 <=? Z.of_nat 1)%Z with true.
  change (Z.to_nat 1) with 1%nat. change (Z.of_nat 0) with 0%Z.
  cbn [andb take map fst snd labels distances collect_results].
  rewrite Ep.
  change (0 >=? 0)%Z with true. change (0 <? Z.of_nat (length [pkg]))%Z with true.
  change (Z.to_nat 0) with 0%nat.
  reflexivity.
Qed.
End Facts.
End FlatIPFacts.

Section FridayService.
Import FAISSSearchService FAISSFacts FAISSRanking FlatIPFacts.
Existing Instance UtcHost.host.
Existing Instance FlatIP.faiss.
Local Open Scope R_scope.

Lemma ln_nonneg x : 1 <= x -> 0 <= ln x.
Proof.
  intros [L|E].
  - rewrite <- ln_1. left. apply ln_increasing; lra.
  - rewrite <- E, ln_1. lra.
Qed.

Lemma Rmin_nonneg x y : 0 <= x -> 0 <= y -> 0 <= Rmin x y.
Proof. intros. apply Rmin_glb; assumption. Qed.

(** The inner product of the query vector of [vip_query] with the row
    of [package1] one day later is higher by [(6/7 - 5/7) * (5/7)]:
    the weekday of the call against the weekday of the game. *)
Lemma inner_product_next_day :
  dot (createQueryEmbedding saturday vip_query)
      (createPackageEmbedding 0 friday package1)
  = dot (createQueryEmbedding friday vip_query)
        (createPackageEmbedding 0 friday package1) + 5 / 49.
Proof. eval_vectors. field. Qed.

Lemma inner_product_friday :
  7 <= dot (createQueryEmbedding friday vip_query)
           (createPackageEmbedding 0 friday package1).
Proof.
  eval_vectors.
  assert (0 <= ln (1.0 * 1000 + 1) / 10 * (ln (Q2R 450 + 1) / 10)) as A1.
  { assert (0 <= ln (1.0 * 1000 + 1)) by (apply ln_nonneg; lra).
    assert (0 <= ln (Q2R 450 + 1)) by (apply ln_nonneg; unfold Q2R; simpl; lra).
    nra. }
  assert (0 <= Rmin (Q2R 450 / 1000) 1) as A2
    by (apply Rmin_nonneg; [unfold Q2R; simpl; lra | lra]).
  assert (0 <= Rmin (Rabs (1209600000 / 86400000) / 365) 1) as A3.
  { apply Rmin_nonneg; [|lra]. pose proof (Rabs_pos (1209600000 / 86400000)). lra. }
  assert (0 <= Rmin (4 / 10) 1 * Rmin (Q2R 8 / 100) 1) as A4.
  { assert (0 <= Rmin (4 / 10) 1) by (apply Rmin_nonneg; lra).
    assert (0 <= Rmin (Q2R 8 / 100) 1)
      by (apply Rmin_nonneg; [unfold Q2R; simpl; lra | lra]).
    nra. }
  lra.
Qed.

Lemma friday_service_state :
  friday_service
  = {| faissIndex :=
         Some {| FlatIP.dimension := embeddingDimension;
                 FlatIP.rows := [createPackageEmbedding 0 friday package1] |};
       packages := [package1];
       packageEmbeddings := <[id package1 := createPackageEmbedding 0 friday package1]> ∅;
       isInitialized := true |}.
Proof. apply initializeIndex_single. Qed.

(** What the service answers to [vip_query] for [k = 1], in terms of
    the inner product that the index reports. *)
Lemma friday_service_answer now :
  let similarity :=
    dot (createQueryEmbedding now vip_query) (createPackageEmbedding 0 friday package1) in
  7 <= similarity ->
  findRecommendationsByQuery friday_service now vip_query 1
  = Js.Returns
      [ {| package := package1;
           score := Js.Math_roundR (Rmax 0 (similarity * 100));
           reasons := generateReasons vip_query package1 similarity |} ]
  /\ (700 <= Js.Math_roundR (Rmax 0 (similarity * 100)))%Z.
Proof.
  intros similarity Hsim.
  assert (700 <= Js.Math_roundR (Rmax 0 (similarity * 100)))%Z as Hscore.
  { rewrite <- (Math_roundR_Z 700) at 1. apply Math_roundR_le.
    apply Rle_trans with (similarity * 100); [lra | apply Rmax_r]. }
  split; [|exact Hscore].
  rewrite (findRecommendationsByQuery_single friday_service embeddingDimension
             (createPackageEmbedding 0 friday package1) package1 now vip_query).
  - cbn [List.filter score]. fold similarity.
    destruct (Z.gtb_spec (Js.Math_roundR (Rmax 0 (similarity * 100))) 30);
      [reflexivity | lia].
  - rewrite friday_service_state. reflexivity.
  - rewrite friday_service_state. reflexivity.
  - rewrite friday_service_state. reflexivity.
Qed.

(** On the index path the score is a hundred times the inner product
    and goes far beyond 100. *)
Lemma index_score_above_100 :
  exists r,
    findRecommendationsByQuery friday_service friday vip_query 1 = Js.Returns [r]
    /\ package r = package1
    /\ (700 <= score r)%Z.
Proof.
  destruct (friday_service_answer friday inner_product_friday) as [E Hscore].
  eexists. split; [exact E|]. split; [reflexivity|exact Hscore].
Qed.

(** C2, counterexample.  One service, one query, [k = 1], asked on a
    Friday and on the Saturday after it: the one item returned gains
    at least ten points overnight. *)
Lemma index_ranking_follows_the_clock :
  exists r1 r2,
    findRecommendationsByQuery friday_service friday vip_query 1 = Js.Returns [r1]
    /\ findRecommendationsByQuery friday_service saturday vip_query 1 = Js.Returns [r2]
    /\ package r1 = package1 /\ package r2 = package1
    /\ (score r1 + 10 <= score r2)%Z
    /\ findRecommendationsByQuery friday_service friday vip_query 1
       <> findRecommendationsByQuery friday_service saturday vip_query 1.
Proof.
  pose proof inner_product_friday as Hfri.
  pose proof inner_product_next_day as Hsat.
  assert (7 <= dot (createQueryEmbedding saturday vip_query)
                   (createPackageEmbedding 0 friday package1)) as Hsat7
    by (rewrite Hsat; lra).
  destruct (friday_service_answer friday Hfri) as [E1 _].
  destruct (friday_service_answer saturday Hsat7) as [E2 _].
  set (s1 := dot (createQueryEmbedding friday vip_query)
                 (createPackageEmbedding 0 friday package1)) in *.
  set (s2 := dot (createQueryEmbedding saturday vip_query)
                 (createPackageEmbedding 0 friday package1)) in *.
  assert (Js.Math_roundR (Rmax 0 (s1 * 100)) + 10
          <= Js.Math_roundR (Rmax 0 (s2 * 100)))%Z as Hgain.
  { rewrite !Rmax_right by lra.
    unfold Js.Math_roundR.
    rewrite <- (Zfloor_addz 10 (s1 * 100 + / 2)).
    apply Zfloor_le. rewrite Hsat. lra. }
  eexists. eexists.
  split; [exact E1|]. split; [exact E2|].
  split; [reflexivity|]. split; [reflexivity|]. split; [exact Hgain|].
  rewrite E1, E2. intros E. injection E as Escore _.
  rewrite Escore in Hgain. lia.
Qed.

(** The answer of the index-backed ranker follows its initialization,
    which the constructor starts and does not wait for: the object as
    the constructor returns it and the same object when the index has
    been built answer the same call, at the same moment, differently. *)
Lemma index_ranking_follows_initialization :
  findRecommendationsByQuery (constructed [package1]) friday vip_query 1 = Js.Returns []
  /\ exists r,
       findRecommendationsByQuery friday_service friday vip_query 1 = Js.Returns [r]
       /\ package r = package1 /\ (700 <= score r)%Z.
Proof.
  split; [|exact index_score_above_100].
  rewrite findRecommendationsByQuery_fallback by (left; reflexivity).
  rewrite fallbackSearch_empty. reflexivity.
Qed.

(** The vector cached for a package depends on the day the service
    was built: the first entry of its date block is the distance in
    days from that day to the game, over 365. *)
Lemma package_embedding_follows_the_clock :
  nth 32 (createPackageEmbedding 0 friday package1) 0 = 14 / 365
  /\ nth 32 (createPackageEmbedding 0 next_friday package1) 0 = 7 / 365.
Proof.
  split; eval_vectors.
  - rewrite Rabs_right by lra. rewrite Rmin_left by lra. lra.
  - rewrite Rabs_right by lra. rewrite Rmin_left by lra. lra.
Qed.

(** The padding of [createFallbackEmbedding] is whatever
    [Math.random] returns, a tenth of it. *)
Lemma fallback_embedding_follows_the_dice :
  nth 14 (createFallbackEmbedding (fun _ => 0) package1) 0 = 0
  /\ nth 14 (createFallbackEmbedding (fun _ => 1 / 2) package1) 0 = 0.05.
Proof. split; eval_vectors; lra. Qed.
End FridayService.

(** *** A worked example of the linear vector ranker

    The first scenario of the specification: the New York package is
    ranked above the Los Angeles one, with a location reason and the VIP
    reasons. *)

Section VectorExample.
Import VectorRecommendationEngine VectorFacts.
Existing Instance UtcHost.host.
Local Open Scope R_scope.

Ltac eval_dot :=
  eval_vectors; rewrite !Rmin_left by (unfold Q2R; simpl; lra);
  unfold Q2R; simpl; lra.

Lemma cosine_from_dots a b A B D :
  length a = length b -> dot a a = A -> dot b b = B -> dot a b = D ->
  0 < A -> 0 < B ->
  cosineSimilarity a b = D / (sqrt A * sqrt B).
Proof.
  intros El <- <- <- HA HB. rewrite cosineSimilarity_unfold.
  destruct (Nat.eqb_spec (length a) (length b)); [simpl|contradiction].
  destruct (Req_dec_T (dot a a) 0); [lra|].
  destruct (Req_dec_T (dot b b) 0); [lra|]. reflexivity.
Qed.

Lemma quotient_between D A B lo hi :
  0 < A -> 0 < B -> 0 < D -> 0 <= lo -> 0 < hi ->
  lo * lo * (A * B) <= D * D -> D * D < hi * hi * (A * B) ->
  lo <= D / (sqrt A * sqrt B) < hi.
Proof.
  intros HA HB HD Hlo Hhi Lo Hi.
  pose proof (sqrt_lt_R0 A HA) as SA. pose proof (sqrt_lt_R0 B HB) as SB.
  set (s := sqrt A * sqrt B).
  assert (0 < s) as Hs by (unfold s; nra).
  assert (s * s = A * B) as Hss.
  { unfold s. transitivity ((sqrt A * sqrt A) * (sqrt B * sqrt B)); [ring|].
    rewrite !sqrt_sqrt by lra. reflexivity. }
  rewrite <- Hss in Lo, Hi.
  assert (lo * s <= D) as L1.
  { destruct (Rle_lt_dec (lo * s) D) as [L|G]; [exact L|].
    exfalso. assert (D * D < (lo * s) * (lo * s)) as C by nra.
    replace ((lo * s) * (lo * s)) with (lo * lo * (s * s)) in C by ring. lra. }
  assert (D < hi * s) as L2.
  { destruct (Rlt_le_dec D (hi * s)) as [L|G]; [exact L|].
    exfalso. assert (0 <= hi * s) as P by nra.
    assert ((hi * s) * (hi * s) <= D * D) as C
      by (apply Rmult_le_compat; assumption).
    replace ((hi * s) * (hi * s)) with (hi * hi * (s * s)) in C by ring. lra. }
  split.
  - apply Rmult_le_reg_r with s; [exact Hs|].
    unfold Rdiv. rewrite Rmult_assoc, Rinv_l by lra. lra.
  - apply Rmult_lt_reg_r with s; [exact Hs|].
    unfold Rdiv. rewrite Rmult_assoc, Rinv_l by lra. lra.
Qed.

Lemma similarity_package1 :
  0.925 <= cosineSimilarity (createQueryEmbedding vip_query)
                            (createPackageEmbedding package1) < 0.935.
Proof.
  rewrite (cosine_from_dots _ _ 4.66 4.4781 4.264);
    [|reflexivity|eval_dot|eval_dot|eval_dot|lra|lra].
  apply quotient_between; lra.
Qed.

Lemma similarity_package2 :
  0.665 <= cosineSimilarity (createQueryEmbedding vip_query)
                            (createPackageEmbedding package2) < 0.675.
Proof.
  rewrite (cosine_from_dots _ _ 4.66 3.9485 2.876);
    [|reflexivity|eval_dot|eval_dot|eval_dot|lra|lra].
  apply quotient_between; lra.
Qed.

Lemma reasons_package1 similarity :
  0.8 < similarity ->
  generateReasons vip_query package1 similarity
  = [ "Located in New York as requested";
      "Perfect for Basketball fans";
      "Premium Platinum experience";
      "Includes VIP access and amenities";
      "Excellent match for your preferences" ].
Proof.
  intros Hs. eval_vectors. destruct (Rlt_dec 0.8 similarity); [reflexivity|lra].
Qed.

Lemma reasons_package2 similarity :
  similarity <= 0.8 ->
  generateReasons vip_query package2 similarity
  = [ "Perfect for Basketball fans"; "Premium Gold experience" ].
Proof.
  intros Hs. eval_vectors. destruct (Rlt_dec 0.8 similarity); [lra|reflexivity].
Qed.

Example vip_in_new_york :
  findRecommendationsByQuery (initialized [package1; package2]) vip_query
  = [ {| package := package1; score := 93;
         reasons := [ "Located in New York as requested";
                      "Perfect for Basketball fans";
                      "Premium Platinum experience";
                      "Includes VIP access and amenities";
                      "Excellent match for your preferences" ] |};
      {| package := package2; score := 67;
         reasons := [ "Perfect for Basketball fans";
                      "Premium Gold experience" ] |} ].
Proof.
  pose proof similarity_package1 as S1. pose proof similarity_package2 as S2.
  unfold findRecommendationsByQuery, score_packages, initialized, embeddings_after.
  cbn [packages packageEmbeddings flat_map fold_left].
  rewrite lookup_insert_ne by discriminate.
  rewrite !lookup_insert_eq. cbn [app].
  rewrite reasons_package1 by lra. rewrite reasons_package2 by lra.
  rewrite (Math_roundR_between _ 93) by lra.
  rewrite (Math_roundR_between _ 67) by lra.
  reflexivity.
Qed.

(** At the earliest scan the cache holds the vector of the first
    package alone, and the same call finds that package alone. *)
Example first_package_at_first_scan :
  findRecommendationsByQuery (at_first_scan [package1; package2]) vip_query
  = [ {| package := package1; score := 93;
         reasons := [ "Located in New York as requested";
                      "Perfect for Basketball fans";
                      "Premium Platinum experience";
                      "Includes VIP access and amenities";
                      "Excellent match for your preferences" ] |} ].
Proof.
  pose proof similarity_package1 as S1.
  unfold findRecommendationsByQuery, score_packages, at_first_scan, embeddings_after.
  cbn [packages packageEmbeddings flat_map fold_left take].
  rewrite lookup_insert_eq.
  rewrite lookup_insert_ne by discriminate. rewrite lookup_empty. cbn [app].
  rewrite reasons_package1 by lra.
  rewrite (Math_roundR_between _ 93) by lra.
  reflexivity.
Qed.

(** The answer of the linear vector ranker follows its cache: the
    object as the earliest scan finds it and the object after
    [initializeEmbeddings] answer the same call differently. *)
Lemma vector_ranking_follows_the_cache :
  findRecommendationsByQuery (at_first_scan [package1; package2]) vip_query
  <> findRecommendationsByQuery (initialized [package1; package2]) vip_query.
Proof.
  rewrite first_package_at_first_scan, vip_in_new_york. discriminate.
Qed.
End VectorExample.

(** *** Cosine against inner product on the index path *)

Section LnBounds.
Local Open Scope R_scope.

Lemma ln_monotone x y : 0 < x -> x <= y -> ln x <= ln y.
Proof.
  intros P [L|E].
  - left. apply ln_increasing; assumption.
  - rewrite E. lra.
Qed.

Lemma exp_ge_pow2 (n : nat) : 2 ^ n <= exp (INR n).
Proof.
  induction n as [|n IH].
  - simpl. rewrite exp_0. lra.
  - rewrite S_INR, exp_plus. simpl pow.
    pose proof (exp_ineq1 1 ltac:(lra)) as E1.
    pose proof (exp_pos (INR n)) as P.
    assert (0 <= 2 ^ n) by (apply pow_le; lra).
    nra.
Qed.

(** A number up to [2 ^ n] has a logarithm up to [n]. *)
Lemma ln_le_log2 (n : nat) (x : R) :
  1 <= x -> x <= 2 ^ n -> 0 <= ln x <= IZR (Z.of_nat n).
Proof.
  intros L U. rewrite <- INR_IZR_INZ. split.
  - rewrite <- ln_1. apply ln_monotone; lra.
  - rewrite <- (ln_exp (INR n)). apply ln_monotone; [lra|].
    pose proof (exp_ge_pow2 n). lra.
Qed.
End LnBounds.

Section StadiumQuery.
Import FAISSSearchService FAISSFacts FAISSRanking FlatIPFacts.
Existing Instance UtcHost.host.
Existing Instance FlatIP.faiss.
Local Open Scope R_scope.

Lemma ln_451 : 0 <= ln (Q2R 450 + 1) <= 9.
Proof.
  apply (ln_le_log2 9); unfold Q2R; simpl; lra.
Qed.

Lemma ln_201 : 0 <= ln (0.2 * 1000 + 1) <= 8.
Proof. apply (ln_le_log2 8); simpl; lra. Qed.

Lemma ln_1001 : 0 <= ln (1.0 * 1000 + 1) <= 10.
Proof. apply (ln_le_log2 10); simpl; lra. Qed.

Ltac eval_features :=
  eval_vectors;
  try rewrite (Rabs_right (1209600000 / 86400000)) by lra;
  rewrite ?Rmin_left by (unfold Q2R; simpl; lra);
  repeat match goal with
         | |- context [Rlt_dec ?a ?b] =>
             destruct (Rlt_dec a b) as [?|?]; try (exfalso; lra)
         end;
  pose proof ln_451 as Hlp; pose proof ln_201 as Hlq; pose proof ln_1001 as Hlv;
  set (lp := ln (Q2R 450 + 1)) in *;
  set (lq := ln (0.2 * 1000 + 1)) in *;
  set (lv := ln (1.0 * 1000 + 1)) in *;
  unfold Q2R; cbn [Qnum Qden].

Lemma stadium_inner_product :
  2.88 <= dot (createQueryEmbedding sunday stadium_query)
              (createPackageEmbedding 0 friday package1) <= 3.61.
Proof.
  eval_features.
  assert (0 <= lq / 10 * (lp / 10) <= 0.72) by nra.
  lra.
Qed.

Lemma stadium_query_norm :
  10.6 <= dot (createQueryEmbedding sunday stadium_query)
              (createQueryEmbedding sunday stadium_query).
Proof.
  eval_features.
  assert (0 <= lq / 10 * (lq / 10)) by nra.
  lra.
Qed.

Lemma package1_norm :
  13.4 <= dot (createPackageEmbedding 0 friday package1)
              (createPackageEmbedding 0 friday package1) <= 14.3.
Proof.
  eval_features.
  assert (0 <= lp / 10 * (lp / 10) <= 0.81) by nra.
  lra.
Qed.

Lemma vip_query_norm :
  1 <= dot (createQueryEmbedding friday vip_query)
           (createQueryEmbedding friday vip_query) <= 11.
Proof.
  eval_features.
  assert (0 <= lv / 10 * (lv / 10) <= 1) by nra.
  lra.
Qed.

Lemma index_vectors_compare a b :
  length a = embeddingDimension -> length b = embeddingDimension ->
  0 < dot a a -> 0 < dot b b ->
  cosineSimilarity a b = dot a b / (sqrt (dot a a) * sqrt (dot b b)).
Proof.
  intros La Lb Ha Hb. rewrite cosineSimilarity_unfold, La, Lb.
  cbn [negb Nat.eqb embeddingDimension].
  replace (embeddingDimension =? embeddingDimension)%nat with true
    by (symmetry; apply Nat.eqb_refl).
  cbn [negb].
  destruct (Req_dec_T (dot a a) 0); [lra|].
  destruct (Req_dec_T (dot b b) 0); [lra|]. reflexivity.
Qed.

(** The cosine between the vector of [stadium_query], made on the
    Sunday, and the vector of the first sample package is below
    0.3049. *)
Lemma stadium_cosine :
  0 <= cosineSimilarity (createQueryEmbedding sunday stadium_query)
                        (createPackageEmbedding 0 friday package1) < 0.3049.
Proof.
  pose proof stadium_inner_product as [D1 D2].
  pose proof stadium_query_norm as A1.
  pose proof package1_norm as [B1 B2].
  rewrite index_vectors_compare;
    [|apply pad_to_dimension_length|apply pad_to_dimension_length|lra|lra].
  set (D := dot (createQueryEmbedding sunday stadium_query)
                (createPackageEmbedding 0 friday package1)) in *.
  set (A := dot (createQueryEmbedding sunday stadium_query)
                (createQueryEmbedding sunday stadium_query)) in *.
  set (B := dot (createPackageEmbedding 0 friday package1)
                (createPackageEmbedding 0 friday package1)) in *.
  apply quotient_between; try lra.
  - assert (0 <= D * D) by nra. lra.
  - assert (D * D <= 3.61 * 3.61) by nra.
    assert (10.6 * 13.4 <= A * B) by nra.
    lra.
Qed.

(** The cosine between the vector of [vip_query], made on the Friday,
    and the vector of the first sample package is at least 0.5. *)
Lemma vip_cosine :
  0.5 <= cosineSimilarity (createQueryEmbedding friday vip_query)
                          (createPackageEmbedding 0 friday package1) <= 1.
Proof.
  split; [|apply cosineSimilarity_bounds].
  pose proof inner_product_friday as D1.
  pose proof vip_query_norm as [A1 A2].
  pose proof package1_norm as [B1 B2].
  assert (dot (createQueryEmbedding friday vip_query)
              (createPackageEmbedding 0 friday package1)
          * dot (createQueryEmbedding friday vip_query)
                (createPackageEmbedding 0 friday package1)
          <= dot (createQueryEmbedding friday vip_query)
                 (createQueryEmbedding friday vip_query)
             * dot (createPackageEmbedding 0 friday package1)
                   (createPackageEmbedding 0 friday package1)) as CS.
  { apply cauchy_schwarz. unfold createQueryEmbedding, createPackageEmbedding.
    rewrite !pad_to_dimension_length. reflexivity. }
  rewrite index_vectors_compare;
    [|apply pad_to_dimension_length|apply pad_to_dimension_length|lra|lra].
  set (D := dot (createQueryEmbedding friday vip_query)
                (createPackageEmbedding 0 friday package1)) in *.
  set (A := dot (createQueryEmbedding friday vip_query)
                (createQueryEmbedding friday vip_query)) in *.
  set (B := dot (createPackageEmbedding 0 friday package1)
                (createPackageEmbedding 0 friday package1)) in *.
  apply (quotient_between D A B 0.5 2); try lra.
  - assert (A * B <= 11 * 14.3) by nra.
    assert (7 * 7 <= D * D) by nra. lra.
  - assert (0 < A * B) by nra. lra.
Qed.

(** C4.  An item below the threshold is returned on the index path.
    The service built on the Friday over the first sample package
    answers [stadium_query] on the Sunday with that package, scored 288
    or more, while the score mapped from the cosine of the same two
    vectors, the query vector and the vector cached for the package, is
    30 or less: the index reports the inner product of vectors that
    nothing has normalised. *)
Theorem index_returns_an_item_below_the_threshold :
  exists r,
    findRecommendationsByQuery friday_service sunday stadium_query 1 = Js.Returns [r]
    /\ package r = package1
    /\ (288 <= score r)%Z
    /\ packageEmbeddings friday_service !! id package1
       = Some (createPackageEmbedding 0 friday package1)
    /\ (Js.Math_roundR
          (cosineSimilarity (createQueryEmbedding sunday stadium_query)
                            (createPackageEmbedding 0 friday package1) * 100)
        <= 30)%Z.
Proof.
  pose proof stadium_inner_product as [D1 D2].
  pose proof stadium_cosine as [C1 C2].
  set (similarity := dot (createQueryEmbedding sunday stadium_query)
                         (createPackageEmbedding 0 friday package1)) in *.
  assert (288 <= Js.Math_roundR (Rmax 0 (similarity * 100)))%Z as Hscore.
  { rewrite <- (Math_roundR_Z 288) at 1. apply Math_roundR_le.
    apply Rle_trans with (similarity * 100); [lra | apply Rmax_r]. }
  exists {| package := package1;
            score := Js.Math_roundR (Rmax 0 (similarity * 100));
            reasons := generateReasons stadium_query package1 similarity |}.
  split; [|split; [reflexivity|split; [exact Hscore|split]]].
  - rewrite (findRecommendationsByQuery_single friday_service embeddingDimension
               (createPackageEmbedding 0 friday package1) package1 sunday stadium_query);
      try (rewrite friday_service_state; reflexivity).
    cbn [List.filter score]. fold similarity.
    destruct (Z.gtb_spec (Js.Math_roundR (Rmax 0 (similarity * 100))) 30);
      [reflexivity | lia].
  - rewrite friday_service_state. cbn [packageEmbeddings]. apply lookup_insert_eq.
  - rewrite <- (Math_roundR_between 30.49 30) by lra. apply Math_roundR_le. lra.
Qed.
End StadiumQuery.

Section LostScan.
Import FAISSSearchService FAISSFacts FAISSRanking.
Existing Instance UtcHost.host.
Context `{Faiss}.
Local Open Scope R_scope.

(** C7.  The fallback scan is lost.  Take a service over the first
    sample package with the vector of the package in its cache, which
    is not initialized, has no index, or has an index whose search
    throws.  [findRecommendationsByQuery] raises nothing and answers
    [vip_query] with the empty list, while the scan of the cache with
    the query vector finds the package with a score above 30:
    [fallbackSearch] hands the scan the promise of the query vector. *)
Theorem fallback_scan_is_lost (self : t) (k : Z) :
  packages self = [package1] ->
  packageEmbeddings self !! id package1
  = Some (createPackageEmbedding 0 friday package1) ->
  (1 <= k)%Z ->
  isInitialized self = false \/ faissIndex self = None
  \/ (exists index, faissIndex self = Some index
         /\ search index (createQueryEmbedding friday vip_query) k = Js.Throws) ->
  findRecommendationsByQuery self friday vip_query k = Js.Returns []
  /\ exists r,
       fallbackScan self (Array (createQueryEmbedding friday vip_query)) vip_query k = [r]
       /\ package r = package1 /\ (50 <= score r)%Z.
Proof.
  intros Hp He Hk Hfail. split.
  - destruct Hfail as [E|[E|(index & Ei & Es)]].
    + rewrite findRecommendationsByQuery_fallback by (left; exact E).
      rewrite fallbackSearch_empty. reflexivity.
    + rewrite findRecommendationsByQuery_fallback by (right; exact E).
      rewrite fallbackSearch_empty. reflexivity.
    + rewrite (findRecommendationsByQuery_caught self index) by assumption.
      rewrite fallbackSearch_empty. reflexivity.
  - pose proof vip_cosine as [C1 C2].
    set (similarity := cosineSimilarity (createQueryEmbedding friday vip_query)
                         (createPackageEmbedding 0 friday package1)) in *.
    assert (50 <= Js.Math_roundR (similarity * 100))%Z as Hscore.
    { rewrite <- (Math_roundR_Z 50) at 1. apply Math_roundR_le. lra. }
    exists {| package := package1;
              score := Js.Math_roundR (similarity * 100);
              reasons := generateReasons vip_query package1 similarity |}.
    split; [|split; [reflexivity|exact Hscore]].
    unfold fallbackScan. rewrite Hp. cbn [flat_map]. rewrite He.
    cbn [app cosineSimilarity_of]. fold similarity.
    cbn [List.filter score].
    destruct (Z.gtb_spec (Js.Math_roundR (similarity * 100)) 30); [|lia].
    cbn [sort_by_score_desc foldr insert_by_score].
    unfold Js.slice0. destruct (Z.ltb_spec k 0); [lia|].
    destruct (Z.to_nat k) as [|n] eqn:En; [lia|].
    cbn [take]. rewrite take_nil. reflexivity.
Qed.
End LostScan.

Section LostScanExample.
Existing Instance UtcHost.host.
Existing Instance FlatIP.faiss.

Lemma fallback_scan_is_lost_witness :
  FS.findRecommendationsByQuery friday_service friday vip_query FS.default_k
  = Js.Returns []
  /\ exists r,
       FS.fallbackScan friday_service
         (FS.Array (FS.createQueryEmbedding friday vip_query)) vip_query FS.default_k
       = [r]
       /\ package r = package1 /\ (50 <= score r)%Z.
Proof.
  apply (fallback_scan_is_lost friday_service FS.default_k).
  - rewrite friday_service_state. reflexivity.
  - rewrite friday_service_state. apply lookup_insert_eq.
  - unfold FS.default_k. lia.
  - right. right. rewrite friday_service_state. eexists. split; [reflexivity|].
    reflexivity.
Defined.
End LostScanExample.

(** ** The three rankers together *)

(** Two states of a service with the same index, catalog and
    initialization flag answer alike at two moments of the same month
    and weekday: the cache is read on the fallback path only. *)
Section RankingStates.
Context `{Host} `{FS.Faiss}.

Lemma collect_results_same_catalog (s1 s2 : FS.t) query labels distances :
  FS.packages s1 = FS.packages s2 ->
  FS.collect_results s1 query labels distances
  = FS.collect_results s2 query labels distances.
Proof.
  intros E. revert distances.
  induction labels as [|packageIndex labels IH]; intros [|similarity distances];
    try reflexivity.
  cbn [FS.collect_results]. rewrite IH, E. reflexivity.
Qed.

Lemma findRecommendationsByQuery_same_state (s1 s2 : FS.t) now1 now2 query k :
  FS.isInitialized s1 = FS.isInitialized s2 ->
  FS.faissIndex s1 = FS.faissIndex s2 ->
  FS.packages s1 = FS.packages s2 ->
  Date_getMonth now1 = Date_getMonth now2 ->
  Date_getDay now1 = Date_getDay now2 ->
  FS.findRecommendationsByQuery s1 now1 query k
  = FS.findRecommendationsByQuery s2 now2 query k.
Proof.
  intros Ei Ex Ep Em Ed. unfold FS.findRecommendationsByQuery, FS.searchIndex.
  rewrite !FAISSFacts.fallbackSearch_empty, Ei, Ex.
  rewrite (FAISSRanking.createQueryEmbedding_clock now1 now2 query Em Ed).
  destruct (FS.isInitialized s2); [|reflexivity].
  destruct (FS.faissIndex s2) as [index|]; [|reflexivity].
  destruct (FS.search index (FS.createQueryEmbedding now2 query) k) as [results|];
    [|reflexivity].
  rewrite (collect_results_same_catalog s1 s2) by exact Ep. reflexivity.
Qed.

End RankingStates.


Section Ranking.
Context `{Host} `{FS.Faiss}.

(** C1, as the code has it.  Scores are integers.  Those of the
    attribute matcher lie in [[1, 120]]: the five weights sum to 100
    and the budget term adds up to 20.  Those of the linear vector
    ranker and of the fallback scan of the index-backed ranker lie in
    [[31, 100]], whether the scan gets the query vector or the
    promise of it.  Those of the index-backed ranker are above 30 on
    either path. *)
Theorem score_ranges (packages : list TicketPackage) (preferences : UserPreferences)
    (engine : VE.t) (service : FS.t) (now : Z) (query : string) (k : Z) :
  Forall (fun r => 0 < score r <= 120) (RE.findRecommendations packages preferences)
  /\ Forall (fun r => 30 < score r <= 100) (VE.findRecommendationsByQuery engine query)
  /\ (forall queryEmbedding,
        Forall (fun r => 30 < score r <= 100)
               (FS.fallbackScan service queryEmbedding query k))
  /\ exists recommendations,
       FS.findRecommendationsByQuery service now query k = Js.Returns recommendations
       /\ Forall (fun r => 30 < score r) recommendations.
Proof.
  split; [|split; [|split]].
  - apply Forall_forall. intros r Hin.
    apply RecommendationEngineFacts.attribute_recommendations_In in Hin.
    destruct Hin as (pkg & _ & E & Hpos). split; [exact Hpos|].
    rewrite E. simpl. apply RecommendationEngineFacts.calculateScore_bounds.
  - apply VectorFacts.vector_recommendations_score.
  - intros queryEmbedding. apply FAISSFacts.fallbackScan_score.
  - apply FAISSRanking.findRecommendationsByQuery_score.
Qed.

(** C2, as the code has it.  The attribute matcher answers alike
    under two hosts that print numbers and parse dates alike.  The
    linear vector ranker answers alike in two states with the same
    catalog and the same cached embeddings for it.  The index-backed
    ranker answers alike in two states with the same index, the same
    catalog and the same initialization flag, at two moments of the
    same month and weekday; and in any two states that are both on the
    fallback path, at any two moments. *)
Theorem ranking_determinism (host2 : Host) (packages : list TicketPackage)
    (preferences : UserPreferences) (engine1 engine2 : VE.t) (service1 service2 : FS.t)
    (now1 now2 : Z) (query : string) (k : Z) :
  (forall q, Number_toString q = @Number_toString host2 q) ->
  (forall s, Date_getTime s = @Date_getTime host2 s) ->
  VE.packages engine1 = VE.packages engine2 ->
  (forall pkg, In pkg (VE.packages engine1) ->
     VE.packageEmbeddings engine1 !! id pkg = VE.packageEmbeddings engine2 !! id pkg) ->
  (FS.isInitialized service1 = FS.isInitialized service2
   /\ FS.faissIndex service1 = FS.faissIndex service2
   /\ FS.packages service1 = FS.packages service2
   /\ Date_getMonth now1 = Date_getMonth now2 /\ Date_getDay now1 = Date_getDay now2)
  \/ ((FS.isInitialized service1 = false \/ FS.faissIndex service1 = None)
      /\ (FS.isInitialized service2 = false \/ FS.faissIndex service2 = None)) ->
  RE.findRecommendations packages preferences
  = @RE.findRecommendations host2 packages preferences
  /\ VE.findRecommendationsByQuery engine1 query
     = VE.findRecommendationsByQuery engine2 query
  /\ FS.findRecommendationsByQuery service1 now1 query k
     = FS.findRecommendationsByQuery service2 now2 query k.
Proof.
  intros En Ed Ep Ee Hstate. split; [|split].
  - apply RecommendationEngineFacts.attribute_recommendations_host; assumption.
  - apply VectorFacts.vector_recommendations_ext; assumption.
  - destruct Hstate as [(Ei & Ex & Ec & Em & Eday)|[F1 F2]].
    + apply findRecommendationsByQuery_same_state; assumption.
    + rewrite (FAISSRanking.findRecommendationsByQuery_fallback service1) by exact F1.
      rewrite (FAISSRanking.findRecommendationsByQuery_fallback service2) by exact F2.
      rewrite !FAISSFacts.fallbackSearch_empty. reflexivity.
Qed.

(** The threshold as the code applies it.  Every item that the query
    rankers return has a score above 30.  For the linear vector ranker and the fallback scan that score
    is the rounded hundredfold of the cosine similarity between the
    query vector and the cached vector of the item; on the index path
    it is the score kept by the final filter. *)
Theorem threshold_invariant (engine : VE.t) (service : FS.t)
    (now : Z) (query : string) (k : Z) :
  Forall (fun r =>
            30 < score r
            /\ exists packageEmbedding,
                 VE.packageEmbeddings engine !! id (package r) = Some packageEmbedding
                 /\ score r
                    = Js.Math_roundR
                        (cosineSimilarity (VE.createQueryEmbedding query)
                           packageEmbedding * 100))
         (VE.findRecommendationsByQuery engine query)
  /\ (forall queryEmbedding,
        Forall (fun r =>
                  30 < score r
                  /\ exists packageEmbedding,
                       FS.packageEmbeddings service !! id (package r)
                       = Some packageEmbedding
                       /\ score r
                          = Js.Math_roundR
                              (FS.cosineSimilarity_of queryEmbedding
                                 packageEmbedding * 100))
               (FS.fallbackScan service queryEmbedding query k))
  /\ (forall index recommendations,
        FS.searchIndex service index now query k = Js.Returns recommendations ->
        Forall (fun r => 30 < score r) recommendations)
  /\ exists recommendations,
       FS.findRecommendationsByQuery service now query k = Js.Returns recommendations
       /\ Forall (fun r => 30 < score r) recommendations.
Proof.
  split; [|split; [|split]].
  - apply Forall_forall. intros r Hin.
    apply VectorFacts.vector_recommendations_In in Hin.
    destruct Hin as [Hgt (packageEmbedding & _ & E & Hs)]. eauto.
  - intros queryEmbedding. apply Forall_forall. intros r Hin.
    apply FAISSFacts.fallbackScan_In in Hin.
    destruct Hin as [Hgt (packageEmbedding & _ & E & Hs)]. eauto.
  - intros index recommendations. apply FAISSFacts.searchIndex_score.
  - apply FAISSRanking.findRecommendationsByQuery_score.
Qed.

(** C5.  The attribute matcher and the linear vector ranker return at
    most 5 items.  For [k >= 0] the fallback scan of the index-backed
    ranker returns at most [k] items, and so does
    [findRecommendationsByQuery]: its index path passes on one item
    at most for each label of the index, and the index is taken to
    return at most [k] labels. *)
Theorem result_size_bound (packages : list TicketPackage)
    (preferences : UserPreferences) (engine : VE.t) (service : FS.t)
    (now : Z) (query : string) (k : Z) :
  0 <= k ->
  search_respects_k ->
  (length (RE.findRecommendations packages preferences) <= 5)%nat
  /\ (length (VE.findRecommendationsByQuery engine query) <= 5)%nat
  /\ (forall queryEmbedding,
        Z.of_nat (length (FS.fallbackScan service queryEmbedding query k)) <= k)
  /\ exists recommendations,
       FS.findRecommendationsByQuery service now query k = Js.Returns recommendations
       /\ Z.of_nat (length recommendations) <= k.
Proof.
  intros Hk Hcontract. split; [|split; [|split]].
  - unfold RE.findRecommendations.
    match goal with |- (length (Js.slice0 5 ?l) <= 5)%nat =>
      pose proof (slice0_length 5 l) end. lia.
  - apply VectorFacts.vector_recommendations_length.
  - intros queryEmbedding. apply FAISSFacts.fallbackScan_length. exact Hk.
  - apply FAISSRanking.findRecommendationsByQuery_length; assumption.
Qed.
End Ranking.

Section RankingExamples.
Existing Instance UtcHost.host.
Existing Instance FlatIP.faiss.

(** Without the dependency the service is on its fallback path. *)
Example degraded_service_answer :
  FS.isInitialized degraded_service = false
  /\ FS.findRecommendationsByQuery degraded_service friday vip_query 5 = Js.Returns [].
Proof.
  split; [reflexivity|].
  rewrite FAISSRanking.findRecommendationsByQuery_fallback by (left; reflexivity).
  rewrite FAISSFacts.fallbackSearch_empty. reflexivity.
Qed.

(** Determinism at the sample data: the attribute matcher under a
    host in another time zone, the linear vector ranker with one more
    package in its cache, and the index-backed ranker, its
    initialization settled, on two Fridays of the same month. *)
Lemma ranking_determinism_witness :
  RE.findRecommendations [package1; package2] keen_preferences_on_the_day
  = @RE.findRecommendations UtcHost.host_east [package1; package2]
      keen_preferences_on_the_day
  /\ VE.findRecommendationsByQuery (VE.initialized [package1]) vip_query
     = VE.findRecommendationsByQuery
         {| VE.packages := [package1];
            VE.packageEmbeddings := VE.embeddings_after [package1; package2] |}
         vip_query
  /\ FS.findRecommendationsByQuery friday_service friday vip_query 1
     = FS.findRecommendationsByQuery friday_service next_friday vip_query 1.
Proof.
  apply (ranking_determinism UtcHost.host_east
           [package1; package2] keen_preferences_on_the_day
           (VE.initialized [package1])
           {| VE.packages := [package1];
              VE.packageEmbeddings := VE.embeddings_after [package1; package2] |}
           friday_service friday_service friday next_friday vip_query 1).
  - intros q. reflexivity.
  - intros s. reflexivity.
  - reflexivity.
  - intros pkg [<-|[]].
    unfold VE.initialized, VE.embeddings_after.
    cbn [VE.packageEmbeddings fold_left].
    symmetry. apply lookup_insert_ne. discriminate.
  - left. repeat split; reflexivity.
Defined.

(** The size bound at the sample data, for [k = 1] and the
    inner-product index. *)
Lemma result_size_bound_witness :
  (length (RE.findRecommendations [package1; package2] keen_preferences) <= 5)%nat
  /\ (length (VE.findRecommendationsByQuery (VE.initialized [package1; package2])
                vip_query) <= 5)%nat
  /\ (forall queryEmbedding,
        Z.of_nat (length (FS.fallbackScan friday_service queryEmbedding vip_query 1))
        <= 1)
  /\ exists recommendations,
       FS.findRecommendationsByQuery friday_service friday vip_query 1
       = Js.Returns recommendations
       /\ Z.of_nat (length recommendations) <= 1.
Proof.
  apply (result_size_bound [package1; package2] keen_preferences
           (VE.initialized [package1; package2]) friday_service friday vip_query 1).
  - lia.
  - apply FlatIPFacts.FlatIP_respects_k.
Defined.
End RankingExamples.

(** * Further properties *)

(** ** Order of the results *)

Lemma insert_by_score_sorted x l :
  StronglySorted ranks_before l -> StronglySorted ranks_before (insert_by_score x l).
Proof.
  induction 1 as [|y l Hl IH Hy]; simpl.
  - repeat constructor.
  - destruct (Z.gtb_spec (score y) (score x)) as [G|L].
    + constructor; [exact IH|].
      apply Forall_forall. intros z Hz. apply insert_by_score_In in Hz.
      destruct Hz as [->|Hz]; [unfold ranks_before; lia|].
      rewrite Forall_forall in Hy. apply Hy. exact Hz.
    + constructor; [constructor; assumption|].
      constructor; [unfold ranks_before; lia|].
      rewrite Forall_forall in Hy. apply Forall_forall. intros z Hz.
      specialize (Hy z Hz). unfold ranks_before in *. lia.
Qed.

Lemma sort_by_score_desc_sorted l : StronglySorted ranks_before (sort_by_score_desc l).
Proof.
  induction l as [|x l IH]; simpl; [constructor|].
  apply insert_by_score_sorted. exact IH.
Qed.

Lemma take_sorted {A} (R : A -> A -> Prop) n l :
  StronglySorted R l -> StronglySorted R (take n l).
Proof.
  intros S. revert n. induction S as [|x l Hl IH Hx]; intros [|n]; simpl;
    try constructor.
  - apply IH.
  - rewrite Forall_forall in Hx. apply Forall_forall. intros y Hy.
    apply Hx. eapply In_take. exact Hy.
Qed.

Lemma slice0_sorted {A} (R : A -> A -> Prop) k l :
  StronglySorted R l -> StronglySorted R (Js.slice0 k l).
Proof. intros S. unfold Js.slice0. destruct (k <? 0); apply take_sorted, S. Qed.

Lemma sorted_app_inv {A} (R : A -> A -> Prop) l1 l2 a b :
  StronglySorted R (l1 ++ l2) -> In a l1 -> In b l2 -> R a b.
Proof.
  induction l1 as [|x l1 IH]; simpl; intros S Ha Hb; [contradiction|].
  inversion S as [|? ? S' Hx]; subst.
  destruct Ha as [->|Ha].
  - rewrite Forall_forall in Hx. apply Hx. apply in_or_app. right. exact Hb.
  - apply IH; assumption.
Qed.

(** What the three linear pipelines end in: threshold, sort, slice. *)
Lemma pipeline_sorted (f : RecommendationScore -> bool) k l :
  StronglySorted ranks_before (Js.slice0 k (sort_by_score_desc (List.filter f l))).
Proof. apply slice0_sorted, sort_by_score_desc_sorted. Qed.

(** X1.  The attribute matcher, the linear vector ranker and the
    fallback scan of the index-backed ranker return their items by
    score, highest first: no item is followed by one with a higher
    score. *)
Theorem results_ranked_by_score `{Host} `{FS.Faiss}
    (packages : list TicketPackage) (preferences : UserPreferences)
    (engine : VE.t) (service : FS.t) queryEmbedding (query : string) (k : Z) :
  StronglySorted ranks_before (RE.findRecommendations packages preferences)
  /\ StronglySorted ranks_before (VE.findRecommendationsByQuery engine query)
  /\ StronglySorted ranks_before (FS.fallbackScan service queryEmbedding query k).
Proof. repeat split; apply pipeline_sorted. Qed.

Lemma take_drop_cases {A} n (l : list A) x :
  In x l -> In x (take n l) \/ (length (take n l) = n /\ In x (drop n l)).
Proof.
  intros Hin. rewrite <- (take_drop n l) in Hin. apply in_app_or in Hin.
  destruct Hin as [Hin|Hin]; [left; exact Hin|]. right. split; [|exact Hin].
  rewrite length_take. destruct (Nat.le_gt_cases n (length l)) as [L|G]; [lia|].
  rewrite drop_ge in Hin by lia. contradiction.
Qed.

(** Of a sorted list, what [slice(0, n)] leaves out does not outrank
    what it keeps. *)
Lemma top_of_sorted n l x :
  (0 <= n)%Z -> StronglySorted ranks_before l -> In x l ->
  In x (Js.slice0 n l)
  \/ (Z.of_nat (length (Js.slice0 n l)) = n
      /\ forall r, In r (Js.slice0 n l) -> score x <= score r).
Proof.
  intros Hn S Hin. unfold Js.slice0. destruct (Z.ltb_spec n 0) as [|_]; [lia|].
  destruct (take_drop_cases (Z.to_nat n) l x Hin) as [Ht|[Hlen Hd]]; [left; exact Ht|].
  right. split; [lia|]. intros r Hr.
  rewrite <- (take_drop (Z.to_nat n) l) in S.
  exact (sorted_app_inv ranks_before _ _ r x S Hr Hd).
Qed.

Section TopFive.
Context `{Host}.

(** X2.  The attribute matcher leaves no better package out: a catalog
    package with a positive score is among the results, or else five
    results are returned and each of them scores at least as much. *)
Theorem attribute_top_five (packages : list TicketPackage)
    (preferences : UserPreferences) (pkg : TicketPackage) :
  In pkg packages ->
  0 < RE.calculateScore pkg preferences ->
  In (attribute_item preferences pkg) (RE.findRecommendations packages preferences)
  \/ (length (RE.findRecommendations packages preferences) = 5%nat
      /\ forall r, In r (RE.findRecommendations packages preferences) ->
                   RE.calculateScore pkg preferences <= score r).
Proof.
  intros Hin Hpos. unfold RE.findRecommendations.
  set (S := sort_by_score_desc _).
  assert (In (attribute_item preferences pkg) S) as HS.
  { apply sort_by_score_desc_In, filter_In. split.
    - apply in_map_iff. exists pkg. split; [reflexivity|exact Hin].
    - simpl. lia. }
  destruct (top_of_sorted 5 S _ ltac:(lia) (sort_by_score_desc_sorted _) HS)
    as [Ht|[Hlen Hall]]; [left; exact Ht|].
  right. split; [lia|]. exact Hall.
Qed.

(** X3.  The linear vector ranker leaves no better package out: a
    catalog package with a cached vector whose score is above 30 is
    among the results, or else five results are returned and each of
    them scores at least as much. *)
Theorem vector_top_five (engine : VE.t) (query : string) (pkg : TicketPackage)
    (packageEmbedding : list R) :
  In pkg (VE.packages engine) ->
  VE.packageEmbeddings engine !! id pkg = Some packageEmbedding ->
  let similarity := cosineSimilarity (VE.createQueryEmbedding query) packageEmbedding in
  30 < Js.Math_roundR (similarity * 100) ->
  (exists r, In r (VE.findRecommendationsByQuery engine query)
             /\ package r = pkg /\ score r = Js.Math_roundR (similarity * 100))
  \/ (length (VE.findRecommendationsByQuery engine query) = 5%nat
      /\ forall r, In r (VE.findRecommendationsByQuery engine query) ->
                   Js.Math_roundR (similarity * 100) <= score r).
Proof.
  intros Hin E similarity Hgt. unfold VE.findRecommendationsByQuery.
  set (S := sort_by_score_desc _).
  set (item := {| package := pkg; score := Js.Math_roundR (similarity * 100);
                  reasons := VE.generateReasons query pkg similarity |}).
  assert (In item S) as HS.
  { apply sort_by_score_desc_In, filter_In. split.
    - unfold VE.score_packages. apply in_flat_map. exists pkg. split; [exact Hin|].
      rewrite E. left. reflexivity.
    - simpl. lia. }
  destruct (top_of_sorted 5 S _ ltac:(lia) (sort_by_score_desc_sorted _) HS)
    as [Ht|[Hlen Hall]].
  - left. exists item. auto.
  - right. split; [lia|]. exact Hall.
Qed.
End TopFive.

(** ** Ties *)

Lemma with_score_insert v x l :
  with_score v (insert_by_score x l) = with_score v (x :: l).
Proof.
  induction l as [|y l IH]; [reflexivity|].
  simpl insert_by_score. destruct (Z.gtb_spec (score y) (score x)) as [G|L];
    [|reflexivity].
  unfold with_score in *. simpl in *. rewrite IH.
  destruct (Z.eqb_spec (score x) v) as [Ex|Nx];
    destruct (Z.eqb_spec (score y) v) as [Ey|Ny]; try reflexivity.
  lia.
Qed.

(** The sort is stable: the items of one score keep their order. *)
Lemma with_score_sort v l : with_score v (sort_by_score_desc l) = with_score v l.
Proof.
  induction l as [|x l IH]; [reflexivity|].
  simpl sort_by_score_desc. rewrite with_score_insert.
  unfold with_score in *. simpl. rewrite IH. reflexivity.
Qed.

Lemma with_score_filter v (t : Z) l :
  t < v ->
  with_score v (List.filter (fun r => score r >? t) l) = with_score v l.
Proof.
  intros Hv. unfold with_score. induction l as [|x l IH]; [reflexivity|].
  simpl. destruct (Z.gtb_spec (score x) t) as [G|L]; simpl.
  - rewrite IH. reflexivity.
  - rewrite IH. destruct (Z.eqb_spec (score x) v); [lia|reflexivity].
Qed.

Lemma with_score_slice0 v k l :
  exists rest, with_score v l = with_score v (Js.slice0 k l) ++ rest.
Proof.
  unfold Js.slice0, with_score.
  destruct (k <? 0).
  - exists (List.filter (fun r => score r =? v)
              (drop (Z.to_nat (Z.of_nat (length l) + k)) l)).
    rewrite <- filter_app, take_drop. reflexivity.
  - exists (List.filter (fun r => score r =? v) (drop (Z.to_nat k) l)).
    rewrite <- filter_app, take_drop. reflexivity.
Qed.

Section Ties.
Context `{Host}.

(** X4.  Ties keep the order of the catalog: the results of the
    attribute matcher that share a positive score are the first
    packages of the catalog with that score, in catalog order. *)
Theorem attribute_ties_in_catalog_order (packages : list TicketPackage)
    (preferences : UserPreferences) (v : Z) :
  0 < v ->
  exists rest,
    with_score v (map (attribute_item preferences) packages)
    = with_score v (RE.findRecommendations packages preferences) ++ rest.
Proof.
  intros Hv. unfold RE.findRecommendations.
  match goal with |- context [Js.slice0 5 ?l] =>
    destruct (with_score_slice0 v 5 l) as [rest E] end.
  exists rest. rewrite <- E, with_score_sort, with_score_filter by exact Hv.
  reflexivity.
Qed.
End Ties.

(** ** The attribute matcher: edge cases *)

Module AttributeEdges.
Import RecommendationEngine RecommendationEngineTerms RecommendationEngineFacts.
Section Facts.
Context `{Host}.
Local Open Scope Q_scope.

Lemma pref_matches_falsy pref field :
  Js.truthy_string pref = None -> pref_matches pref field = false.
Proof. unfold pref_matches. intros ->. reflexivity. Qed.

(** X5.  With nothing to go by the attribute matcher recommends nothing:
    when every field of the preferences is unset or falsy (the empty
    string, zero people) and no budget is given, every package scores 0
    and the result is empty, whatever the catalog. *)
Theorem nothing_asked_nothing_recommended (packages : list TicketPackage)
    (preferences : UserPreferences) :
  Js.truthy_string (pref_location preferences) = None ->
  Js.truthy_string (pref_sport preferences) = None ->
  Js.truthy_string (pref_hospitalityType preferences) = None ->
  Js.truthy_string (pref_date preferences) = None ->
  Js.truthy_number (pref_peopleCount preferences) = None ->
  pref_budget preferences = None ->
  (forall pkg, calculateScore pkg preferences = 0%Z)
  /\ findRecommendations packages preferences = [].
Proof.
  intros El Es Eh Ed Ep Eb.
  assert (forall pkg, calculateScore pkg preferences = 0%Z) as Z0.
  { intros pkg. unfold calculateScore, people_fit.
    rewrite !pref_matches_falsy by assumption. rewrite Ed, Ep, Eb. reflexivity. }
  split; [exact Z0|].
  unfold findRecommendations.
  rewrite filter_none; [reflexivity|].
  intros r Hr. apply in_map_iff in Hr as (pkg & <- & _). simpl.
  rewrite Z0. reflexivity.
Qed.

Lemma total_with_date pkg d preferences :
  total (with_date pkg d) preferences
  == date_term (with_date pkg d) preferences
     + (location_term pkg preferences + sport_term pkg preferences
        + hospitality_term pkg preferences + people_term pkg preferences
        + budget_term pkg preferences).
Proof.
  unfold total.
  change (location_term (with_date pkg d) preferences) with (location_term pkg preferences).
  change (sport_term (with_date pkg d) preferences) with (sport_term pkg preferences).
  change (hospitality_term (with_date pkg d) preferences)
    with (hospitality_term pkg preferences).
  change (people_term (with_date pkg d) preferences) with (people_term pkg preferences).
  change (budget_term (with_date pkg d) preferences) with (budget_term pkg preferences).
  ring.
Qed.

(** X6.  A game closer to the wanted day never scores lower: of two
    packages that differ in their date only, the one fewer days away
    from the date of the preferences has at least the score of the
    other. *)
Theorem closer_date_scores_no_lower (pkg : TicketPackage) (preferences : UserPreferences)
    (prefDate near far : string) (daysNear daysFar : Q) :
  pref_date preferences = Some prefDate ->
  daysDiff (with_date pkg near) prefDate = Some daysNear ->
  daysDiff (with_date pkg far) prefDate = Some daysFar ->
  daysNear <= daysFar ->
  (calculateScore (with_date pkg far) preferences
   <= calculateScore (with_date pkg near) preferences)%Z.
Proof.
  intros Ep En Ef L. rewrite !calculateScore_total.
  apply Math_round_le. rewrite !total_with_date.
  apply Qplus_le_compat; [|apply Qle_refl].
  unfold date_term. rewrite Ep.
  destruct (Js.truthy_string (Some prefDate)) as [p|] eqn:Et; [|apply Qle_refl].
  assert (p = prefDate) as -> by (destruct prefDate; simpl in Et; congruence).
  set (qn := daysDiff (with_date pkg near) prefDate) in *.
  set (qf := daysDiff (with_date pkg far) prefDate) in *.
  assert (0 <= daysNear) as N0 by (apply (daysDiff_nonneg (with_date pkg near) prefDate); exact En).
  rewrite En, Ef.
  destruct (Qle_bool daysFar 30) eqn:Lf.
  - apply Qle_bool_iff in Lf.
    assert (Qle_bool daysNear 30 = true) as ->
      by (apply Qle_bool_iff; Lqa.lra).
    assert (weights_date * (1 - daysFar / 30) == 15 - daysFar * (1 # 2)) as ->
      by (unfold weights_date; field).
    assert (weights_date * (1 - daysNear / 30) == 15 - daysNear * (1 # 2)) as ->
      by (unfold weights_date; field).
    Lqa.lra.
  - destruct (Qle_bool daysNear 30) eqn:Ln; [|apply Qle_refl].
    apply Qle_bool_iff in Ln. apply date_weight_bounds; assumption.
Qed.

End Facts.
End AttributeEdges.

(** ** Keyword search *)

Lemma startsWith_empty s : Js.startsWith s "" = true.
Proof. destruct s; reflexivity. Qed.

Lemma includes_empty s : Js.includes s "" = true.
Proof. destruct s; reflexivity. Qed.

Lemma startsWith_cons b s a p :
  Js.startsWith (String b s) (String a p)
  = if Ascii.eqb a b then Js.startsWith s p else false.
Proof. reflexivity. Qed.

Lemma includes_cons c s t :
  Js.includes (String c s) t = Js.startsWith (String c s) t || Js.includes s t.
Proof. reflexivity. Qed.

Lemma toLowerCase_app a b :
  Js.toLowerCase (a +:+ b) = Js.toLowerCase a +:+ Js.toLowerCase b.
Proof.
  induction a as [|c a IH]; [reflexivity|].
  change (String c a +:+ b) with (String c (a +:+ b)).
  simpl Js.toLowerCase. rewrite IH. reflexivity.
Qed.

Lemma split_space_nonempty s : Js.split_space s <> [].
Proof.
  induction s as [|c s IH]; simpl; [discriminate|].
  destruct (Ascii.eqb c " "); [discriminate|].
  destruct (Js.split_space s); discriminate.
Qed.

(** A space between two texts splits into the words of the one followed
    by the words of the other. *)
Lemma split_space_app a b :
  Js.split_space (a +:+ " " +:+ b) = Js.split_space a ++ Js.split_space b.
Proof.
  induction a as [|c a IH]; [reflexivity|].
  change (String c a +:+ " " +:+ b) with (String c (a +:+ " " +:+ b)).
  simpl Js.split_space. rewrite IH.
  destruct (Ascii.eqb c " "); [reflexivity|].
  pose proof (split_space_nonempty a) as Ne.
  destruct (Js.split_space a) as [|w ws]; [contradiction|]. reflexivity.
Qed.

(** No word of [split(' ')] holds a space. *)
Lemma split_space_words s :
  Forall (fun word => Js.includes word " " = false) (Js.split_space s).
Proof.
  induction s as [|c s IH]; simpl.
  - constructor; [reflexivity|constructor].
  - destruct (Ascii.eqb c " ") eqn:E.
    + constructor; [reflexivity|exact IH].
    + pose proof (split_space_nonempty s) as Ne.
      destruct (Js.split_space s) as [|w ws]; [contradiction|].
      inversion IH as [|? ? Hw Hws]; subst. constructor; [|exact Hws].
      rewrite includes_cons, startsWith_cons, Ascii.eqb_sym, E. exact Hw.
Qed.

Lemma startsWith_app s r t : Js.startsWith s t = true -> Js.startsWith (s +:+ r) t = true.
Proof.
  revert s; induction t as [|c t IH]; intros s; [intros _; apply startsWith_empty|].
  destruct s as [|x s]; simpl; [discriminate|].
  destruct (Ascii.eqb c x); [apply IH|discriminate].
Qed.

Lemma includes_app_l s r t : Js.includes s t = true -> Js.includes (s +:+ r) t = true.
Proof.
  induction s as [|x s IH]; simpl.
  - rewrite orb_false_r. intros E. destruct t; [apply includes_empty|discriminate].
  - intros E. apply orb_true_iff in E as [E|E]; apply orb_true_iff.
    + left. exact (startsWith_app (String x s) r t E).
    + right. apply IH, E.
Qed.

Lemma includes_app_r s r t : Js.includes r t = true -> Js.includes (s +:+ r) t = true.
Proof.
  intros E. induction s as [|x s IH]; [exact E|].
  change (String x s +:+ r) with (String x (s +:+ r)).
  rewrite includes_cons. apply orb_true_iff. right. exact IH.
Qed.

(** A text without a space that starts at a position of [a] and runs on
    into [" " + b] would have to hold the space. *)
Lemma startsWith_across a b t :
  Js.includes t " " = false ->
  Js.startsWith (a +:+ " " +:+ b) t = true -> Js.startsWith a t = true.
Proof.
  revert t; induction a as [|x a IH]; intros t Ht E.
  - destruct t as [|c t]; [reflexivity|].
    change ("" +:+ " " +:+ b) with (String " " b) in E.
    rewrite startsWith_cons in E.
    destruct (Ascii.eqb c " ") eqn:Ec; [|discriminate].
    apply Ascii.eqb_eq in Ec. subst c.
    rewrite includes_cons, startsWith_cons, Ascii.eqb_refl, startsWith_empty in Ht.
    discriminate.
  - destruct t as [|c t]; [reflexivity|].
    change (String x a +:+ " " +:+ b) with (String x (a +:+ " " +:+ b)) in E.
    rewrite startsWith_cons in E |- *. destruct (Ascii.eqb c x); [|discriminate].
    apply IH; [|exact E].
    rewrite includes_cons in Ht. apply orb_false_iff in Ht. tauto.
Qed.

Lemma includes_across a b t :
  Js.includes t " " = false ->
  Js.includes (a +:+ " " +:+ b) t = Js.includes a t || Js.includes b t.
Proof.
  intros Ht. apply eq_true_iff_eq. rewrite orb_true_iff. split.
  - induction a as [|x a IH].
    + change ("" +:+ " " +:+ b) with (String " " b). rewrite includes_cons.
      intros E. apply orb_true_iff in E as [E|E]; [|right; exact E].
      left. apply (startsWith_across "" b t Ht) in E.
      destruct t; [reflexivity|discriminate].
    + change (String x a +:+ " " +:+ b) with (String x (a +:+ " " +:+ b)).
      rewrite !includes_cons. intros E. apply orb_true_iff in E as [E|E].
      * left. apply orb_true_iff. left.
        exact (startsWith_across (String x a) b t Ht E).
      * destruct (IH E) as [I|I]; [left; apply orb_true_iff; right; exact I|right; exact I].
  - intros [E|E].
    + apply includes_app_l, E.
    + apply includes_app_r. apply (includes_app_r " " b t E).
Qed.

Lemma join_cons a (l : list string) :
  l <> [] ->
  Js.join " " (a :: l) = a +:+ " " +:+ Js.join " " l.
Proof. destruct l; [contradiction|reflexivity]. Qed.

Lemma includes_join l t :
  l <> [] ->
  Js.includes t " " = false ->
  Js.includes (Js.join " " l) t = existsb (fun field => Js.includes field t) l.
Proof.
  intros Ne Ht. induction l as [|a l IH]; [contradiction|].
  destruct l as [|b l].
  - simpl. rewrite orb_false_r. reflexivity.
  - rewrite join_cons by discriminate.
    rewrite includes_across by exact Ht. rewrite IH by discriminate. reflexivity.
Qed.

Lemma toLowerCase_join l :
  Js.toLowerCase (Js.join " " l) = Js.join " " (map Js.toLowerCase l).
Proof.
  induction l as [|a l IH]; [reflexivity|].
  destruct l as [|b l]; [reflexivity|].
  change (Js.join " " (a :: b :: l)) with (a +:+ " " +:+ Js.join " " (b :: l)).
  rewrite !toLowerCase_app, IH. reflexivity.
Qed.

Module SearchFacts.
Import RecommendationEngine.
Section Facts.
Context `{Host}.

(** X7.  The keyword search looks into six fields and matches words
    inside a field: a package is found exactly when it is in the catalog
    and one of the words of the keywords, in lower case, occurs in the
    lower-cased venue, sport, location, hospitality type, seating
    category or description.  No match runs across two fields. *)
Theorem searchByKeywords_by_field (packages : list TicketPackage) (keywords : string)
    (pkg : TicketPackage) :
  In pkg (searchByKeywords packages keywords)
  <-> In pkg packages
      /\ exists term field,
           In term (Js.split_space (Js.toLowerCase keywords))
           /\ In field [ venue pkg; sportType pkg; location pkg; hospitalityType pkg;
                         seatingCategory pkg; description pkg ]
           /\ Js.includes (Js.toLowerCase field) term = true.
Proof.
  unfold searchByKeywords. rewrite filter_In.
  apply and_iff_compat_l. rewrite existsb_exists. split.
  - intros (term & Hin & E). exists term.
    unfold searchableText in E. rewrite toLowerCase_join in E.
    rewrite includes_join in E.
    + apply existsb_exists in E as (f & Hf & E).
      apply in_map_iff in Hf as (field & <- & Hf). exists field. auto.
    + discriminate.
    + pose proof (split_space_words (Js.toLowerCase keywords)) as W.
      rewrite Forall_forall in W. exact (W _ Hin).
  - intros (term & field & Hin & Hf & E). exists term. split; [exact Hin|].
    unfold searchableText. rewrite toLowerCase_join, includes_join.
    + apply existsb_exists. exists (Js.toLowerCase field). split; [|exact E].
      apply in_map. exact Hf.
    + discriminate.
    + pose proof (split_space_words (Js.toLowerCase keywords)) as W.
      rewrite Forall_forall in W. exact (W _ Hin).
Qed.

Lemma search_with_empty_term packages keywords :
  In "" (Js.split_space (Js.toLowerCase keywords)) ->
  searchByKeywords packages keywords = packages.
Proof.
  intros Hin. unfold searchByKeywords.
  induction packages as [|pkg packages IH]; [reflexivity|].
  simpl. rewrite IH.
  assert (existsb (fun term => Js.includes (searchableText pkg) term)
            (Js.split_space (Js.toLowerCase keywords)) = true) as ->; [|reflexivity].
  apply existsb_exists. exists "". split; [exact Hin|apply includes_empty].
Qed.

(** X8.  Blank keywords find everything: with empty keywords, a leading
    or trailing space, or two spaces in a row, [split(' ')] yields an
    empty term, which every text includes, so the whole catalog comes
    back unfiltered. *)
Theorem blank_keywords_find_everything (packages : list TicketPackage) (a b : string) :
  searchByKeywords packages "" = packages
  /\ searchByKeywords packages (" " +:+ b) = packages
  /\ searchByKeywords packages (a +:+ " ") = packages
  /\ searchByKeywords packages (a +:+ " " +:+ " " +:+ b) = packages.
Proof.
  repeat split; apply search_with_empty_term.
  - left. reflexivity.
  - left. reflexivity.
  - change (a +:+ " ") with (a +:+ " " +:+ "").
    rewrite !toLowerCase_app. change (Js.toLowerCase " ") with " ".
    rewrite split_space_app. apply in_or_app. right. left. reflexivity.
  - rewrite !toLowerCase_app. change (Js.toLowerCase " ") with " ".
    rewrite split_space_app. apply in_or_app. right. left. reflexivity.
Qed.

(** X9.  Words are alternatives: searching for two texts joined by a
    space finds the packages that either text finds. *)
Theorem searchByKeywords_union (packages : list TicketPackage) (a b : string)
    (pkg : TicketPackage) :
  In pkg (searchByKeywords packages (a +:+ " " +:+ b))
  <-> In pkg (searchByKeywords packages a) \/ In pkg (searchByKeywords packages b).
Proof.
  unfold searchByKeywords. rewrite !filter_In.
  rewrite !toLowerCase_app. change (Js.toLowerCase " ") with " ".
  rewrite split_space_app, existsb_app, orb_true_iff. tauto.
Qed.

End Facts.
End SearchFacts.

(** ** The linear vector ranker: its vectors *)

Section DotFacts.
Local Open Scope R_scope.

Lemma dot_app a a' b b' :
  length a = length a' -> dot (a ++ b) (a' ++ b') = dot a a' + dot b b'.
Proof.
  revert a'. induction a as [|x a IH]; intros [|y a'] E; try discriminate.
  - simpl. lra.
  - simpl. rewrite IH by (simpl in E; lia). lra.
Qed.

Lemma dot_nonneg a b :
  Forall (fun x => 0 <= x) a -> Forall (fun x => 0 <= x) b -> 0 <= dot a b.
Proof.
  intros Ha. revert b. induction Ha as [|x a Hx Ha IH]; intros b Hb; [simpl; lra|].
  destruct Hb as [|y b Hy Hb]; simpl; [lra|].
  specialize (IH b Hb). nra.
Qed.

Lemma indicator_nonneg b : 0 <= indicator b.
Proof. destruct b; simpl; lra. Qed.

Lemma indicators_nonneg {A} (f : A -> bool) l :
  Forall (fun x => 0 <= x) (map (fun a => indicator (f a)) l).
Proof. induction l; simpl; constructor; [apply indicator_nonneg|assumption]. Qed.

Lemma hospitality_level_score_bounds level :
  0.25 <= hospitality_level_score level <= 1.
Proof.
  unfold hospitality_level_score.
  repeat (destruct (String.eqb level _)); lra.
Qed.

(** A run of digits reads as a number that is not negative. *)
Lemma parseInt_aux_nonneg ds acc :
  (0 <= acc)%Z ->
  Forall (fun c => Js.is_digit c = true) (list_ascii_of_string ds) ->
  (0 <= Js.parseInt_aux acc ds)%Z.
Proof.
  revert acc. induction ds as [|c ds IH]; intros acc Hacc Hd; simpl; [exact Hacc|].
  inversion Hd as [|? ? Hc Hds]; subst. apply IH; [|exact Hds].
  unfold Js.is_digit in Hc. apply andb_true_iff in Hc as [Lo _].
  apply Nat.leb_le in Lo. lia.
Qed.

Lemma span_digits s ds rest :
  Js.span Js.is_digit s = (ds, rest) ->
  Forall (fun c => Js.is_digit c = true) (list_ascii_of_string ds).
Proof.
  revert ds rest. induction s as [|c s IH]; intros ds rest; simpl.
  - intros [= <- <-]. constructor.
  - destruct (Js.is_digit c) eqn:Ec.
    + destruct (Js.span Js.is_digit s) as [a b] eqn:Es.
      intros [= <- <-]. simpl. constructor; [exact Ec|]. eapply IH. reflexivity.
    + intros [= <- <-]. constructor.
Qed.

Lemma match_number_then_word_digits words s ds :
  Js.match_number_then_word words s = Some ds ->
  Forall (fun c => Js.is_digit c = true) (list_ascii_of_string ds).
Proof.
  induction s as [|c s IH]; simpl.
  - unfold Js.number_then_word_at. simpl. discriminate.
  - destruct (Js.number_then_word_at words (String c s)) as [ds'|] eqn:E.
    + intros [= <-]. unfold Js.number_then_word_at in E.
      destruct (Js.span Js.is_digit (String c s)) as [a rest] eqn:Es.
      destruct a as [|a0 a]; [discriminate|].
      destruct (Js.span Js.is_space rest) as [sp rest'].
      destruct (existsb _ _); [|discriminate].
      injection E as <-. eapply span_digits. exact Es.
    + exact IH.
Qed.

Lemma group_size_nonneg words s ds :
  Js.match_number_then_word words s = Some ds -> 0 <= IZR (Js.parseInt ds).
Proof.
  intros E. apply IZR_le. apply parseInt_aux_nonneg; [lia|].
  eapply match_number_then_word_digits. exact E.
Qed.

End DotFacts.

Module VectorInvariants.
Import VectorRecommendationEngine.
Section Facts.
Context `{Host}.
Local Open Scope R_scope.

Lemma team_loop_invariant (query : string) (sports : list string)
    (teams : list (string * string)) (sportVector : list R) :
  let result :=
    fold_left
      (fun sportVector '(team, sport) =>
         if Js.includes query team then
           match indexOf sports sport with
           | Some sportIndex => <[sportIndex := 1]> sportVector
           | None => sportVector
           end
         else sportVector) teams sportVector in
  length result = length sportVector
  /\ (Forall (fun x => 0 <= x) sportVector -> Forall (fun x => 0 <= x) result).
Proof.
  revert sportVector. induction teams as [|[team sport] teams IH]; intros v; simpl.
  - split; auto.
  - destruct (Js.includes query team); [|apply IH].
    destruct (indexOf sports sport) as [i|]; [|apply IH].
    destruct (IH (<[i := 1]> v)) as [L F]. split.
    + rewrite L. apply length_insert.
    + intros Hv. apply F. apply Forall_insert; [exact Hv|lra].
Qed.

Lemma vector_extractSportFromQuery_length query : length (extractSportFromQuery query) = 4%nat.
Proof. unfold extractSportFromQuery. rewrite (proj1 (team_loop_invariant _ _ _ _)). reflexivity. Qed.

Lemma vector_extractSportFromQuery_nonneg query :
  Forall (fun x => 0 <= x) (extractSportFromQuery query).
Proof.
  unfold extractSportFromQuery. apply (proj2 (team_loop_invariant _ _ _ _)).
  apply indicators_nonneg.
Qed.

Lemma vector_createPackageEmbedding_length pkg : length (createPackageEmbedding pkg) = 17%nat.
Proof. reflexivity. Qed.

Lemma vector_createQueryEmbedding_length query : length (createQueryEmbedding query) = 17%nat.
Proof.
  unfold createQueryEmbedding. rewrite !length_app, vector_extractSportFromQuery_length.
  reflexivity.
Qed.

Lemma query_norm_positive query :
  0 < dot (createQueryEmbedding query) (createQueryEmbedding query).
Proof.
  unfold createQueryEmbedding.
  rewrite dot_app by reflexivity. rewrite dot_app by reflexivity.
  pose proof (dot_self_nonneg (extractLocationFromQuery (Js.toLowerCase query))).
  pose proof (dot_self_nonneg (extractSportFromQuery (Js.toLowerCase query))).
  set (dl := dot (extractLocationFromQuery _) _) in *. clearbody dl.
  set (ds := dot (extractSportFromQuery _) _) in *. clearbody ds.
  simpl dot.
  set (a := extractPricePreferenceFromQuery _). set (b := extractHospitalityFromQuery _).
  set (c := extractGroupSizeInfluence _).
  pose proof (Rle_0_sqr a) as Ha. pose proof (Rle_0_sqr b) as Hb.
  pose proof (Rle_0_sqr c) as Hc. unfold Rsqr in *. lra.
Qed.

Lemma package_norm_positive pkg :
  0 < dot (createPackageEmbedding pkg) (createPackageEmbedding pkg).
Proof.
  unfold createPackageEmbedding.
  rewrite dot_app by reflexivity. rewrite dot_app by reflexivity.
  pose proof (dot_self_nonneg (encodeLocation (location pkg))).
  pose proof (dot_self_nonneg (encodeSport (sportType pkg))).
  set (dl := dot (encodeLocation _) _) in *. clearbody dl.
  set (ds := dot (encodeSport _) _) in *. clearbody ds.
  simpl dot.
  set (a := Rmin (Q2R (price pkg) / 1000) 1).
  set (b := encodeHospitalityLevel _). set (c := encodeVenuePrestige _).
  set (d := Rmin (Q2R (availableTickets pkg) / 50) 1).
  pose proof (Rle_0_sqr a) as Ha. pose proof (Rle_0_sqr b) as Hb.
  pose proof (Rle_0_sqr c) as Hc. pose proof (Rle_0_sqr d) as Hd.
  unfold Rsqr in *. lra.
Qed.

Lemma similarity_quotient (query : string) (pkg : TicketPackage) :
  let a := createQueryEmbedding query in
  let b := createPackageEmbedding pkg in
  0 < dot a a /\ 0 < dot b b
  /\ cosineSimilarity a b = dot a b / (sqrt (dot a a) * sqrt (dot b b)).
Proof.
  intros a b.
  pose proof (query_norm_positive query) as Ha.
  pose proof (package_norm_positive pkg) as Hb.
  split; [exact Ha|]. split; [exact Hb|].
  rewrite cosineSimilarity_unfold.
  unfold a, b. rewrite vector_createQueryEmbedding_length, vector_createPackageEmbedding_length.
  simpl negb. cbv iota.
  destruct (Req_dec_T _ 0) as [E|_]; [lra|].
  destruct (Req_dec_T _ 0) as [E|_]; [lra|].
  reflexivity.
Qed.

(** X10.  Between a query vector and a package vector of the linear
    vector ranker none of the guards of [cosineSimilarity] fires: both
    vectors have 17 entries and neither has norm zero, whatever the
    query and the package, so the similarity is the quotient itself. *)
Theorem vector_similarity_is_the_quotient (query : string) (pkg : TicketPackage) :
  let a := createQueryEmbedding query in
  let b := createPackageEmbedding pkg in
  length a = 17%nat /\ length b = 17%nat
  /\ 0 < dot a a /\ 0 < dot b b
  /\ cosineSimilarity a b = dot a b / (sqrt (dot a a) * sqrt (dot b b)).
Proof.
  intros a b.
  split; [apply vector_createQueryEmbedding_length|].
  split; [apply vector_createPackageEmbedding_length|].
  apply similarity_quotient.
Qed.

Lemma extractPricePreferenceFromQuery_nonneg q : 0 <= extractPricePreferenceFromQuery q.
Proof.
  unfold extractPricePreferenceFromQuery.
  repeat match goal with |- context [if ?c then _ else _] => destruct c end; lra.
Qed.

Lemma extractHospitalityFromQuery_nonneg q : 0 <= extractHospitalityFromQuery q.
Proof.
  unfold extractHospitalityFromQuery.
  repeat match goal with |- context [if ?c then _ else _] => destruct c end; lra.
Qed.

Lemma extractGroupSizeInfluence_nonneg q : 0 <= extractGroupSizeInfluence q.
Proof.
  unfold extractGroupSizeInfluence.
  destruct (Js.match_number_then_word _ q) as [ds|] eqn:E; [|lra].
  apply group_size_nonneg in E. apply Rmin_glb; lra.
Qed.

Lemma encodeVenuePrestige_bounds venue : 0.5 <= encodeVenuePrestige venue <= 1.
Proof. unfold encodeVenuePrestige. destruct (existsb _ _); lra. Qed.

(** X11.  For a package whose price and ticket count are not negative
    and whose hospitality level is one of the four of the table, the
    cosine similarity to every query is above 0, and the score of the
    linear vector ranker lies between 0 and 100, before the threshold is
    applied. *)
Theorem vector_similarity_positive (query : string) (pkg : TicketPackage) :
  (0 <= price pkg)%Q -> (0 <= availableTickets pkg)%Q ->
  In (hospitalityLevel pkg) ["Bronze"; "Silver"; "Gold"; "Platinum"] ->
  let similarity :=
    cosineSimilarity (createQueryEmbedding query) (createPackageEmbedding pkg) in
  0 < similarity /\ (0 <= Js.Math_roundR (similarity * 100) <= 100)%Z.
Proof.
  intros Hp Ha _ similarity.
  assert (0 < similarity) as Pos.
  { unfold similarity.
    destruct (similarity_quotient query pkg) as (Na & Nb & ->).
    apply Rdiv_lt_0_compat.
    - unfold createQueryEmbedding, createPackageEmbedding.
      rewrite dot_app by reflexivity.
      rewrite dot_app by (rewrite vector_extractSportFromQuery_length; reflexivity).
      assert (0 <= dot (extractLocationFromQuery (Js.toLowerCase query))
                       (encodeLocation (location pkg))) as D1
        by (apply dot_nonneg; apply indicators_nonneg).
      assert (0 <= dot (extractSportFromQuery (Js.toLowerCase query))
                       (encodeSport (sportType pkg))) as D2
        by (apply dot_nonneg; [apply vector_extractSportFromQuery_nonneg|apply indicators_nonneg]).
      set (dl := dot (extractLocationFromQuery _) _) in *. clearbody dl.
      set (ds := dot (extractSportFromQuery _) _) in *. clearbody ds.
      simpl dot.
      pose proof (extractPricePreferenceFromQuery_nonneg (Js.toLowerCase query)).
      pose proof (extractHospitalityFromQuery_nonneg (Js.toLowerCase query)).
      pose proof (extractGroupSizeInfluence_nonneg (Js.toLowerCase query)).
      pose proof (hospitality_level_score_bounds (hospitalityLevel pkg)).
      pose proof (encodeVenuePrestige_bounds (venue pkg)).
      unfold encodeHospitalityLevel.
      assert (0 <= Rmin (Q2R (price pkg) / 1000) 1) as P1.
      { apply Rmin_glb; [|lra]. apply Qreals.Qle_Rle in Hp. rewrite RMicromega.Q2R_0 in Hp. lra. }
      assert (0 <= Rmin (Q2R (availableTickets pkg) / 50) 1) as P2.
      { apply Rmin_glb; [|lra]. apply Qreals.Qle_Rle in Ha. rewrite RMicromega.Q2R_0 in Ha. lra. }
      set (a := extractPricePreferenceFromQuery _) in *.
      set (b := extractHospitalityFromQuery _) in *.
      set (c := extractGroupSizeInfluence _) in *.
      set (d := hospitality_level_score _) in *.
      set (e := encodeVenuePrestige _) in *.
      set (f := Rmin (Q2R (price pkg) / 1000) 1) in *.
      set (g := Rmin (Q2R (availableTickets pkg) / 50) 1) in *.
      assert (0 <= a * f) by (apply Rmult_le_pos; assumption).
      assert (0 <= b * d) by (apply Rmult_le_pos; lra).
      assert (0 <= c * g) by (apply Rmult_le_pos; assumption).
      lra.
    - apply Rmult_lt_0_compat; apply sqrt_lt_R0; assumption. }
  pose proof (cosineSimilarity_bounds (createQueryEmbedding query)
                (createPackageEmbedding pkg)) as [_ Hi].
  fold similarity in Hi. split; [exact Pos|]. split.
  - rewrite <- (Math_roundR_Z 0) at 1. apply Math_roundR_le. simpl. lra.
  - rewrite <- (Math_roundR_Z 100) at 2. apply Math_roundR_le. simpl. lra.
Qed.

End Facts.
End VectorInvariants.

(** ** Reasons, caches and catalog membership *)

Lemma vector_reasons_nonempty `{Host} query pkg similarity :
  VE.generateReasons query pkg similarity <> [].
Proof.
  unfold VE.generateReasons.
  match goal with |- match ?l with _ => _ end <> [] => destruct l; discriminate end.
Qed.

Lemma index_reasons_nonempty `{Host} query pkg similarity :
  FS.generateReasons query pkg similarity <> [].
Proof.
  unfold FS.generateReasons.
  match goal with |- match ?l with _ => _ end <> [] => destruct l; discriminate end.
Qed.

Lemma collect_results_reasons `{Host} `{FS.Faiss} (self : FS.t) query labels distances r :
  In r (FS.collect_results self query labels distances) -> reasons r <> [].
Proof.
  revert distances.
  induction labels as [|packageIndex labels IH]; intros [|similarity distances];
    simpl; try contradiction.
  destruct (_ && _); [|apply IH].
  destruct (FS.packages self !! Z.to_nat packageIndex) as [pkg|]; [|apply IH].
  intros [<-|Hin]; [apply index_reasons_nonempty|eapply IH; exact Hin].
Qed.

Section Reasons.
Context `{Host} `{FS.Faiss}.

(** X12.  Every recommendation of the two vector rankers carries at
    least one reason: when no rule fires the percentage line is put in.
    (The attribute matcher has no such default.) *)
Theorem vector_recommendations_give_reasons (engine : VE.t) (service : FS.t)
    (now : Z) (query : string) (k : Z) :
  Forall (fun r => reasons r <> []) (VE.findRecommendationsByQuery engine query)
  /\ exists recommendations,
       FS.findRecommendationsByQuery service now query k = Js.Returns recommendations
       /\ Forall (fun r => reasons r <> []) recommendations.
Proof.
  split.
  - apply Forall_forall. intros r Hin. unfold VE.findRecommendationsByQuery in Hin.
    apply slice0_In, sort_by_score_desc_In, filter_In in Hin. destruct Hin as [Hin _].
    apply VectorFacts.score_packages_In in Hin.
    destruct Hin as (pkg & e & _ & _ & ->). apply vector_reasons_nonempty.
  - destruct (FAISSFacts.findRecommendationsByQuery_cases service now query k)
      as [(index & recommendations & _ & _ & Es & E)|E].
    + exists recommendations. split; [exact E|].
      unfold FS.searchIndex in Es.
      destruct (FS.search index (FS.createQueryEmbedding now query) k) as [results|];
        [|discriminate].
      injection Es as <-. apply Forall_forall. intros r Hin.
      apply filter_In in Hin. destruct Hin as [Hin _].
      eapply collect_results_reasons. exact Hin.
    + exists (FS.fallbackSearch service now query k). split; [exact E|].
      rewrite FAISSFacts.fallbackSearch_empty. constructor.
Qed.

(** X13.  No ranker invents a package: whatever the attribute matcher,
    the keyword search, the linear vector ranker and the index-backed
    ranker return is taken from the catalog of the object asked. *)
Theorem recommended_packages_are_in_the_catalog (packages : list TicketPackage)
    (preferences : UserPreferences) (keywords : string)
    (engine : VE.t) (service : FS.t) (now : Z) (query : string) (k : Z) :
  Forall (fun r => In (package r) packages) (RE.findRecommendations packages preferences)
  /\ Forall (fun pkg => In pkg packages) (RE.searchByKeywords packages keywords)
  /\ Forall (fun r => In (package r) (VE.packages engine))
            (VE.findRecommendationsByQuery engine query)
  /\ exists recommendations,
       FS.findRecommendationsByQuery service now query k = Js.Returns recommendations
       /\ Forall (fun r => In (package r) (FS.packages service)) recommendations.
Proof.
  split; [|split; [|split]].
  - apply Forall_forall. intros r Hin.
    apply RecommendationEngineFacts.attribute_recommendations_In in Hin.
    destruct Hin as (pkg & Hp & -> & _). exact Hp.
  - apply Forall_forall. intros pkg Hin. unfold RE.searchByKeywords in Hin.
    apply filter_In in Hin. tauto.
  - apply Forall_forall. intros r Hin.
    apply VectorFacts.vector_recommendations_In in Hin.
    destruct Hin as (_ & e & Hp & _). exact Hp.
  - destruct (FAISSFacts.findRecommendationsByQuery_cases service now query k)
      as [(index & recommendations & _ & _ & Es & E)|E].
    + exists recommendations. split; [exact E|].
      unfold FS.searchIndex in Es.
      destruct (FS.search index (FS.createQueryEmbedding now query) k) as [results|];
        [|discriminate].
      injection Es as <-. apply Forall_forall. intros r Hin.
      apply filter_In in Hin. destruct Hin as [Hin _].
      apply FAISSFacts.collect_results_In in Hin.
      destruct Hin as (s & _ & Hp & _). exact Hp.
    + exists (FS.fallbackSearch service now query k). split; [exact E|].
      rewrite FAISSFacts.fallbackSearch_empty. constructor.
Qed.

(** X14.  An answer that is not empty comes from the index: the
    index-backed ranker returns the empty list, or else it is
    initialized, holds an index whose search returned, and the answer
    is what the labels of that search give, above the threshold and in
    the order of the labels. *)
Theorem answers_come_from_the_index (service : FS.t) (now : Z) (query : string) (k : Z) :
  exists recommendations,
    FS.findRecommendationsByQuery service now query k = Js.Returns recommendations
    /\ (recommendations = []
        \/ FS.isInitialized service = true
           /\ exists index results,
                FS.faissIndex service = Some index
                /\ FS.search index (FS.createQueryEmbedding now query) k
                   = Js.Returns results
                /\ recommendations
                   = List.filter (fun r => score r >? 30)
                       (FS.collect_results service query
                          (FS.labels results) (FS.distances results))).
Proof.
  destruct (FAISSFacts.findRecommendationsByQuery_cases service now query k)
    as [(index & recommendations & Ei & Ex & Es & E)|E].
  - exists recommendations. split; [exact E|]. right. split; [exact Ei|].
    unfold FS.searchIndex in Es.
    destruct (FS.search index (FS.createQueryEmbedding now query) k) as [results|] eqn:Er;
      [|discriminate].
    exists index, results. injection Es as <-. auto.
  - exists (FS.fallbackSearch service now query k). split; [exact E|].
    left. apply FAISSFacts.fallbackSearch_empty.
Qed.
End Reasons.

(** *** The caches *)

Section Cache.
Context {V : Type} (f : TicketPackage -> V).

(** The cache after the loop [for (pkg of packages) cache.set(pkg.id, f(pkg))]:
    under a key stands the value of the last package that carries it. *)
Lemma cache_lookup (packages : list TicketPackage) (m : gmap string V) (key : string) :
  fold_left (fun m pkg => <[id pkg := f pkg]> m) packages m !! key
  = match List.find (fun pkg => String.eqb (id pkg) key) (rev packages) with
    | Some pkg => Some (f pkg)
    | None => m !! key
    end.
Proof.
  induction packages as [|pkg packages IH] using rev_ind; [reflexivity|].
  rewrite fold_left_app, rev_app_distr. simpl.
  destruct (String.eqb_spec (id pkg) key) as [->|Ne].
  - apply lookup_insert_eq.
  - rewrite lookup_insert_ne by exact Ne. exact IH.
Qed.

End Cache.

Section LastOne.
Context {A : Type} (f : A -> bool).

(** What [find] meets first in the reversed list is the last of its
    kind in the list. *)
Lemma find_rev_last (l : list A) (x : A) :
  List.find f (rev l) = Some x ->
  exists before after,
    l = before ++ x :: after /\ f x = true
    /\ Forall (fun y => f y = false) after.
Proof.
  induction l as [|y l IH] using rev_ind; [discriminate|].
  rewrite rev_app_distr. cbn [rev app List.find].
  destruct (f y) eqn:Ey.
  - intros [= <-]. exists l, []. split; [reflexivity|]. split; [exact Ey|constructor].
  - intros E. destruct (IH E) as (before & after & -> & Ex & Hall).
    exists before, (after ++ [y]). split; [rewrite <- app_assoc; reflexivity|].
    split; [exact Ex|]. apply Forall_app. split; [exact Hall|].
    constructor; [exact Ey|constructor].
Qed.
End LastOne.

Lemma same_id_same_package (packages : list TicketPackage) (a b : TicketPackage) :
  NoDup (map id packages) -> In a packages -> In b packages -> id a = id b -> a = b.
Proof.
  induction packages as [|p packages IH]; [contradiction|].
  simpl. intros Hn Ha Hb E. apply NoDup_cons_iff in Hn as [Hp Hn].
  destruct Ha as [->|Ha], Hb as [->|Hb].
  - reflexivity.
  - exfalso. apply Hp. rewrite E. apply in_map, Hb.
  - exfalso. apply Hp. rewrite <- E. apply in_map, Ha.
  - apply IH; assumption.
Qed.

Section Caches.
Context `{Host}.

(** X15.  When the loops that fill the caches have run to their end,
    every package of the catalog has a vector in the cache of the
    linear vector ranker and in that of the index-backed ranker: the
    vector of the last package of the catalog that carries its id, the
    one after which no package has that id.  With ids that are unique
    this is its own vector. *)
Theorem caches_hold_every_package (NaN : R) (now : Z) (packages : list TicketPackage)
    (pkg : TicketPackage) :
  In pkg packages ->
  (exists before last after,
     packages = before ++ last :: after
     /\ id last = id pkg
     /\ Forall (fun later => id later <> id pkg) after
     /\ VE.embeddings_after packages !! id pkg = Some (VE.createPackageEmbedding last)
     /\ FS.generatePackageEmbeddings NaN now packages !! id pkg
        = Some (FS.createPackageEmbedding NaN now last))
  /\ (NoDup (map id packages) ->
      VE.embeddings_after packages !! id pkg = Some (VE.createPackageEmbedding pkg)
      /\ FS.generatePackageEmbeddings NaN now packages !! id pkg
         = Some (FS.createPackageEmbedding NaN now pkg)).
Proof.
  intros Hin.
  assert (exists before last after,
     packages = before ++ last :: after
     /\ id last = id pkg
     /\ Forall (fun later => id later <> id pkg) after
     /\ VE.embeddings_after packages !! id pkg = Some (VE.createPackageEmbedding last)
     /\ FS.generatePackageEmbeddings NaN now packages !! id pkg
        = Some (FS.createPackageEmbedding NaN now last))
    as (before & last & after & Ep & Hi & Hlater & E1 & E2).
  { unfold VE.embeddings_after, FS.generatePackageEmbeddings.
    rewrite !cache_lookup.
    destruct (List.find _ (rev packages)) as [last|] eqn:E.
    - apply find_rev_last in E as (before & after & Ep & Hi & Hlater).
      apply String.eqb_eq in Hi. exists before, last, after.
      split; [exact Ep|]. split; [exact Hi|]. split; [|split; reflexivity].
      eapply Forall_impl; [|exact Hlater].
      intros later F. cbv beta in F. apply String.eqb_neq. exact F.
    - apply in_rev in Hin. pose proof (find_none _ _ E pkg Hin) as F.
      simpl in F. rewrite String.eqb_refl in F. discriminate. }
  split; [exists before, last, after; auto|].
  intros Hn. assert (last = pkg) as <-.
  { apply (same_id_same_package packages); [exact Hn| |exact Hin|exact Hi].
    rewrite Ep. apply in_or_app. right. left. reflexivity. }
  auto.
Qed.

(** X16.  In the linear vector ranker the city block of a package and
    that of a query agree for every text: a location encodes as the
    query that consists of that location does.  The sport blocks agree
    on the four sports of the table. *)
Theorem vector_blocks_agree (location : string) :
  VE.encodeLocation location = VE.extractLocationFromQuery (Js.toLowerCase location)
  /\ Forall (fun sport =>
               VE.encodeSport sport = VE.extractSportFromQuery (Js.toLowerCase sport))
            ["Basketball"; "Baseball"; "Football"; "Hockey"].
Proof.
  split; [reflexivity|].
  repeat constructor; eval_vectors; reflexivity.
Qed.
End Caches.

(** ** The index-backed ranker: its vectors and its state *)

Module IndexInvariants.
Import FAISSSearchService.
Section Facts.
Context `{Host} `{Faiss}.
Local Open Scope R_scope.

Ltac by_cases :=
  repeat match goal with
         | |- context [if ?c then _ else _] => destruct c
         end;
  reflexivity.

Lemma first_included_length table text fallback n :
  Forall (fun entry : string * list R => length (snd entry) = n) table ->
  length fallback = n ->
  length (first_included table text fallback) = n.
Proof.
  intros Ht Hf. unfold first_included.
  destruct (List.find _ table) as [[key value]|] eqn:E; [|exact Hf].
  apply find_some in E as [Hin _]. rewrite Forall_forall in Ht.
  exact (Ht _ Hin).
Qed.

Lemma index_encodeLocationWithProximity_length location :
  length (encodeLocationWithProximity location) = 10%nat.
Proof. apply first_included_length; [repeat constructor|reflexivity]. Qed.

Lemma index_encodeSportWithTeams_length sport :
  length (encodeSportWithTeams sport) = 7%nat.
Proof. apply first_included_length; [repeat constructor|reflexivity]. Qed.

Lemma index_extractLocationFromQuery_length query :
  length (extractLocationFromQuery query) = 10%nat.
Proof. apply first_included_length; [repeat constructor|reflexivity]. Qed.

Lemma index_extractSportFromQuery_length query :
  length (extractSportFromQuery query) = 7%nat.
Proof.
  unfold extractSportFromQuery.
  destruct (List.find _ _) as [[name features]|] eqn:E.
  - apply find_some in E as [Hin _]. simpl in Hin.
    repeat (destruct Hin as [[= <- <-]|Hin]; [reflexivity|]). contradiction.
  - clear E. destruct (List.find _ _) as [[team sport]|]; [|reflexivity].
    destruct (List.find _ _) as [[name features]|] eqn:E; [|reflexivity].
    apply find_some in E as [Hin _]. simpl in Hin.
    repeat (destruct Hin as [[= <- <-]|Hin]; [reflexivity|]). contradiction.
Qed.

Lemma index_encodeDateFeatures_length NaN now date :
  length (encodeDateFeatures NaN now date) = 5%nat.
Proof. unfold encodeDateFeatures. destruct (Date_getTime date); reflexivity. Qed.

Lemma index_extractPricePreferences_length query :
  length (extractPricePreferences query) = 6%nat.
Proof. unfold extractPricePreferences. by_cases. Qed.

Lemma index_extractHospitalityPreferences_length query :
  length (extractHospitalityPreferences query) = 5%nat.
Proof. unfold extractHospitalityPreferences. by_cases. Qed.

Lemma index_extractGroupPreferences_length query :
  length (extractGroupPreferences query) = 4%nat.
Proof.
  unfold extractGroupPreferences.
  destruct (Js.match_number_then_word _ query); reflexivity.
Qed.

(** The features that [createPackageEmbedding] and [createQueryEmbedding]
    compute before they pad. *)
Lemma package_features_length NaN now pkg :
  length (encodeLocationWithProximity (location pkg)
          ++ encodeSportWithTeams (sportType pkg)
          ++ encodePriceFeatures (price pkg)
          ++ encodeHospitalityFeatures (hospitalityLevel pkg) (hospitalityType pkg)
          ++ encodeVenueFeatures (venue pkg)
          ++ encodeDateFeatures NaN now (date pkg)
          ++ encodeAvailabilityFeatures (availableTickets pkg)
          ++ encodeTextFeatures (description pkg)
          ++ encodeSeatingFeatures (seatingCategory pkg)) = 53%nat.
Proof.
  rewrite !length_app, index_encodeLocationWithProximity_length, index_encodeSportWithTeams_length,
    index_encodeDateFeatures_length.
  reflexivity.
Qed.

Lemma query_features_length now query :
  length (extractLocationFromQuery query
          ++ extractSportFromQuery query
          ++ extractPricePreferences query
          ++ extractHospitalityPreferences query
          ++ extractVenuePreferences query
          ++ extractDatePreferences now query
          ++ extractGroupPreferences query
          ++ extractIntentFeatures query
          ++ extractSeatingPreferences query) = 53%nat.
Proof.
  rewrite !length_app, index_extractLocationFromQuery_length, index_extractSportFromQuery_length,
    index_extractPricePreferences_length, index_extractHospitalityPreferences_length,
    index_extractGroupPreferences_length.
  reflexivity.
Qed.

Lemma pad_short features :
  (length features <= embeddingDimension)%nat ->
  pad_to_dimension features
  = features ++ replicate (embeddingDimension - length features) 0.
Proof.
  intros L. unfold pad_to_dimension. apply take_ge.
  rewrite length_app, length_replicate. lia.
Qed.

(** X17.  Every vector of the index-backed ranker has exactly 384
    entries, the dimension the index is created with: the package
    vector, the query vector and the fallback vector, for every package,
    query, clock and sequence of random numbers. *)
Theorem embeddings_fill_the_dimension (NaN : R) (now : Z) (pkg : TicketPackage)
    (query : string) (random : nat -> R) :
  length (createPackageEmbedding NaN now pkg) = embeddingDimension
  /\ length (createQueryEmbedding now query) = embeddingDimension
  /\ length (createFallbackEmbedding random pkg) = embeddingDimension
  /\ embeddingDimension = 384%nat.
Proof.
  split; [apply FlatIPFacts.pad_to_dimension_length|].
  split; [apply FlatIPFacts.pad_to_dimension_length|].
  split; [|reflexivity].
  unfold createFallbackEmbedding.
  rewrite length_take, length_app, length_map, length_seq. lia.
Qed.

(** X18.  The package vector and the query vector carry their features
    in the first 53 entries and zeros in the other 331: nothing is cut
    off by [slice(0, 384)], and the padding adds nothing to an inner
    product. *)
Theorem features_then_zeros (NaN : R) (now : Z) (pkg : TicketPackage) (query : string) :
  drop 53 (createPackageEmbedding NaN now pkg) = replicate 331 0
  /\ drop 53 (createQueryEmbedding now query) = replicate 331 0.
Proof.
  split.
  - unfold createPackageEmbedding.
    pose proof (package_features_length NaN now pkg) as L.
    rewrite pad_short by (rewrite L; unfold embeddingDimension; lia).
    rewrite drop_app_length' by (symmetry; exact L). rewrite L. reflexivity.
  - unfold createQueryEmbedding.
    pose proof (query_features_length now (Js.toLowerCase query)) as L.
    rewrite pad_short by (rewrite L; unfold embeddingDimension; lia).
    rewrite drop_app_length' by (symmetry; exact L). rewrite L. reflexivity.
Qed.

Lemma Qgeb_Qltb x y : Qgeb x y = negb (Qltb x y).
Proof. unfold Qgeb, Qltb. rewrite negb_involutive. reflexivity. Qed.

(** X19.  The four price-tier flags of a package vector form a
    partition: for every price exactly one of "under 100", "100 to
    500", "500 to 1000" and "1000 and more" is set. *)
Theorem price_tiers_partition (price : Q) :
  exists tier : nat,
    (tier < 4)%nat
    /\ take 4 (drop 1 (encodePriceFeatures price)) = <[tier := 1]> (replicate 4 0).
Proof.
  unfold encodePriceFeatures. rewrite !Qgeb_Qltb.
  destruct (Qltb price 100) eqn:E1.
  - exists 0%nat. split; [lia|].
    assert (Qltb price 500 = true) as E2.
    { apply RecommendationEngineFacts.Qltb_true.
      apply RecommendationEngineFacts.Qltb_true in E1. Lqa.lra. }
    assert (Qltb price 1000 = true) as E3.
    { apply RecommendationEngineFacts.Qltb_true.
      apply RecommendationEngineFacts.Qltb_true in E1. Lqa.lra. }
    rewrite E2, E3. reflexivity.
  - destruct (Qltb price 500) eqn:E2.
    + exists 1%nat. split; [lia|].
      assert (Qltb price 1000 = true) as E3.
      { apply RecommendationEngineFacts.Qltb_true.
        apply RecommendationEngineFacts.Qltb_true in E2. Lqa.lra. }
      rewrite E3. reflexivity.
    + destruct (Qltb price 1000) eqn:E3.
      * exists 2%nat. split; [lia|reflexivity].
      * exists 3%nat. split; [lia|reflexivity].
Qed.

(** X20.  Away from the three short aliases the city blocks of a
    package and of a query agree: a location whose lower-case text
    contains none of "nyc", "la" and "sf" encodes as the query that
    consists of that location does. *)
Theorem city_blocks_agree_without_aliases (location : string) :
  Js.includes (Js.toLowerCase location) "nyc" = false ->
  Js.includes (Js.toLowerCase location) "la" = false ->
  Js.includes (Js.toLowerCase location) "sf" = false ->
  encodeLocationWithProximity location
  = extractLocationFromQuery (Js.toLowerCase location).
Proof.
  intros E1 E2 E3.
  unfold encodeLocationWithProximity, extractLocationFromQuery, first_included.
  cbn [List.find]. rewrite E1, E2, E3. reflexivity.
Qed.

(** X21.  The sport blocks of a package and of a query agree whenever
    the sport names one of the four sports of the table, and whenever it
    names none of the ten teams: only a sport field that names a team
    and no sport encodes differently from the query it makes. *)
Theorem sport_blocks_agree (sport : string) :
  existsb (Js.includes (Js.toLowerCase sport))
    ["basketball"; "baseball"; "football"; "hockey"] = true
  \/ existsb (Js.includes (Js.toLowerCase sport))
       ["knicks"; "lakers"; "celtics"; "bulls"; "yankees"; "red sox"; "dodgers";
        "cowboys"; "patriots"; "packers"] = false ->
  encodeSportWithTeams sport = extractSportFromQuery (Js.toLowerCase sport).
Proof.
  unfold encodeSportWithTeams, extractSportFromQuery, first_included.
  cbn [List.find existsb].
  set (l := Js.toLowerCase sport).
  destruct (Js.includes l "basketball"); [reflexivity|].
  destruct (Js.includes l "baseball"); [reflexivity|].
  destruct (Js.includes l "football"); [reflexivity|].
  destruct (Js.includes l "hockey"); [reflexivity|].
  intros [E|E]; [discriminate|].
  cbn [orb] in E.
  repeat match type of E with
         | (?b || _)%bool = false =>
             let Eb := fresh in
             apply orb_false_iff in E as [Eb E]; rewrite Eb
         end.
  reflexivity.
Qed.

Lemma index_vectors_length NaN now (packages all : list TicketPackage) :
  (forall pkg, In pkg packages -> In pkg all) ->
  length (concat (flat_map
            (fun pkg => match generatePackageEmbeddings NaN now all !! id pkg with
                        | Some embedding => [embedding]
                        | None => []
                        end) packages))
  = (embeddingDimension * length packages)%nat.
Proof.
  intros Hsub. induction packages as [|pkg packages IH]; [simpl; lia|].
  simpl flat_map.
  assert (In pkg all) as Hin by (apply Hsub; left; reflexivity).
  unfold generatePackageEmbeddings at 1. rewrite cache_lookup.
  destruct (List.find _ (rev all)) as [last|] eqn:E.
  - assert (length (createPackageEmbedding NaN now last) = embeddingDimension) as Le
      by apply FlatIPFacts.pad_to_dimension_length.
    cbn [app concat length].
    rewrite length_app, IH, Le by (intros q Hq; apply Hsub; right; exact Hq). lia.
  - apply in_rev in Hin. pose proof (find_none _ _ E pkg Hin) as F.
    simpl in F. rewrite String.eqb_refl in F. discriminate.
Qed.

(** X22.  What [buildIndex] hands to the index: for an empty catalog it
    throws before it reaches the index; otherwise it adds one array of
    384 numbers for each package of the catalog, duplicates of an id
    included. *)
Theorem buildIndex_adds_every_package (NaN : R) (now : Z) (index : Index)
    (packages : list TicketPackage) :
  exists vectors,
    length vectors = (embeddingDimension * length packages)%nat
    /\ buildIndex index packages (generatePackageEmbeddings NaN now packages)
       = match packages with
         | [] => Js.Throws
         | _ :: _ => add index vectors
         end.
Proof.
  pose proof (index_vectors_length NaN now packages packages (fun _ Hin => Hin)) as L.
  unfold buildIndex.
  set (embeddings := flat_map _ packages) in *.
  exists (concat embeddings). split; [exact L|].
  destruct packages as [|pkg packages]; [reflexivity|].
  cbv zeta. destruct embeddings as [|e rest]; [|reflexivity].
  simpl in L. unfold embeddingDimension in L. lia.
Qed.

(** X23.  The statistics of a service after its initialization has
    settled: the package count is the length of the catalog and the
    dimension is 384; a service that reports itself initialized has a
    catalog that is not empty and reports the index type of the library;
    without the library the fallback is reported; and with an empty
    catalog the index type of the library is reported by a service that
    is not initialized. *)
Theorem stats_after_initialization (NaN : R) (import_ok : bool) (now : Z)
    (packages : list TicketPackage) :
  let stats := getPerformanceStats (initializeIndex NaN import_ok now packages) in
  packageCount stats = length packages
  /\ stats_embeddingDimension stats = 384%nat
  /\ (stats_isInitialized stats = true ->
      packages <> [] /\ indexType stats = "FAISS IndexFlatIP")
  /\ (import_ok = false ->
      stats_isInitialized stats = false
      /\ indexType stats = "Fallback Cosine Similarity")
  /\ (forall index,
        import_ok = true ->
        IndexFlatIP (Z.of_nat embeddingDimension) = Js.Returns index ->
        packages = [] ->
        stats_isInitialized stats = false /\ indexType stats = "FAISS IndexFlatIP").
Proof.
  intros stats. unfold stats, getPerformanceStats, initializeIndex.
  destruct import_ok; simpl negb; cbv iota.
  - destruct (IndexFlatIP (Z.of_nat embeddingDimension)) as [index|] eqn:Ei.
    + destruct (buildIndex index packages _) as [index'|] eqn:Eb; simpl.
      * split; [reflexivity|]. split; [reflexivity|]. split; [|split].
        -- intros _. split; [|reflexivity].
           intros ->. unfold buildIndex in Eb. simpl in Eb. discriminate.
        -- discriminate.
        -- intros i _ _ ->. unfold buildIndex in Eb. simpl in Eb. discriminate.
      * split; [reflexivity|]. split; [reflexivity|]. split; [|split].
        -- discriminate.
        -- discriminate.
        -- intros i _ _ _. split; reflexivity.
    + simpl. split; [reflexivity|]. split; [reflexivity|]. split; [|split].
      * discriminate.
      * discriminate.
      * intros i _. discriminate.
  - simpl. split; [reflexivity|]. split; [reflexivity|]. split; [|split].
    + discriminate.
    + intros _. split; reflexivity.
    + intros i. discriminate.
Qed.

End Facts.
End IndexInvariants.

(** ** The chat service *)

Lemma startsWith_prefix s t :
  Js.startsWith s t = true <-> exists post, s = t +:+ post.
Proof.
  revert s. induction t as [|c t IH]; intros s.
  - split; [intros _; exists s; reflexivity|intros _; apply startsWith_empty].
  - destruct s as [|x s].
    + split; [discriminate|intros [post E]; discriminate].
    + rewrite startsWith_cons. destruct (Ascii.eqb_spec c x) as [->|Ne].
      * rewrite IH. split.
        -- intros [post ->]. exists post. reflexivity.
        -- intros [post E]. exists post.
           change (String x t +:+ post) with (String x (t +:+ post)) in E. congruence.
      * split; [discriminate|]. intros [post E].
        change (String c t +:+ post) with (String c (t +:+ post)) in E. congruence.
Qed.

(** [s.includes(t)] says that [t] occurs in [s]. *)
Lemma includes_occurs s t :
  Js.includes s t = true <-> exists pre post, s = pre +:+ t +:+ post.
Proof.
  induction s as [|x s IH].
  - change (Js.includes "" t) with (Js.startsWith "" t || false).
    rewrite orb_false_r, startsWith_prefix. split.
    + intros [post E]. exists "", post. exact E.
    + intros (pre & post & E). destruct pre; [exists post; exact E|discriminate].
  - rewrite includes_cons, orb_true_iff, startsWith_prefix, IH. split.
    + intros [[post E]|(pre & post & E)].
      * exists "", post. exact E.
      * exists (String x pre), post. rewrite E. reflexivity.
    + intros (pre & post & E). destruct pre as [|y pre].
      * left. exists post. exact E.
      * right. exists pre, post.
        change (String y pre +:+ t +:+ post) with (String y (pre +:+ t +:+ post)) in E.
        congruence.
Qed.

Lemma string_app_assoc (a b c : string) : (a +:+ b) +:+ c = a +:+ b +:+ c.
Proof.
  induction a as [|x a IH]; [reflexivity|].
  change ((String x a +:+ b) +:+ c) with (String x ((a +:+ b) +:+ c)).
  rewrite IH. reflexivity.
Qed.

Lemma includes_trans s t u :
  Js.includes s t = true -> Js.includes t u = true -> Js.includes s u = true.
Proof.
  rewrite !includes_occurs. intros (p1 & q1 & ->) (p2 & q2 & ->).
  exists (p1 +:+ p2), (q2 +:+ q1). rewrite !string_app_assoc. reflexivity.
Qed.

Lemma string_app_empty (s : string) : s +:+ "" = s.
Proof.
  induction s as [|x s IH]; [reflexivity|].
  change (String x s +:+ "") with (String x (s +:+ "")). rewrite IH. reflexivity.
Qed.

Lemma includes_refl s : Js.includes s s = true.
Proof.
  apply includes_occurs. exists "", "".
  change ("" +:+ s +:+ "") with (s +:+ ""). symmetry. apply string_app_empty.
Qed.

Lemma parseInt_aux_bound ds acc :
  0 <= acc ->
  Forall (fun c => Js.is_digit c = true) (list_ascii_of_string ds) ->
  Js.parseInt_aux acc ds < (acc + 1) * 10 ^ Z.of_nat (String.length ds).
Proof.
  revert acc. induction ds as [|c ds IH]; intros acc Hacc Hd.
  - simpl. lia.
  - inversion Hd as [|? ? Hc Hds]; subst.
    unfold Js.is_digit in Hc. apply andb_true_iff in Hc as [Lo Hi].
    apply Nat.leb_le in Lo, Hi.
    cbn [Js.parseInt_aux String.length].
    specialize (IH (10 * acc + (Z.of_nat (nat_of_ascii c) - 48)) ltac:(lia) Hds).
    rewrite Nat2Z.inj_succ, Z.pow_succ_r by lia.
    assert (0 < 10 ^ Z.of_nat (String.length ds)) by (apply Z.pow_pos_nonneg; lia).
    nia.
Qed.

Lemma parseInt_short ds :
  Forall (fun c => Js.is_digit c = true) (list_ascii_of_string ds) ->
  (String.length ds <= 15)%nat ->
  0 <= Js.parseInt ds < 2 ^ 53.
Proof.
  intros Hd Hl. split; [apply parseInt_aux_nonneg; [lia|exact Hd]|].
  pose proof (parseInt_aux_bound ds 0 ltac:(lia) Hd) as B. unfold Js.parseInt.
  assert (10 ^ Z.of_nat (String.length ds) <= 10 ^ 15)
    by (apply Z.pow_le_mono_r; lia).
  assert (10 ^ 15 < 2 ^ 53) by (vm_compute; reflexivity).
  lia.
Qed.

Module ChatFacts.
Import NovaMicroService.
Section Facts.
Context `{Host}.

(** X24.  The greeting shadows the search: a query whose lower-case
    text contains a word that contains "hi" is answered with the
    greeting, without suggestions and without preferences, whatever
    else it asks for.  "chicago", "this" and "something" are such
    words. *)
Theorem greeting_shadows_the_search (done' : list TicketPackage) (query : string)
    (packages : list TicketPackage) (word : string) :
  Js.includes (Js.toLowerCase query) word = true ->
  Js.includes word "hi" = true ->
  processQueryWithVectorSearch done' query packages
  = {| response := greeting; updatedPreferences := None; suggestedPackages := None |}.
Proof.
  intros Hw Hh. unfold processQueryWithVectorSearch.
  rewrite (includes_trans _ _ _ Hw Hh), orb_true_r. reflexivity.
Qed.

(** X25.  The suggestions of a reply are at most five packages, each
    taken from the catalog, whatever the query and however far the cache
    of the ranker has been filled. *)
Theorem suggestions_are_few_and_from_the_catalog (done' : list TicketPackage)
    (query : string) (packages : list TicketPackage) :
  match suggestedPackages (processQueryWithVectorSearch done' query packages) with
  | Some suggestions =>
      (length suggestions <= 5)%nat /\ Forall (fun pkg => In pkg packages) suggestions
  | None => True
  end.
Proof.
  unfold processQueryWithVectorSearch.
  destruct (_ || _); [exact I|].
  destruct (Js.includes _ "help"); [exact I|].
  destruct (Js.includes _ "thank"); [exact I|].
  destruct (_ || _); [|exact I].
  set (engine := {| VE.packages := packages; VE.packageEmbeddings := _ |}).
  pose proof (VectorFacts.vector_recommendations_length engine query) as L.
  assert (forall r, In r (VE.findRecommendationsByQuery engine query) ->
                    In (package r) packages) as M.
  { intros r Hin. apply VectorFacts.vector_recommendations_In in Hin.
    destruct Hin as (_ & e & Hp & _). exact Hp. }
  destruct (VE.findRecommendationsByQuery engine query) as [|r l] eqn:E.
  - cbn [suggestedPackages]. split.
    + pose proof (slice0_length 5 packages ltac:(lia)). lia.
    + apply Forall_forall. intros pkg. apply slice0_In.
  - cbn [suggestedPackages]. split.
    + rewrite length_map. exact L.
    + apply Forall_forall. intros pkg Hin.
      apply in_map_iff in Hin as (r' & <- & Hr). apply M, Hr.
Qed.

(** X26.  With a catalog that is not empty a reply is one of two kinds:
    one of the four fixed texts, without suggestions and without
    preferences, or a reply with a list of suggestions that is not
    empty.  A request for tickets that the ranker cannot serve is
    answered with the first packages of the catalog. *)
Theorem replies_are_texts_or_suggestions (done' : list TicketPackage) (query : string)
    (packages : list TicketPackage) :
  packages <> [] ->
  let reply := processQueryWithVectorSearch done' query packages in
  (suggestedPackages reply = None /\ updatedPreferences reply = None
   /\ In (response reply)
         [ greeting; help; thanks;
           "I'm here to help you find event tickets! Try asking me something like 'Show me basketball tickets in New York' or 'Find VIP packages for 4 people'." ])
  \/ (exists suggestions,
        suggestedPackages reply = Some suggestions /\ suggestions <> []).
Proof.
  intros Ne reply. unfold reply, processQueryWithVectorSearch.
  destruct (_ || _); [left; cbn; auto 10|].
  destruct (Js.includes _ "help"); [left; cbn; auto 10|].
  destruct (Js.includes _ "thank"); [left; cbn; auto 10|].
  destruct (_ || _); [|left; cbn; auto 10].
  right.
  destruct (VE.findRecommendationsByQuery _ query) as [|r l].
  - exists (Js.slice0 5 packages). split; [reflexivity|].
    destruct packages; [contradiction|discriminate].
  - eexists. split; [reflexivity|discriminate].
Qed.

(** X27.  What [extractBasicPreferences] sets comes from the query: a
    location is one of the eight cities in capitals and its lower-case
    form occurs in the lower-cased query; a sport occurs there as it
    stands; a people count is there exactly for a run of digits that
    the pattern finds in the lower-cased query, and for a run of up to
    15 digits it is the whole number the run denotes, below 2^53 (a
    longer run exceeds what a double holds exactly, and nothing is said
    of it); the hospitality type is "VIP" or "Club"; the date and the
    budget are never set. *)
Theorem extracted_preferences_come_from_the_query (query : string) :
  let preferences := extractBasicPreferences query in
  let lowerQuery := Js.toLowerCase query in
  (forall location, pref_location preferences = Some location ->
     In location ["New York"; "Los Angeles"; "Boston"; "Chicago"; "Dallas";
                  "San Francisco"; "Denver"; "Green Bay"]
     /\ Js.includes lowerQuery (Js.toLowerCase location) = true)
  /\ (forall sport, pref_sport preferences = Some sport ->
        Js.includes lowerQuery sport = true)
  /\ (forall peopleCount, pref_peopleCount preferences = Some peopleCount ->
        exists digits,
          Js.match_number_then_word ["people"; "person"; "group"; "friends"] lowerQuery
          = Some digits
          /\ ((String.length digits <= 15)%nat ->
              peopleCount = inject_Z (Js.parseInt digits)
              /\ 0 <= Js.parseInt digits < 2 ^ 53))
  /\ (forall hospitalityType, pref_hospitalityType preferences = Some hospitalityType ->
        hospitalityType = "VIP" \/ hospitalityType = "Club")
  /\ pref_date preferences = None
  /\ pref_budget preferences = None.
Proof.
  intros preferences lowerQuery. unfold preferences, extractBasicPreferences.
  fold lowerQuery. cbn [pref_location pref_sport pref_peopleCount pref_hospitalityType
                        pref_date pref_budget].
  split; [|split; [|split; [|split; [|split; reflexivity]]]].
  - intros location E.
    destruct (List.find _ _) as [city|] eqn:F; [|discriminate].
    apply find_some in F as [Hin Hc]. injection E as <-.
    simpl in Hin.
    repeat (destruct Hin as [<-|Hin]; [split; [simpl; tauto|exact Hc]|]).
    contradiction.
  - intros sport E. apply find_some in E. tauto.
  - intros peopleCount E.
    destruct (Js.match_number_then_word _ lowerQuery) as [ds|] eqn:M; [|discriminate].
    injection E as <-. exists ds. split; [reflexivity|].
    intros Hl. split; [reflexivity|].
    apply parseInt_short; [|exact Hl].
    eapply match_number_then_word_digits. exact M.
  - intros h E. destruct (_ || _); [left; congruence|].
    destruct (Js.includes lowerQuery "club"); [right; congruence|discriminate].
Qed.

End Facts.
End ChatFacts.

(** ** The benchmark *)

Module TesterFacts.
Import SearchPerformanceTester.

Lemma wait_loop_ends (fuel : nat) (poll : nat -> bool) (pass : nat) :
  (fuel + pass = 50)%nat ->
  (forall earlier, (earlier < pass)%nat -> poll earlier = false) ->
  exists outcome,
    wait_loop fuel poll pass (100 * Z.of_nat pass) = Some outcome
    /\ match outcome with
       | Ready waited =>
           exists pass', (pass' < 50)%nat /\ waited = 100 * Z.of_nat pass'
             /\ poll pass' = true
             /\ forall earlier, (earlier < pass')%nat -> poll earlier = false
       | GaveUp waited =>
           waited = 5000 /\ forall earlier, (earlier < 50)%nat -> poll earlier = false
       end.
Proof.
  revert pass. induction fuel as [|fuel IH]; intros pass E Hearlier.
  - simpl in E. subst pass. exists (GaveUp 5000). split; [reflexivity|].
    split; [reflexivity|exact Hearlier].
  - cbn [wait_loop]. unfold maxWait, checkInterval.
    destruct (Z.ltb_spec (100 * Z.of_nat pass) 5000) as [_|Ge]; [|lia].
    destruct (poll pass) eqn:P.
    + exists (Ready (100 * Z.of_nat pass)). split; [reflexivity|].
      exists pass. repeat split; [lia|exact P|exact Hearlier].
    + replace (100 * Z.of_nat pass + 100) with (100 * Z.of_nat (S pass)) by lia.
      apply IH; [lia|].
      intros earlier Lt. destruct (Nat.eq_dec earlier pass) as [->|Ne]; [exact P|].
      apply Hearlier. lia.
Qed.

(** X28.  [waitForInitialization] ends within 50 passes: it returns at
    the first pass at which the service says it is initialized, having
    waited 100 ms for each earlier pass, and gives up after 5000 ms when
    the first 50 passes all say no. *)
Theorem waitForInitialization_ends (poll : nat -> bool) :
  exists outcome,
    waitForInitialization 50 poll = Some outcome
    /\ match outcome with
       | Ready waited =>
           exists pass, (pass < 50)%nat /\ waited = 100 * Z.of_nat pass
             /\ poll pass = true
             /\ forall earlier, (earlier < pass)%nat -> poll earlier = false
       | GaveUp waited =>
           waited = 5000 /\ forall earlier, (earlier < 50)%nat -> poll earlier = false
       end.
Proof.
  unfold waitForInitialization.
  apply (wait_loop_ends 50 poll 0); [reflexivity|]. intros earlier Lt. lia.
Qed.

End TesterFacts.

(** ** The reasons of the vector rankers *)

Lemma last_letter_app a c b :
  last_letter (a +:+ String c b) = last_letter (String c b).
Proof.
  induction a as [|x a IH]; [reflexivity|].
  change (String x a +:+ String c b) with (String x (a +:+ String c b)).
  cbn [last_letter]. rewrite IH.
  destruct a; reflexivity.
Qed.

Ltac other_reason H :=
  first [ apply (f_equal RecommendationEngineTerms.first_letter) in H; discriminate H
        | apply (f_equal last_letter) in H; rewrite last_letter_app in H; discriminate H ].

Ltac split_conditions :=
  repeat match goal with
         | |- context [if ?c then _ else _] =>
             lazymatch type of c with
             | bool => destruct c
             | sumbool _ _ => destruct c
             end
         end.

Ltac reason_cases :=
  cbn [app In]; split;
  [ let Hin := fresh "Hin" in
    intros Hin;
    repeat (destruct Hin as [Hin|Hin]; [try other_reason Hin|]);
    try contradiction; try assumption; try lra
  | intros; try lra; repeat (first [left; reflexivity | right]) ].

Section MatchReasons.
Context `{Host}.
Local Open Scope R_scope.

(** X29.  The reasons tell how close the match is.  In both vector
    rankers "Excellent match for your preferences" is among the reasons
    exactly when the similarity is above 0.8; in the index-backed ranker
    "Good match for your requirements" is there exactly when the
    similarity is above 0.6 and not above 0.8. *)
Theorem match_reasons_follow_the_similarity (query : string) (pkg : TicketPackage)
    (similarity : R) :
  (In "Excellent match for your preferences" (VE.generateReasons query pkg similarity)
   <-> 0.8 < similarity)
  /\ (In "Excellent match for your preferences" (FS.generateReasons query pkg similarity)
      <-> 0.8 < similarity)
  /\ (In "Good match for your requirements" (FS.generateReasons query pkg similarity)
      <-> 0.6 < similarity <= 0.8).
Proof.
  split; [|split].
  - unfold VE.generateReasons. split_conditions; reason_cases.
  - unfold FS.generateReasons. split_conditions; reason_cases.
  - unfold FS.generateReasons. split_conditions; reason_cases.
Qed.
End MatchReasons.

(** ** The further properties at work *)

Section FurtherExamples.
Existing Instance UtcHost.host.
Existing Instance FlatIP.faiss.

Lemma attribute_top_five_witness :
  In (attribute_item keen_preferences package1)
     (RE.findRecommendations [package1; package2] keen_preferences)
  \/ (length (RE.findRecommendations [package1; package2] keen_preferences) = 5%nat
      /\ forall r, In r (RE.findRecommendations [package1; package2] keen_preferences) ->
                   RE.calculateScore package1 keen_preferences <= score r).
Proof.
  apply (attribute_top_five [package1; package2] keen_preferences package1).
  - left. reflexivity.
  - reflexivity.
Defined.

Lemma vector_top_five_witness :
  let similarity :=
    cosineSimilarity (VE.createQueryEmbedding vip_query)
                     (VE.createPackageEmbedding package1) in
  (exists r, In r (VE.findRecommendationsByQuery (VE.initialized [package1; package2])
                     vip_query)
             /\ package r = package1 /\ score r = Js.Math_roundR (similarity * 100))
  \/ (length (VE.findRecommendationsByQuery (VE.initialized [package1; package2])
                vip_query) = 5%nat
      /\ forall r, In r (VE.findRecommendationsByQuery (VE.initialized [package1; package2])
                           vip_query) ->
                   Js.Math_roundR (similarity * 100) <= score r).
Proof.
  apply (vector_top_five (VE.initialized [package1; package2]) vip_query package1
           (VE.createPackageEmbedding package1)).
  - left. reflexivity.
  - unfold VE.initialized, VE.embeddings_after.
    cbn [VE.packageEmbeddings fold_left].
    rewrite lookup_insert_ne by discriminate. apply lookup_insert_eq.
  - pose proof similarity_package1 as [Lo _].
    apply Z.lt_le_trans with 92; [lia|].
    rewrite <- (Math_roundR_Z 92). apply Math_roundR_le. lra.
Defined.

Lemma attribute_ties_in_catalog_order_witness :
  exists rest,
    with_score 105 (map (attribute_item keen_preferences) [package1; package2])
    = with_score 105 (RE.findRecommendations [package1; package2] keen_preferences)
      ++ rest.
Proof.
  apply (attribute_ties_in_catalog_order [package1; package2] keen_preferences 105).
  lia.
Defined.

Lemma nothing_asked_nothing_recommended_witness :
  let preferences :=
    {| pref_location := Some ""; pref_peopleCount := Some 0%Q; pref_sport := None;
       pref_hospitalityType := Some ""; pref_date := None; pref_budget := None |} in
  (forall pkg, RE.calculateScore pkg preferences = 0)
  /\ RE.findRecommendations [package1; package2] preferences = [].
Proof.
  apply (AttributeEdges.nothing_asked_nothing_recommended [package1; package2]
           {| pref_location := Some ""; pref_peopleCount := Some 0%Q; pref_sport := None;
              pref_hospitalityType := Some ""; pref_date := None;
              pref_budget := None |});
    reflexivity.
Defined.

Lemma closer_date_scores_no_lower_witness :
  RE.calculateScore (with_date package1 "2024-03-25") date_only_preferences
  <= RE.calculateScore (with_date package1 "2024-03-17") date_only_preferences.
Proof.
  apply (AttributeEdges.closer_date_scores_no_lower package1 date_only_preferences
           "2024-03-15" "2024-03-17" "2024-03-25"
           (172800000 # 86400000)%Q (864000000 # 86400000)%Q).
  - reflexivity.
  - reflexivity.
  - reflexivity.
  - unfold Qle; simpl; lia.
Defined.

Lemma vector_similarity_positive_witness :
  let similarity :=
    cosineSimilarity (VE.createQueryEmbedding vip_query)
                     (VE.createPackageEmbedding package2) in
  (0 < similarity)%R /\ 0 <= Js.Math_roundR (similarity * 100) <= 100.
Proof.
  apply (VectorInvariants.vector_similarity_positive vip_query package2).
  - discriminate.
  - discriminate.
  - right. right. left. reflexivity.
Defined.

Lemma caches_hold_every_package_witness :
  (exists before last after,
     [package1; package2] = before ++ last :: after
     /\ id last = id package2
     /\ Forall (fun later => id later <> id package2) after
     /\ VE.embeddings_after [package1; package2] !! id package2
        = Some (VE.createPackageEmbedding last)
     /\ FS.generatePackageEmbeddings 0 friday [package1; package2] !! id package2
        = Some (FS.createPackageEmbedding 0 friday last))
  /\ (NoDup (map id [package1; package2]) ->
      VE.embeddings_after [package1; package2] !! id package2
      = Some (VE.createPackageEmbedding package2)
      /\ FS.generatePackageEmbeddings 0 friday [package1; package2] !! id package2
         = Some (FS.createPackageEmbedding 0 friday package2)).
Proof.
  apply (caches_hold_every_package 0%R friday [package1; package2] package2).
  right. left. reflexivity.
Defined.

Lemma city_blocks_agree_without_aliases_witness :
  FS.encodeLocationWithProximity "New York"
  = FS.extractLocationFromQuery (Js.toLowerCase "New York").
Proof.
  apply (IndexInvariants.city_blocks_agree_without_aliases "New York"); reflexivity.
Defined.

Lemma sport_blocks_agree_witness :
  FS.encodeSportWithTeams "Basketball"
  = FS.extractSportFromQuery (Js.toLowerCase "Basketball").
Proof.
  apply (IndexInvariants.sport_blocks_agree "Basketball"). left. reflexivity.
Defined.

Lemma greeting_shadows_the_search_witness :
  NovaMicroService.processQueryWithVectorSearch [package1; package2]
    "Show me basketball tickets in Chicago" [package1; package2]
  = {| NovaMicroService.response := NovaMicroService.greeting;
       NovaMicroService.updatedPreferences := None;
       NovaMicroService.suggestedPackages := None |}.
Proof.
  apply (ChatFacts.greeting_shadows_the_search [package1; package2]
           "Show me basketball tickets in Chicago" [package1; package2] "chicago");
    reflexivity.
Defined.

Lemma replies_are_texts_or_suggestions_witness :
  let reply :=
    NovaMicroService.processQueryWithVectorSearch [package1; package2] vip_query
      [package1; package2] in
  (NovaMicroService.suggestedPackages reply = None
   /\ NovaMicroService.updatedPreferences reply = None
   /\ In (NovaMicroService.response reply)
         [ NovaMicroService.greeting; NovaMicroService.help; NovaMicroService.thanks;
           "I'm here to help you find event tickets! Try asking me something like 'Show me basketball tickets in New York' or 'Find VIP packages for 4 people'." ])
  \/ (exists suggestions,
        NovaMicroService.suggestedPackages reply = Some suggestions
        /\ suggestions <> []).
Proof.
  apply (ChatFacts.replies_are_texts_or_suggestions [package1; package2] vip_query
           [package1; package2]).
  discriminate.
Defined.

End FurtherExamples.
